(** * AI-Code-Reviewer backend: a shallow embedding of [backend/app.py]

    The development follows the source file:

    - [Py]: the Python primitives the code relies on ([str.strip],
      [str.lower], [str.upper], [str.endswith], [str.join], [str.encode],
      [round], [min]/[max], the [f"{x:.1f}"] formatting);
    - [Re]: the fragment of [re] needed by the two patterns of the
      testing heuristic, [\b], literals, [\s+] and alternation;
    - the data model: issues, metrics, Bandit findings, scores;
    - [score_from], [build_suggestions], [pretty_summary], [clamp];
    - the tool adapters [run_ruff], [run_radon_metrics], [run_bandit],
      the runner [run_code_output] and the [/review] handler, over an
      explicit environment that answers subprocess invocations, and a state
      that records them together with the temporary files.

    Modelling conventions.  Text is [string], read as the UTF-8 encoding of
    a Python [str], one [ascii] per byte; a character is a code point.  A
    byte that is not part of a well-formed sequence, and the three-byte
    encoding of a surrogate, stand for a lone surrogate, which a [str] may
    hold and UTF-8 cannot encode.  White space ([str.strip], [\s]) and word
    characters ([\w], [\b]) are those of the Unicode database 14.0.0, the
    one of CPython 3.11.  Case conversion is exact on the characters whose
    conversion holds an ASCII character and leaves the others alone, which
    no comparison with an ASCII text such as "HIGH" or ".py" can tell.

    A Python number is a [num]: an [int] is an unbounded integer, a [float]
    is the exact rational it denotes (NaN and the infinities are not
    represented); the quotient of a float division is the environment's.  A
    dictionary with a fixed set of keys is a record; a key that may be
    missing or [null] is an [option] field, [None] standing for both.
    [json.loads] and the shape of each tool's report belong to the
    environment, which hands the adapters the keys they read.

    A spawned program may change the files, and the environment says how.
    A temporary file can always be created; writing a text to it fails
    when the text cannot be encoded.  [compile] may raise other exceptions
    than [SyntaxError]. *)

From Stdlib Require Import ZArith QArith Qround Qabs.
From Stdlib Require Import String Ascii List Bool Lia Lqa.
From Stdlib Require Import DecimalString.
From Stdlib Require DecimalN DecimalFacts.
Import ListNotations.

Local Open Scope string_scope.
Local Open Scope Z_scope.

(* ------------------------------------------------------------------ *)
(** * Python primitives *)

Module Py.

(** A Python number: [int] or [float]. *)
Inductive num : Type :=
| Int (z : Z)
| Float (q : Q).

Definition toQ (x : num) : Q :=
  match x with
  | Int z => inject_Z z
  | Float q => q
  end.

Definition leb (a b : num) : bool := Qle_bool (toQ a) (toQ b).
Definition ltb (a b : num) : bool := negb (Qle_bool (toQ b) (toQ a)).
Definition eqb (a b : num) : bool := Qeq_bool (toQ a) (toQ b).

(** [min(a, b)] and [max(a, b)] return the first argument on a tie. *)
Definition min (a b : num) : num := if ltb b a then b else a.
Definition max (a b : num) : num := if ltb a b then b else a.

(** [round(x)] with one argument: the nearest integer, ties to even. *)
Definition round_half_even (q : Q) : Z :=
  let f := Qfloor q in
  let r := (q - inject_Z f)%Q in
  if Qle_bool r (1 # 2) then
    if Qle_bool (1 # 2) r then (if Z.even f then f else f + 1) else f
  else f + 1.

Definition round (x : num) : Z :=
  match x with
  | Int z => z
  | Float q => round_half_even q
  end.

(** The binary64 number nearest to a rational, ties to even: what a float
    operation returns for an exact result [q]; [None] when it is too large. *)
Definition pow2 (u : Z) : Q :=
  if 0 <=? u then inject_Z (2 ^ u) else 1 # Z.to_pos (2 ^ (- u)).

Definition floor_log2 (a : Q) : Z :=
  let c := Z.log2 (Qnum a) - Z.log2 (Zpos (Qden a)) in
  if Qle_bool (pow2 c) a then c else c - 1.

Definition to_double (q : Q) : option Q :=
  if Qeq_bool q 0 then Some 0%Q
  else
    let a := Qabs q in
    let u := Z.max (floor_log2 a - 52) (-1074) in
    let m := round_half_even (a / pow2 u) in
    let v := (inject_Z m * pow2 u)%Q in
    if Qle_bool (pow2 1024) v then None
    else Some (if Qle_bool 0 q then v else - v)%Q.

(** [float(x)]: [None] stands for [OverflowError]. *)
Definition to_float (x : num) : option Q :=
  match x with
  | Int z => to_double (inject_Z z)
  | Float q => Some q
  end.

Definition is_int (x : num) : bool :=
  match x with
  | Int _ => true
  | Float _ => false
  end.

(** [str(n)] for a non-negative integer. *)
Definition str_of_N (n : N) : string := NilZero.string_of_uint (N.to_uint n).

Definition str_of_nat (n : nat) : string := str_of_N (N.of_nat n).

(** Left padding with zeros up to [d] characters. *)
Fixpoint zeros (n : nat) : string :=
  match n with
  | O => ""
  | S n' => String "0" (zeros n')
  end.

Definition zfill (d : nat) (s : string) : string :=
  zeros (d - String.length s) ++ s.

(** [f"{x:.<d>f}"]: fixed-point notation with [d] decimals, the value rounded
    to the nearest multiple of [10^-d] (ties to even), a minus sign for a
    negative value. *)
Definition format_f (d : nat) (x : num) : string :=
  let q := toQ x in
  let scale := Z.pow 10 (Z.of_nat d) in
  let n := round_half_even (Qabs q * inject_Z scale)%Q in
  let sign := if Qle_bool 0 q then "" else "-" in
  let ipart := str_of_N (Z.to_N (n / scale)) in
  match d with
  | O => sign ++ ipart
  | _ => sign ++ ipart ++ "." ++ zfill d (str_of_N (Z.to_N (n mod scale)))
  end.

(** ** Text

    The characters of a text, each with the bytes that encode it.  An
    ill-formed byte [b] is read as the lone surrogate [U+DC00 + b]. *)
Definition byte (c : ascii) : N := N_of_ascii c.

Definition is_cont (b : N) : bool := ((128 <=? b) && (b <=? 191))%N.

Definition is_lead2 (b0 : N) : bool := ((194 <=? b0) && (b0 <=? 223))%N.

Definition is_lead3 (b0 b1 : N) : bool :=
  ((b0 =? 224) && (160 <=? b1) && (b1 <=? 191)
   || (225 <=? b0) && (b0 <=? 239) && is_cont b1)%N.

Definition is_lead4 (b0 b1 : N) : bool :=
  ((b0 =? 240) && (144 <=? b1) && (b1 <=? 191)
   || (241 <=? b0) && (b0 <=? 243) && is_cont b1
   || (b0 =? 244) && (128 <=? b1) && (b1 <=? 143))%N.

Fixpoint chars (s : string) : list (N * string) :=
  match s with
  | EmptyString => []
  | String a0 s1 =>
      let b0 := byte a0 in
      let ill := ((56320 + b0)%N, String a0 EmptyString) in
      if (b0 <? 128)%N then (b0, String a0 EmptyString) :: chars s1
      else
        match s1 with
        | EmptyString => [ill]
        | String a1 s2 =>
            let b1 := byte a1 in
            if is_lead2 b0 then
              if is_cont b1
              then (((b0 - 192) * 64 + (b1 - 128))%N,
                    String a0 (String a1 EmptyString)) :: chars s2
              else ill :: chars s1
            else
              match s2 with
              | EmptyString => ill :: chars s1
              | String a2 s3 =>
                  let b2 := byte a2 in
                  if is_lead3 b0 b1 then
                    if is_cont b2
                    then (((b0 - 224) * 4096 + (b1 - 128) * 64 + (b2 - 128))%N,
                          String a0 (String a1 (String a2 EmptyString)))
                         :: chars s3
                    else ill :: chars s1
                  else
                    match s3 with
                    | EmptyString => ill :: chars s1
                    | String a3 s4 =>
                        let b3 := byte a3 in
                        if is_lead4 b0 b1 && is_cont b2 && is_cont b3
                        then (((b0 - 240) * 262144 + (b1 - 128) * 4096
                               + (b2 - 128) * 64 + (b3 - 128))%N,
                              String a0
                                (String a1 (String a2 (String a3 EmptyString))))
                             :: chars s4
                        else ill :: chars s1
                    end
              end
        end
  end.

(** The code points of a text, and the text of a list of characters. *)
Definition ords (s : string) : list N := map fst (chars s).

Definition text (l : list (N * string)) : string :=
  fold_right (fun c acc => snd c ++ acc) "" l.

(** [str.isspace] of one character; [\s] is the same class. *)
Definition is_space (c : N) : bool :=
  ((9 <=? c) && (c <=? 13) || (28 <=? c) && (c <=? 32)
   || (c =? 133) || (c =? 160) || (c =? 5760)
   || (8192 <=? c) && (c <=? 8202) || (c =? 8232) || (c =? 8233)
   || (c =? 8239) || (c =? 8287) || (c =? 12288))%N.

Fixpoint drop_space (l : list (N * string)) : list (N * string) :=
  match l with
  | c :: l' => if is_space (fst c) then drop_space l' else l
  | [] => []
  end.

(** [s.strip()] *)
Definition strip (s : string) : string :=
  text (rev (drop_space (rev (drop_space (chars s))))).

(** [s[:n]] *)
Definition take (n : nat) (s : string) : string := text (firstn n (chars s)).

(** [s.encode("utf-8")] succeeds unless [s] holds a surrogate; otherwise it
    raises [UnicodeEncodeError], whose message names the first run of
    surrogates. *)
Definition is_surrogate (c : N) : bool := ((55296 <=? c) && (c <=? 57343))%N.

Definition encodable (s : string) : bool :=
  forallb (fun c => negb (is_surrogate c)) (ords s).

Definition hex_digit (d : N) : string :=
  String (ascii_of_N (if (d <? 10)%N then 48 + d else 87 + d)%N) EmptyString.

Definition hex4 (c : N) : string :=
  hex_digit (c / 4096) ++ hex_digit ((c / 256) mod 16)
  ++ hex_digit ((c / 16) mod 16) ++ hex_digit (c mod 16).

Fixpoint run_length (p : N -> bool) (l : list N) : nat :=
  match l with
  | c :: l' => if p c then S (run_length p l') else O
  | [] => O
  end.

Fixpoint encode_error_from (pos : nat) (l : list N) : string :=
  match l with
  | [] => ""
  | c :: l' =>
      if is_surrogate c then
        match run_length is_surrogate l' with
        | O =>
            "'utf-8' codec can't encode character '\u" ++ hex4 c
            ++ "' in position " ++ str_of_nat pos
            ++ ": surrogates not allowed"
        | S n =>
            "'utf-8' codec can't encode characters in position "
            ++ str_of_nat pos ++ "-" ++ str_of_nat (pos + S n)
            ++ ": surrogates not allowed"
        end
      else encode_error_from (S pos) l'
  end.

Definition encode_error (s : string) : string := encode_error_from 0 (ords s).

(** ** Case conversion, prefixes and suffixes

    [chr(c)], in UTF-8. *)
Definition chr (c : N) : string :=
  let b (n : N) := String (ascii_of_N n) EmptyString in
  (if c <? 128 then b c
   else if c <? 2048 then b (192 + c / 64) ++ b (128 + c mod 64)
   else if c <? 65536 then
     b (224 + c / 4096) ++ b (128 + (c / 64) mod 64) ++ b (128 + c mod 64)
   else
     b (240 + c / 262144) ++ b (128 + (c / 4096) mod 64)
     ++ b (128 + (c / 64) mod 64) ++ b (128 + c mod 64))%N.

Definition of_ords (l : list N) : string :=
  fold_right (fun c acc => chr c ++ acc) "" l.

Definition is_lower (c : ascii) : bool :=
  let n := nat_of_ascii c in ((97 <=? n) && (n <=? 122))%nat.

Definition is_upper (c : ascii) : bool :=
  let n := nat_of_ascii c in ((65 <=? n) && (n <=? 90))%nat.

Definition upper_char (c : ascii) : ascii :=
  if is_lower c then ascii_of_nat (nat_of_ascii c - 32) else c.

Definition lower_char (c : ascii) : ascii :=
  if is_upper c then ascii_of_nat (nat_of_ascii c + 32) else c.

Fixpoint map_chars (f : ascii -> ascii) (s : string) : string :=
  match s with
  | String c s' => String (f c) (map_chars f s')
  | EmptyString => EmptyString
  end.

(** The characters outside ASCII whose upper case, or lower case, holds an
    ASCII character, with that conversion. *)
Definition upper_special : list (N * list N) :=
  [ (223, [83; 83]); (305, [73]); (329, [700; 78]); (383, [83]);
    (496, [74; 780]); (7830, [72; 817]); (7831, [84; 776]);
    (7832, [87; 778]); (7833, [89; 778]); (7834, [65; 702]);
    (64256, [70; 70]); (64257, [70; 73]); (64258, [70; 76]);
    (64259, [70; 70; 73]); (64260, [70; 70; 76]); (64261, [83; 84]);
    (64262, [83; 84]) ]%N.

Definition lower_special : list (N * list N) :=
  [ (304, [105; 775]); (8490, [107]) ]%N.

Fixpoint assoc (c : N) (table : list (N * list N)) : option (list N) :=
  match table with
  | (k, v) :: table' => if (k =? c)%N then Some v else assoc c table'
  | [] => None
  end.

Definition convert (f : ascii -> ascii) (special : list (N * list N))
    (s : string) : string :=
  fold_right
    (fun c acc =>
       match assoc (fst c) special with
       | Some v => of_ords v ++ acc
       | None => map_chars f (snd c) ++ acc
       end)
    "" (chars s).

(** [s.upper()] and [s.lower()], as far as a comparison with an ASCII text
    can tell: the ASCII letters are converted, and so is every character
    whose conversion holds an ASCII character; any other character is left
    as it is, its conversion being, like itself, without ASCII character. *)
Definition upper : string -> string := convert upper_char upper_special.
Definition lower : string -> string := convert lower_char lower_special.

Definition startswith (s p : string) : bool := String.prefix p s.

Definition endswith (s suf : string) : bool :=
  let n := String.length s in
  let k := String.length suf in
  ((k <=? n)%nat && String.eqb (String.substring (n - k) k s) suf).

(** ["sep".join(pieces)]. *)
Fixpoint join (sep : string) (pieces : list string) : string :=
  match pieces with
  | [] => ""
  | [p] => p
  | p :: rest => p ++ sep ++ join sep rest
  end.

(** Truth value of a string, and [x or default] on an optional string. *)
Definition truthy (s : string) : bool := negb (String.eqb s "").

Definition or_else (x : option string) (d : string) : string :=
  match x with
  | Some s => if truthy s then s else d
  | None => d
  end.

End Py.

(* ------------------------------------------------------------------ *)
(** * The fragment of [re] used by the testing heuristic *)

Module Re.

Inductive regex : Type :=
| Lit (s : string)              (* literal text *)
| PlusCls (p : N -> bool)       (* one or more characters of a class *)
| Alt (r1 r2 : regex)           (* r1|r2 *)
| Seq (r1 r2 : regex)           (* r1 r2 *)
| WordB.                        (* \b *)

(** The code points for which [str.isalnum] holds, as inclusive ranges
    (Unicode 14.0.0). *)
Definition alnum_ranges : list (N * N) :=
  [(48, 57); (65, 90); (97, 122); (170, 170); (178, 179); (181, 181);
   (185, 186); (188, 190); (192, 214); (216, 246); (248, 705); (710, 721);
   (736, 740); (748, 748); (750, 750); (880, 884); (886, 887); (890, 893);
   (895, 895); (902, 902); (904, 906); (908, 908); (910, 929); (931, 1013);
   (1015, 1153); (1162, 1327); (1329, 1366); (1369, 1369); (1376, 1416);
   (1488, 1514); (1519, 1522); (1568, 1610); (1632, 1641); (1646, 1647);
   (1649, 1747); (1749, 1749); (1765, 1766); (1774, 1788); (1791, 1791);
   (1808, 1808); (1810, 1839); (1869, 1957); (1969, 1969); (1984, 2026);
   (2036, 2037); (2042, 2042); (2048, 2069); (2074, 2074); (2084, 2084);
   (2088, 2088); (2112, 2136); (2144, 2154); (2160, 2183); (2185, 2190);
   (2208, 2249); (2308, 2361); (2365, 2365); (2384, 2384); (2392, 2401);
   (2406, 2415); (2417, 2432); (2437, 2444); (2447, 2448); (2451, 2472);
   (2474, 2480); (2482, 2482); (2486, 2489); (2493, 2493); (2510, 2510);
   (2524, 2525); (2527, 2529); (2534, 2545); (2548, 2553); (2556, 2556);
   (2565, 2570); (2575, 2576); (2579, 2600); (2602, 2608); (2610, 2611);
   (2613, 2614); (2616, 2617); (2649, 2652); (2654, 2654); (2662, 2671);
   (2674, 2676); (2693, 2701); (2703, 2705); (2707, 2728); (2730, 2736);
   (2738, 2739); (2741, 2745); (2749, 2749); (2768, 2768); (2784, 2785);
   (2790, 2799); (2809, 2809); (2821, 2828); (2831, 2832); (2835, 2856);
   (2858, 2864); (2866, 2867); (2869, 2873); (2877, 2877); (2908, 2909);
   (2911, 2913); (2918, 2927); (2929, 2935); (2947, 2947); (2949, 2954);
   (2958, 2960); (2962, 2965); (2969, 2970); (2972, 2972); (2974, 2975);
   (2979, 2980); (2984, 2986); (2990, 3001); (3024, 3024); (3046, 3058);
   (3077, 3084); (3086, 3088); (3090, 3112); (3114, 3129); (3133, 3133);
   (3160, 3162); (3165, 3165); (3168, 3169); (3174, 3183); (3192, 3198);
   (3200, 3200); (3205, 3212); (3214, 3216); (3218, 3240); (3242, 3251);
   (3253, 3257); (3261, 3261); (3293, 3294); (3296, 3297); (3302, 3311);
   (3313, 3314); (3332, 3340); (3342, 3344); (3346, 3386); (3389, 3389);
   (3406, 3406); (3412, 3414); (3416, 3425); (3430, 3448); (3450, 3455);
   (3461, 3478); (3482, 3505); (3507, 3515); (3517, 3517); (3520, 3526);
   (3558, 3567); (3585, 3632); (3634, 3635); (3648, 3654); (3664, 3673);
   (3713, 3714); (3716, 3716); (3718, 3722); (3724, 3747); (3749, 3749);
   (3751, 3760); (3762, 3763); (3773, 3773); (3776, 3780); (3782, 3782);
   (3792, 3801); (3804, 3807); (3840, 3840); (3872, 3891); (3904, 3911);
   (3913, 3948); (3976, 3980); (4096, 4138); (4159, 4169); (4176, 4181);
   (4186, 4189); (4193, 4193); (4197, 4198); (4206, 4208); (4213, 4225);
   (4238, 4238); (4240, 4249); (4256, 4293); (4295, 4295); (4301, 4301);
   (4304, 4346); (4348, 4680); (4682, 4685); (4688, 4694); (4696, 4696);
   (4698, 4701); (4704, 4744); (4746, 4749); (4752, 4784); (4786, 4789);
   (4792, 4798); (4800, 4800); (4802, 4805); (4808, 4822); (4824, 4880);
   (4882, 4885); (4888, 4954); (4969, 4988); (4992, 5007); (5024, 5109);
   (5112, 5117); (5121, 5740); (5743, 5759); (5761, 5786); (5792, 5866);
   (5870, 5880); (5888, 5905); (5919, 5937); (5952, 5969); (5984, 5996);
   (5998, 6000); (6016, 6067); (6103, 6103); (6108, 6108); (6112, 6121);
   (6128, 6137); (6160, 6169); (6176, 6264); (6272, 6276); (6279, 6312);
   (6314, 6314); (6320, 6389); (6400, 6430); (6470, 6509); (6512, 6516);
   (6528, 6571); (6576, 6601); (6608, 6618); (6656, 6678); (6688, 6740);
   (6784, 6793); (6800, 6809); (6823, 6823); (6917, 6963); (6981, 6988);
   (6992, 7001); (7043, 7072); (7086, 7141); (7168, 7203); (7232, 7241);
   (7245, 7293); (7296, 7304); (7312, 7354); (7357, 7359); (7401, 7404);
   (7406, 7411); (7413, 7414); (7418, 7418); (7424, 7615); (7680, 7957);
   (7960, 7965); (7968, 8005); (8008, 8013); (8016, 8023); (8025, 8025);
   (8027, 8027); (8029, 8029); (8031, 8061); (8064, 8116); (8118, 8124);
   (8126, 8126); (8130, 8132); (8134, 8140); (8144, 8147); (8150, 8155);
   (8160, 8172); (8178, 8180); (8182, 8188); (8304, 8305); (8308, 8313);
   (8319, 8329); (8336, 8348); (8450, 8450); (8455, 8455); (8458, 8467);
   (8469, 8469); (8473, 8477); (8484, 8484); (8486, 8486); (8488, 8488);
   (8490, 8493); (8495, 8505); (8508, 8511); (8517, 8521); (8526, 8526);
   (8528, 8585); (9312, 9371); (9450, 9471); (10102, 10131); (11264, 11492);
   (11499, 11502); (11506, 11507); (11517, 11517); (11520, 11557);
   (11559, 11559); (11565, 11565); (11568, 11623); (11631, 11631);
   (11648, 11670); (11680, 11686); (11688, 11694); (11696, 11702);
   (11704, 11710); (11712, 11718); (11720, 11726); (11728, 11734);
   (11736, 11742); (11823, 11823); (12293, 12295); (12321, 12329);
   (12337, 12341); (12344, 12348); (12353, 12438); (12445, 12447);
   (12449, 12538); (12540, 12543); (12549, 12591); (12593, 12686);
   (12690, 12693); (12704, 12735); (12784, 12799); (12832, 12841);
   (12872, 12879); (12881, 12895); (12928, 12937); (12977, 12991);
   (13312, 19903); (19968, 42124); (42192, 42237); (42240, 42508);
   (42512, 42539); (42560, 42606); (42623, 42653); (42656, 42735);
   (42775, 42783); (42786, 42888); (42891, 42954); (42960, 42961);
   (42963, 42963); (42965, 42969); (42994, 43009); (43011, 43013);
   (43015, 43018); (43020, 43042); (43056, 43061); (43072, 43123);
   (43138, 43187); (43216, 43225); (43250, 43255); (43259, 43259);
   (43261, 43262); (43264, 43301); (43312, 43334); (43360, 43388);
   (43396, 43442); (43471, 43481); (43488, 43492); (43494, 43518);
   (43520, 43560); (43584, 43586); (43588, 43595); (43600, 43609);
   (43616, 43638); (43642, 43642); (43646, 43695); (43697, 43697);
   (43701, 43702); (43705, 43709); (43712, 43712); (43714, 43714);
   (43739, 43741); (43744, 43754); (43762, 43764); (43777, 43782);
   (43785, 43790); (43793, 43798); (43808, 43814); (43816, 43822);
   (43824, 43866); (43868, 43881); (43888, 44002); (44016, 44025);
   (44032, 55203); (55216, 55238); (55243, 55291); (63744, 64109);
   (64112, 64217); (64256, 64262); (64275, 64279); (64285, 64285);
   (64287, 64296); (64298, 64310); (64312, 64316); (64318, 64318);
   (64320, 64321); (64323, 64324); (64326, 64433); (64467, 64829);
   (64848, 64911); (64914, 64967); (65008, 65019); (65136, 65140);
   (65142, 65276); (65296, 65305); (65313, 65338); (65345, 65370);
   (65382, 65470); (65474, 65479); (65482, 65487); (65490, 65495);
   (65498, 65500); (65536, 65547); (65549, 65574); (65576, 65594);
   (65596, 65597); (65599, 65613); (65616, 65629); (65664, 65786);
   (65799, 65843); (65856, 65912); (65930, 65931); (66176, 66204);
   (66208, 66256); (66273, 66299); (66304, 66339); (66349, 66378);
   (66384, 66421); (66432, 66461); (66464, 66499); (66504, 66511);
   (66513, 66517); (66560, 66717); (66720, 66729); (66736, 66771);
   (66776, 66811); (66816, 66855); (66864, 66915); (66928, 66938);
   (66940, 66954); (66956, 66962); (66964, 66965); (66967, 66977);
   (66979, 66993); (66995, 67001); (67003, 67004); (67072, 67382);
   (67392, 67413); (67424, 67431); (67456, 67461); (67463, 67504);
   (67506, 67514); (67584, 67589); (67592, 67592); (67594, 67637);
   (67639, 67640); (67644, 67644); (67647, 67669); (67672, 67702);
   (67705, 67742); (67751, 67759); (67808, 67826); (67828, 67829);
   (67835, 67867); (67872, 67897); (67968, 68023); (68028, 68047);
   (68050, 68096); (68112, 68115); (68117, 68119); (68121, 68149);
   (68160, 68168); (68192, 68222); (68224, 68255); (68288, 68295);
   (68297, 68324); (68331, 68335); (68352, 68405); (68416, 68437);
   (68440, 68466); (68472, 68497); (68521, 68527); (68608, 68680);
   (68736, 68786); (68800, 68850); (68858, 68899); (68912, 68921);
   (69216, 69246); (69248, 69289); (69296, 69297); (69376, 69415);
   (69424, 69445); (69457, 69460); (69488, 69505); (69552, 69579);
   (69600, 69622); (69635, 69687); (69714, 69743); (69745, 69746);
   (69749, 69749); (69763, 69807); (69840, 69864); (69872, 69881);
   (69891, 69926); (69942, 69951); (69956, 69956); (69959, 69959);
   (69968, 70002); (70006, 70006); (70019, 70066); (70081, 70084);
   (70096, 70106); (70108, 70108); (70113, 70132); (70144, 70161);
   (70163, 70187); (70272, 70278); (70280, 70280); (70282, 70285);
   (70287, 70301); (70303, 70312); (70320, 70366); (70384, 70393);
   (70405, 70412); (70415, 70416); (70419, 70440); (70442, 70448);
   (70450, 70451); (70453, 70457); (70461, 70461); (70480, 70480);
   (70493, 70497); (70656, 70708); (70727, 70730); (70736, 70745);
   (70751, 70753); (70784, 70831); (70852, 70853); (70855, 70855);
   (70864, 70873); (71040, 71086); (71128, 71131); (71168, 71215);
   (71236, 71236); (71248, 71257); (71296, 71338); (71352, 71352);
   (71360, 71369); (71424, 71450); (71472, 71483); (71488, 71494);
   (71680, 71723); (71840, 71922); (71935, 71942); (71945, 71945);
   (71948, 71955); (71957, 71958); (71960, 71983); (71999, 71999);
   (72001, 72001); (72016, 72025); (72096, 72103); (72106, 72144);
   (72161, 72161); (72163, 72163); (72192, 72192); (72203, 72242);
   (72250, 72250); (72272, 72272); (72284, 72329); (72349, 72349);
   (72368, 72440); (72704, 72712); (72714, 72750); (72768, 72768);
   (72784, 72812); (72818, 72847); (72960, 72966); (72968, 72969);
   (72971, 73008); (73030, 73030); (73040, 73049); (73056, 73061);
   (73063, 73064); (73066, 73097); (73112, 73112); (73120, 73129);
   (73440, 73458); (73648, 73648); (73664, 73684); (73728, 74649);
   (74752, 74862); (74880, 75075); (77712, 77808); (77824, 78894);
   (82944, 83526); (92160, 92728); (92736, 92766); (92768, 92777);
   (92784, 92862); (92864, 92873); (92880, 92909); (92928, 92975);
   (92992, 92995); (93008, 93017); (93019, 93025); (93027, 93047);
   (93053, 93071); (93760, 93846); (93952, 94026); (94032, 94032);
   (94099, 94111); (94176, 94177); (94179, 94179); (94208, 100343);
   (100352, 101589); (101632, 101640); (110576, 110579); (110581, 110587);
   (110589, 110590); (110592, 110882); (110928, 110930); (110948, 110951);
   (110960, 111355); (113664, 113770); (113776, 113788); (113792, 113800);
   (113808, 113817); (119520, 119539); (119648, 119672); (119808, 119892);
   (119894, 119964); (119966, 119967); (119970, 119970); (119973, 119974);
   (119977, 119980); (119982, 119993); (119995, 119995); (119997, 120003);
   (120005, 120069); (120071, 120074); (120077, 120084); (120086, 120092);
   (120094, 120121); (120123, 120126); (120128, 120132); (120134, 120134);
   (120138, 120144); (120146, 120485); (120488, 120512); (120514, 120538);
   (120540, 120570); (120572, 120596); (120598, 120628); (120630, 120654);
   (120656, 120686); (120688, 120712); (120714, 120744); (120746, 120770);
   (120772, 120779); (120782, 120831); (122624, 122654); (123136, 123180);
   (123191, 123197); (123200, 123209); (123214, 123214); (123536, 123565);
   (123584, 123627); (123632, 123641); (124896, 124902); (124904, 124907);
   (124909, 124910); (124912, 124926); (124928, 125124); (125127, 125135);
   (125184, 125251); (125259, 125259); (125264, 125273); (126065, 126123);
   (126125, 126127); (126129, 126132); (126209, 126253); (126255, 126269);
   (126464, 126467); (126469, 126495); (126497, 126498); (126500, 126500);
   (126503, 126503); (126505, 126514); (126516, 126519); (126521, 126521);
   (126523, 126523); (126530, 126530); (126535, 126535); (126537, 126537);
   (126539, 126539); (126541, 126543); (126545, 126546); (126548, 126548);
   (126551, 126551); (126553, 126553); (126555, 126555); (126557, 126557);
   (126559, 126559); (126561, 126562); (126564, 126564); (126567, 126570);
   (126572, 126578); (126580, 126583); (126585, 126588); (126590, 126590);
   (126592, 126601); (126603, 126619); (126625, 126627); (126629, 126633);
   (126635, 126651); (127232, 127244); (130032, 130041); (131072, 173791);
   (173824, 177976); (177984, 178205); (178208, 183969); (183984, 191456);
   (194560, 195101); (196608, 201546) ]%N.

Definition in_ranges (ranges : list (N * N)) (c : N) : bool :=
  existsb (fun r => ((fst r <=? c) && (c <=? snd r))%N) ranges.

(** [\w]: alphanumeric, or the underscore. *)
Definition is_word (c : N) : bool := in_ranges alnum_ranges c || (c =? 95)%N.

Definition word_opt (c : option N) : bool :=
  match c with
  | Some a => is_word a
  | None => false
  end.

Definition first_char (s : list N) : option N :=
  match s with
  | c :: _ => Some c
  | [] => None
  end.

(** [\b] holds between [prev] and the rest [s] when exactly one side is a
    word character (the outside of the text is not). *)
Definition boundary (prev : option N) (s : list N) : bool :=
  xorb (word_opt prev) (word_opt (first_char s)).

(** Matching is by continuation: [k prev' s'] is asked whether the rest of
    the pattern matches at the position reached. *)
Fixpoint lit (l : list N) (prev : option N) (s : list N)
    (k : option N -> list N -> bool) : bool :=
  match l with
  | [] => k prev s
  | a :: l' =>
      match s with
      | c :: s' => (a =? c)%N && lit l' (Some c) s' k
      | [] => false
      end
  end.

Fixpoint plus (p : N -> bool) (s : list N)
    (k : option N -> list N -> bool) : bool :=
  match s with
  | c :: s' => p c && (plus p s' k || k (Some c) s')
  | [] => false
  end.

Fixpoint matches (r : regex) (prev : option N) (s : list N)
    (k : option N -> list N -> bool) : bool :=
  match r with
  | Lit l => lit (Py.ords l) prev s k
  | PlusCls p => plus p s k
  | Alt r1 r2 => matches r1 prev s k || matches r2 prev s k
  | Seq r1 r2 => matches r1 prev s (fun prev' s' => matches r2 prev' s' k)
  | WordB => boundary prev s && k prev s
  end.

Definition match_here (r : regex) (prev : option N) (s : list N) : bool :=
  matches r prev s (fun _ _ => true).

Fixpoint search_from (r : regex) (prev : option N) (s : list N) : bool :=
  match_here r prev s
  || match s with
     | c :: s' => search_from r (Some c) s'
     | [] => false
     end.

(** [bool(re.search(r, s))], [s] given by its code points. *)
Definition search (r : regex) (s : list N) : bool := search_from r None s.

End Re.

(* ------------------------------------------------------------------ *)
(** * Data model *)

(** An entry of the [issues] list: [{"type": .., "detail": .., "line": ..}].
    A type is a rule code, a string, or [None] when the tool reports none. *)
Record Issue : Type := mkIssue {
  issue_type : option string;
  issue_detail : option string;
  issue_line : option Z
}.

(** The [metrics] dictionary: keys [mi], [avg_cc], [max_cc], each a number
    or [None]. *)
Record Metrics : Type := mkMetrics {
  mi : option Py.num;
  avg_cc : option Py.num;
  max_cc : option Py.num
}.

(** A key read with a default, [d.get(key, default)]: the default is used
    only when the key is missing; a JSON [null] is returned as [None]. *)
Inductive entry (A : Type) : Type :=
| Missing
| Null
| Val (a : A).
Arguments Missing {A}.
Arguments Null {A}.
Arguments Val {A} a.

Definition get_default {A : Type} (e : entry A) (d : A) : option A :=
  match e with
  | Missing => Some d
  | Null => None
  | Val a => Some a
  end.

(** One entry of Bandit's [results], restricted to the keys the code reads. *)
Record SecFinding : Type := mkSecFinding {
  test_id : entry string;
  issue_text : entry string;
  line_number : option Z;
  issue_severity : option string
}.

(** The [scores] dictionary. *)
Record ScoreSet : Type := mkScores {
  readability : Z;
  complexity : Z;
  security : Z;
  testing : Z
}.

(** The body of a successful [/review] response. *)
Record ReviewResult : Type := mkReview {
  summary : string;
  issues : list Issue;
  scores : ScoreSet;
  output : string;
  suggestions : list string
}.

(* ------------------------------------------------------------------ *)
(** * Score derivation *)

(** [clamp(v, lo, hi) = max(lo, min(hi, v))]. *)
Definition clamp (v lo hi : Py.num) : Py.num := Py.max lo (Py.min hi v).

(** [i.get("type") == code]. *)
Definition type_is (code : string) (i : Issue) : bool :=
  match issue_type i with
  | Some t => String.eqb t code
  | None => false
  end.

(** [any(i.get("type") == "SYNTAX_ERROR" for i in issues)]. *)
Definition has_syntax_error (issues : list Issue) : bool :=
  existsb (type_is "SYNTAX_ERROR") issues.

(** [(f.get("issue_severity") or "").upper()]. *)
Definition severity (f : SecFinding) : string :=
  Py.upper (Py.or_else (issue_severity f) "").

(** [20 if sev == "HIGH" else 10 if sev == "MEDIUM" else 5]. *)
Definition severity_penalty (f : SecFinding) : Z :=
  let sev := severity f in
  if String.eqb sev "HIGH" then 20
  else if String.eqb sev "MEDIUM" then 10
  else 5.

(** The loop [penalty = 0; for f in sec_findings: penalty += ...]. *)
Definition total_penalty (sec_findings : list SecFinding) : Z :=
  fold_left (fun penalty f => penalty + severity_penalty f) sec_findings 0.

(** [\bimport\s+(unittest|pytest)\b] *)
Definition re_import_tests : Re.regex :=
  Re.Seq Re.WordB
    (Re.Seq (Re.Lit "import")
       (Re.Seq (Re.PlusCls Py.is_space)
          (Re.Seq (Re.Alt (Re.Lit "unittest") (Re.Lit "pytest")) Re.WordB))).

(** [\bdef\s+test_] *)
Definition re_def_test : Re.regex :=
  Re.Seq Re.WordB
    (Re.Seq (Re.Lit "def") (Re.Seq (Re.PlusCls Py.is_space) (Re.Lit "test_"))).

Definition has_tests (code : string) : bool :=
  Re.search re_import_tests (Py.ords code)
  || Re.search re_def_test (Py.ords code).

(** The complexity bucket of an average cyclomatic complexity. *)
Definition complexity_bucket (avg : option Py.num) : Py.num :=
  match avg with
  | Some a =>
      if Py.leb a (Py.Int 1) then Py.Int 95
      else if Py.leb a (Py.Int 3) then Py.Int 85
      else if Py.leb a (Py.Int 6) then Py.Int 70
      else if Py.leb a (Py.Int 10) then Py.Int 55
      else Py.Int 35
  | None => Py.Int 0
  end.

Definition score_from (metrics : Metrics) (issues : list Issue)
    (sec_findings : list SecFinding) (code : string) : ScoreSet :=
  if has_syntax_error issues then
    {| readability := 0;
       complexity := 0;
       security := match sec_findings with [] => 0 | _ => 30 end;
       testing := 0 |}
  else
    let readability :=
      clamp (match mi metrics with Some v => v | None => Py.Int 0 end)
            (Py.Int 0) (Py.Int 100) in
    let complexity := complexity_bucket (avg_cc metrics) in
    let penalty := total_penalty sec_findings in
    let security := clamp (Py.Int (95 - penalty)) (Py.Int 0) (Py.Int 95) in
    let testing := if has_tests code then Py.Int 80 else Py.Int 20 in
    {| readability := Py.round readability;
       complexity := Py.round complexity;
       security := Py.round security;
       testing := Py.round testing |}.

(* ------------------------------------------------------------------ *)
(** * Suggestions *)

(** [codes = {i.get("type") for i in issues if i.get("type")}], kept as a
    list: only membership is ever asked of it. *)
Definition codes_of (issues : list Issue) : list string :=
  flat_map
    (fun i =>
       match issue_type i with
       | Some t => if Py.truthy t then [t] else []
       | None => []
       end)
    issues.

(** [c in codes]. *)
Definition in_codes (c : string) (codes : list string) : bool :=
  existsb (String.eqb c) codes.

(** [if cond: sugg.append(text)]. *)
Definition append_if (cond : bool) (text : string) (sugg : list string)
    : list string :=
  if cond then (sugg ++ [text])%list else sugg.

Definition sugg_syntax : string :=
  "Fix the syntax error first so static analysis can run cleanly.".
Definition sugg_f401 : string := "Remove unused imports (ruff F401).".
Definition sugg_spacing : string :=
  "Apply PEP 8 spacing around functions/classes.".
Definition sugg_e501 : string :=
  "Wrap long lines (E501) to improve readability.".
Definition sugg_bandit : string :=
  "Review potential security issues flagged by Bandit.".
Definition sugg_cc : string :=
  "Refactor large/nested functions to reduce cyclomatic complexity.".
Definition sugg_mi : string :=
  "Increase maintainability: simplify logic, extract helpers, add docstrings.".
Definition sugg_high (n : nat) : string :=
  "Address " ++ Py.str_of_nat n ++ " HIGH-severity Bandit finding(s) immediately.".
Definition sugg_medlow : string :=
  "Resolve Bandit MED/LOW findings as part of hardening.".
Definition sugg_tests : string :=
  "Add unit tests (pytest or unittest) for critical paths and edge cases.".
Definition sugg_fallback : string :=
  "Looks good. Consider docstrings and a few tests to lock behavior in.".

(** [[f for f in sec_findings if (f.get("issue_severity") or "").upper() == "HIGH"]] *)
Definition high_findings (sec_findings : list SecFinding) : list SecFinding :=
  filter (fun f => String.eqb (severity f) "HIGH") sec_findings.

Definition build_suggestions (metrics : Metrics) (issues : list Issue)
    (sec_findings : list SecFinding) (code : string) : list string :=
  let sugg := [] in
  let sugg := append_if (has_syntax_error issues) sugg_syntax sugg in
  let codes := codes_of issues in
  let sugg := append_if (in_codes "F401" codes) sugg_f401 sugg in
  let sugg :=
    append_if (in_codes "E302" codes || in_codes "E305" codes) sugg_spacing sugg in
  let sugg := append_if (in_codes "E501" codes) sugg_e501 sugg in
  let sugg :=
    append_if (existsb (fun c => Py.startswith c "B") codes) sugg_bandit sugg in
  let sugg :=
    append_if
      (match avg_cc metrics with
       | Some a => Py.ltb (Py.Int 6) a
       | None => false
       end)
      sugg_cc sugg in
  let sugg :=
    append_if
      (match mi metrics with
       | Some m => Py.ltb m (Py.Int 60)
       | None => false
       end)
      sugg_mi sugg in
  let hi := high_findings sec_findings in
  let sugg :=
    match hi with
    | _ :: _ => (sugg ++ [sugg_high (List.length hi)])%list
    | [] =>
        match sec_findings with
        | _ :: _ => (sugg ++ [sugg_medlow])%list
        | [] => sugg
        end
    end in
  let sugg :=
    append_if
      (negb (Re.search re_import_tests (Py.ords code)
             || Re.search re_def_test (Py.ords code)))
      sugg_tests sugg in
  match sugg with
  | [] => [sugg_fallback]
  | _ => sugg
  end.

(* ------------------------------------------------------------------ *)
(** * Summary line *)

Definition cx_label_of (avg : option Py.num) : string :=
  match avg with
  | Some a =>
      if Py.eqb a (Py.Int 0) then "trivial"
      else if Py.leb a (Py.Int 3) then "low"
      else if Py.leb a (Py.Int 6) then "moderate"
      else if Py.leb a (Py.Int 10) then "high"
      else "very high"
  | None => "n/a"
  end.

(** ["n/a" if x is None else f"{x:.<d>f}"] *)
Definition txt_of (d : nat) (x : option Py.num) : string :=
  match x with
  | None => "n/a"
  | Some v => Py.format_f d v
  end.

Definition pretty_summary (metrics : Metrics) (lint_count sec_count : nat)
    : string :=
  let mi_txt := txt_of 0 (mi metrics) in
  let avg_txt := txt_of 1 (avg_cc metrics) in
  let max_txt := txt_of 1 (max_cc metrics) in
  let cx_label := cx_label_of (avg_cc metrics) in
  "Maintainability Index: " ++ mi_txt ++ " | "
  ++ "Complexity: avg " ++ avg_txt ++ " (" ++ cx_label ++ "), max " ++ max_txt
  ++ " | "
  ++ "Ruff: " ++ Py.str_of_nat lint_count ++ " issues | "
  ++ "Bandit: " ++ Py.str_of_nat sec_count ++ " findings".

(* ------------------------------------------------------------------ *)
(** * Subprocesses, temporary files and the request environment *)

(** Exceptions, as far as the handlers tell them apart: the code has
    [except FileNotFoundError] and [except Exception]. Each carries [str(e)]. *)
Inductive exn : Type :=
| FileNotFoundError (msg : string)
| Exception (msg : string).

Definition exn_str (e : exn) : string :=
  match e with
  | FileNotFoundError msg => msg
  | Exception msg => msg
  end.

Inductive result (A : Type) : Type :=
| Ok (a : A)
| Raise (e : exn).
Arguments Ok {A} a.
Arguments Raise {A} e.

(** [subprocess.CompletedProcess] with [capture_output=True, text=True]. *)
Record CompletedProcess : Type := mkCompleted {
  returncode : Z;
  stdout : string;
  stderr : string
}.

(** Files by path, and a subprocess invocation: command line and timeout. *)
Definition FileSystem : Type := list (string * string).
Definition Call : Type := (list string * Z)%type.

(** What [compile(code, "<string>", "exec")] raises: [e.msg], [e.lineno]. *)
Record SyntaxError : Type := mkSyntaxError {
  msg : string;
  lineno : option Z
}.

(** Decoded tool output.  [json.loads] and the shape of each tool's JSON are
    the environment's; the fields below are the keys the code reads. *)
Record RuffFinding : Type := mkRuffFinding {
  rf_code : entry string;       (* f.get("code", "RUFF") *)
  rf_message : entry string;    (* f.get("message", "Lint") *)
  rf_row : option Z             (* f.get("location", {}).get("row") *)
}.

(** [mi_data.get(path)]: a dictionary with an [mi] key, a list of such, or
    anything else (including a missing path). *)
Inductive mi_raw : Type :=
| MiDict (mi_val : option Py.num)
| MiList (items : list (option Py.num))
| MiOther.

Record BanditReport : Type := mkBanditReport {
  results : option (list SecFinding)    (* data.get("results", []) *)
}.

Record Env : Type := mkEnv {
  (* subprocess.run(cmd, capture_output=True, text=True, timeout=t) *)
  subprocess_run : FileSystem -> list string -> Z -> result CompletedProcess;
  (* the files once that invocation is over: a program may write, and
     whatever it does is done even when the invocation raises *)
  files_after : FileSystem -> list string -> Z -> FileSystem;
  (* the name tempfile.NamedTemporaryFile(suffix=".py") picks *)
  mkstemp : FileSystem -> string;
  (* compile(code, "<string>", "exec"): Ok None when the code parses,
     Ok (Some e) when it raises the SyntaxError e, Raise when it raises
     anything else (ValueError, RecursionError, MemoryError) *)
  py_compile : string -> result (option SyntaxError);
  loads_ruff : string -> result (list RuffFinding);
  (* radon's reports, by path; for cc the "complexity" of each entry,
     None when it is not a number *)
  loads_radon_mi : string -> result (string -> mi_raw);
  loads_radon_cc : string -> result (string -> list (option Py.num));
  loads_bandit : string -> result BanditReport;
  (* sum(nums) when nums holds a float: a float, the additions being
     rounded in a way that depends on the interpreter *)
  float_sum : list Py.num -> Q
}.

Record State : Type := mkState {
  fs : FileSystem;
  spawned : list Call
}.

(** Computations that read the environment, update the state and may raise. *)
Definition M (A : Type) : Type := Env -> State -> result A * State.

Definition ret {A : Type} (a : A) : M A := fun _ st => (Ok a, st).

Definition bind {A B : Type} (m : M A) (k : A -> M B) : M B :=
  fun env st =>
    match m env st with
    | (Ok a, st') => k a env st'
    | (Raise e, st') => (Raise e, st')
    end.

Declare Scope py_scope.
Delimit Scope py_scope with py.
Notation "x <- m ;; k" := (bind m (fun x => k))
  (at level 100, m at next level, right associativity) : py_scope.
Local Open Scope py_scope.

(** [try: m] observed from outside: the outcome, never an exception. *)
Definition attempt {A : Type} (m : M A) : M (result A) :=
  fun env st => let (r, st') := m env st in (Ok r, st').

(** [try: m finally: cleanup]. *)
Definition finally {A : Type} (m : M A) (cleanup : M unit) : M A :=
  fun env st =>
    let (r, st1) := m env st in
    match cleanup env st1 with
    | (Ok _, st2) => (r, st2)
    | (Raise e, st2) => (Raise e, st2)
    end.

Definition lift {A : Type} (r : result A) : M A := fun _ st => (r, st).

Definition ask : M Env := fun env st => (Ok env, st).

(** [subprocess.run]: the invocation is recorded, the environment answers
    and says what has become of the files. *)
Definition subprocess (cmd : list string) (timeout : Z) : M CompletedProcess :=
  fun env st =>
    (subprocess_run env (fs st) cmd timeout,
     {| fs := files_after env (fs st) cmd timeout;
        spawned := spawned st ++ [(cmd, timeout)] |}).

(** [with tempfile.NamedTemporaryFile(delete=False, suffix=".py") as tmp:
       tmp.write(code.encode("utf-8")); path = tmp.name]
    The file is created first; when the text cannot be encoded the
    exception leaves the block, and the file, still empty, stays. *)
Definition named_temporary_file (content : string) : M string :=
  fun env st =>
    let path := mkstemp env (fs st) in
    if Py.encodable content then
      (Ok path, {| fs := (path, content) :: fs st; spawned := spawned st |})
    else
      (Raise (Exception (Py.encode_error content)),
       {| fs := (path, "") :: fs st; spawned := spawned st |}).

(** [try: os.unlink(path) except Exception: pass] *)
Definition unlink (path : string) : M unit :=
  fun _ st =>
    (Ok tt,
     {| fs := filter (fun f => negb (String.eqb (fst f) path)) (fs st);
        spawned := spawned st |}).

(* ------------------------------------------------------------------ *)
(** * Helpers and tool adapters *)

(** [run(cmd, timeout=20)] *)
Definition run (cmd : list string) (timeout : Z) : M CompletedProcess :=
  subprocess cmd timeout.

(** [e.lineno or None] *)
Definition or_none (z : option Z) : option Z :=
  match z with
  | Some 0 => None
  | _ => z
  end.

(** Only [SyntaxError] is caught: any other exception of [compile] leaves
    [syntax_check]. *)
Definition syntax_check (code : string) : M (option Issue) :=
  env <- ask ;;
  match py_compile env code with
  | Ok None => ret None
  | Ok (Some e) =>
      ret (Some {| issue_type := Some "SYNTAX_ERROR";
                   issue_detail := Some (msg e);
                   issue_line := or_none (lineno e) |})
  | Raise e => lift (Raise e)
  end.

(** [out.returncode not in (0, 1)] *)
Definition not_in_0_1 (rc : Z) : bool := negb ((rc =? 0) || (rc =? 1)).

Definition issue_of_ruff (f : RuffFinding) : Issue :=
  {| issue_type := get_default (rf_code f) "RUFF";
     issue_detail := get_default (rf_message f) "Lint";
     issue_line := rf_row f |}.

Definition run_ruff (path : string) : M (list Issue) :=
  r <- attempt (run ["ruff"; "check"; path; "--output-format"; "json"] 20) ;;
  match r with
  | Raise (FileNotFoundError _) =>
      ret [ {| issue_type := Some "RUFF_MISSING";
               issue_detail := Some "ruff not installed in venv";
               issue_line := None |} ]
  | Raise (Exception m) =>
      ret [ {| issue_type := Some "RUFF_ERROR";
               issue_detail := Some m;          (* str(e) *)
               issue_line := None |} ]
  | Ok out =>
      if not_in_0_1 (returncode out) then
        ret [ {| issue_type := Some "RUFF_ERROR";
                 issue_detail :=
                   Some (Py.strip (Py.or_else (Some (stderr out)) "ruff failed"));
                 issue_line := None |} ]
      else
        env <- ask ;;
        findings <- (if Py.truthy (Py.strip (stdout out))
                     then lift (loads_ruff env (stdout out))
                     else ret []) ;;
        ret (map issue_of_ruff findings)
  end.

(** [float(x)], which raises [OverflowError] on too large an integer. *)
Definition float_of (x : Py.num) : M Q :=
  match Py.to_float x with
  | Some q => ret q
  | None => lift (Raise (Exception "int too large to convert to float"))
  end.

(** The first [try] block of [run_radon_metrics]: the maintainability index. *)
Definition radon_mi (path : string) : M (option Py.num) :=
  r <- attempt
         (out <- run ["radon"; "mi"; "-j"; path] 20 ;;
          if (returncode out =? 0) && Py.truthy (Py.strip (stdout out)) then
            env <- ask ;;
            mi_data <- lift (loads_radon_mi env (stdout out)) ;;
            let mi_val :=
              match mi_data path with
              | MiDict v => v
              | MiList (x :: _) => x
              | _ => None
              end in
            match mi_val with
            | Some v =>
                q <- float_of v ;;                       (* float(mi_val) *)
                ret (Some (Py.Float q))
            | None => ret None
            end
          else ret None) ;;
  match r with
  | Ok v => ret v
  | Raise _ => ret None
  end.

(** [sum(nums)]: an integer, exact, when every number is one; a float, the
    environment's, otherwise. *)
Definition int_sum (nums : list Py.num) : Z :=
  fold_left
    (fun acc x => acc + match x with Py.Int z => z | Py.Float _ => 0 end)
    nums 0.

Definition sum (nums : list Py.num) : M Py.num :=
  env <- ask ;;
  if forallb Py.is_int nums
  then ret (Py.Int (int_sum nums))
  else ret (Py.Float (float_sum env nums)).

(** [a / b] for a number [a] and a positive integer [b]: the float nearest
    to the quotient; [OverflowError] when an integer quotient is too large. *)
Definition truediv (a : Py.num) (b : nat) : M Py.num :=
  match Py.to_double (Py.toQ a / inject_Z (Z.of_nat b))%Q with
  | Some q => ret (Py.Float q)
  | None =>
      lift (Raise (Exception "integer division result too large for a float"))
  end.

(** [sum(nums) / len(nums)] and [max(nums)] on a non-empty list. *)
Definition mean (n : Py.num) (rest : list Py.num) : M Py.num :=
  total <- sum (n :: rest) ;;
  truediv total (List.length (n :: rest)).

Definition maximum (n : Py.num) (rest : list Py.num) : Py.num :=
  fold_left Py.max rest n.

Definition numbers (entries : list (option Py.num)) : list Py.num :=
  flat_map (fun e => match e with Some n => [n] | None => [] end) entries.

(** The second [try] block: average and maximum cyclomatic complexity. *)
Definition radon_cc (path : string) : M (option Py.num * option Py.num) :=
  let zero := Some (Py.Float 0) in
  r <- attempt
         (out <- run ["radon"; "cc"; "-s"; "-j"; path] 20 ;;
          if (returncode out =? 0) && Py.truthy (Py.strip (stdout out)) then
            env <- ask ;;
            cc_data <- lift (loads_radon_cc env (stdout out)) ;;
            match numbers (cc_data path) with
            | n :: rest =>
                avg <- mean n rest ;;
                ret (Some avg, Some (maximum n rest))
            | [] => ret (zero, zero)
            end
          else ret (zero, zero)) ;;
  match r with
  | Ok v => ret v
  | Raise _ => ret (None, None)
  end.

Definition run_radon_metrics (path : string) : M Metrics :=
  m <- radon_mi path ;;
  cc <- radon_cc path ;;
  ret {| mi := m; avg_cc := fst cc; max_cc := snd cc |}.

Definition run_bandit (path : string) : M (list SecFinding) :=
  r <- attempt (run ["bandit"; "-q"; "-f"; "json"; path] 30) ;;
  match r with
  | Raise (FileNotFoundError _) => ret []
  | Raise (Exception _) => ret []
  | Ok out =>
      if not_in_0_1 (returncode out) then ret []
      else
        env <- ask ;;
        match loads_bandit env (Py.or_else (Some (stdout out)) "{}") with
        | Raise _ => ret []
        | Ok data =>
            ret (match results data with
                 | Some l => l
                 | None => []
                 end)
        end
  end.

(* ------------------------------------------------------------------ *)
(** * Running the submitted code *)

Definition nl : string := String (ascii_of_nat 10) EmptyString.

Definition run_code_output (code : string) : M string :=
  path <- named_temporary_file code ;;
  finally
    (r <- attempt (subprocess ["python"; path] 5) ;;
     match r with
     | Ok out =>
         let pieces := [] in
         let pieces :=
           if Py.truthy (Py.strip (stdout out))
           then (pieces ++ [Py.strip (stdout out)])%list else pieces in
         let pieces :=
           if Py.truthy (Py.strip (stderr out))
           then (pieces ++ [("ERR: " ++ Py.strip (stderr out))%string])%list
           else pieces in
         ret (match pieces with
              | [] => "(no output)"
              | _ => Py.join nl pieces
              end)
     | Raise e => ret ("Runtime error: " ++ exn_str e)
     end)
    (unlink path).

(* ------------------------------------------------------------------ *)
(** * The [/review] handler *)

(** The JSON body: [data.get("filename")], [data.get("code")]. *)
Record Request : Type := mkRequest {
  req_filename : option string;
  req_code : option string
}.

Inductive Response : Type :=
| BadRequest (error : string)      (* ({"error": ..}, 400) *)
| Reviewed (r : ReviewResult).     (* the review dictionary, 200 *)

Definition non_python_result : ReviewResult :=
  {| summary := "Non-Python file — analysis is only enabled for .py in this MVP.";
     issues := [];
     scores := {| readability := 0; complexity := 0; security := 0; testing := 0 |};
     output := "(not run — non-Python file)";
     suggestions := ["Paste a .py file to get full analysis."] |}.

(** The issue appended for each Bandit finding. *)
Definition issue_of_finding (f : SecFinding) : Issue :=
  {| issue_type := get_default (test_id f) "BANDIT";
     issue_detail := get_default (issue_text f) "Potential security issue";
     issue_line := line_number f |}.

(** [len([i for i in issues if not (i.get("type") or "").startswith("SYNTAX")])] *)
Definition lint_count_of (issues : list Issue) : nat :=
  List.length
    (filter
       (fun i => negb (Py.startswith (Py.or_else (issue_type i) "") "SYNTAX"))
       issues).

(** Everything after the two early returns of [review]. *)
Definition analyse (code : string) : M Response :=
  path <- named_temporary_file code ;;
  finally
    (syn_err <- syntax_check code ;;
     let issues := match syn_err with Some e => [e] | None => [] end in
     ruff <- run_ruff path ;;
     let issues := (issues ++ ruff)%list in
     metrics <- run_radon_metrics path ;;
     sec_findings <- run_bandit path ;;
     let issues := (issues ++ map issue_of_finding sec_findings)%list in
     let scores := score_from metrics issues sec_findings code in
     let suggestions := build_suggestions metrics issues sec_findings code in
     let lint_count := lint_count_of issues in
     let summary := pretty_summary metrics lint_count (List.length sec_findings) in
     output <- run_code_output code ;;
     ret (Reviewed {| summary := summary;
                      issues := issues;
                      scores := scores;
                      output := output;
                      suggestions := suggestions |}))
    (unlink path).

Definition review (req : Request) : M Response :=
  let code := Py.strip (Py.or_else (req_code req) "") in
  let filename := Py.strip (Py.or_else (req_filename req) "snippet.py") in
  if negb (Py.truthy code) then ret (BadRequest "No code provided.")
  else if negb (Py.endswith (Py.lower filename) ".py") then
    ret (Reviewed non_python_result)
  else analyse code.

(* ------------------------------------------------------------------ *)
(** * Notions used to state the properties *)

(** The character just before the end of [pre], or [prev] when [pre] is
    empty: what [\b] looks at on its left once [pre] has been skipped. *)
Fixpoint char_before (prev : option N) (pre : list N) : option N :=
  match pre with
  | [] => prev
  | c :: pre' => char_before (Some c) pre'
  end.


(** The nine rules of the suggestion builder, in order: whether the rule
    fires, and the suggestion it then contributes. *)
Definition rules (metrics : Metrics) (issues : list Issue)
    (sec_findings : list SecFinding) (code : string) : list (bool * string) :=
  let codes := codes_of issues in
  let hi := high_findings sec_findings in
  [ (has_syntax_error issues, sugg_syntax);
    (in_codes "F401" codes, sugg_f401);
    (in_codes "E302" codes || in_codes "E305" codes, sugg_spacing);
    (in_codes "E501" codes, sugg_e501);
    (existsb (fun c => Py.startswith c "B") codes, sugg_bandit);
    (match avg_cc metrics with Some a => Py.ltb (Py.Int 6) a | None => false end,
     sugg_cc);
    (match mi metrics with Some m => Py.ltb m (Py.Int 60) | None => false end,
     sugg_mi);
    (match sec_findings with [] => false | _ :: _ => true end,
     match hi with [] => sugg_medlow | _ :: _ => sugg_high (List.length hi) end);
    (negb (has_tests code), sugg_tests) ].

(** The suggestions of the rules that fire, in order. *)
Definition fired (rs : list (bool * string)) : list string :=
  map snd (filter fst rs).

(** [n] is an integer nearest to [q]. *)
Definition nearest (n : Z) (q : Q) : Prop :=
  (Qabs (q - inject_Z n) <= 1 # 2)%Q.





(** [int(s)] for a decimal numeral without sign. *)
Definition int_of_str (s : string) : option N :=
  option_map N.of_uint (NilZero.uint_of_string s).

(** A text without line break. *)
Fixpoint single_line (s : string) : bool :=
  match s with
  | EmptyString => true
  | String c s' => negb (Ascii.eqb c "010"%char) && single_line s'
  end.

(** The program [tool] is not installed: spawning it raises
    [FileNotFoundError], whatever its arguments. *)
Definition binary_absent (env : Env) (tool : string) : Prop :=
  forall files args timeout,
    exists msg,
      subprocess_run env files (tool :: args) timeout
      = Raise (FileNotFoundError msg).

(** [st'] has the invocations of [st], possibly followed by more. *)
Definition extends (st st' : State) : Prop :=
  exists calls, spawned st' = (spawned st ++ calls)%list.

(** A computation that never forgets an invocation. *)
Definition monotone {A : Type} (m : M A) : Prop :=
  forall env st, extends st (snd (m env st)).

(** Sample inputs. *)
Definition no_metrics : Metrics :=
  {| mi := None; avg_cc := None; max_cc := None |}.

Definition syntax_issue : Issue :=
  {| issue_type := Some "SYNTAX_ERROR";
     issue_detail := Some "invalid syntax";
     issue_line := Some 1 |}.

Definition finding (sev : string) : SecFinding :=
  {| test_id := Val "B101";
     issue_text := Val "Use of assert detected.";
     line_number := Some 1;
     issue_severity := Some sev |}.

(** The name of the next temporary file: one per file already there. *)
Definition tmp_name (files : FileSystem) : string :=
  "/tmp/tmp" ++ Py.str_of_nat (List.length files) ++ ".py".

(** The sum of floats when no addition needs rounding. *)
Definition exact_sum (nums : list Py.num) : Q :=
  fold_left (fun acc x => acc + Py.toQ x)%Q nums 0%Q.

(** A machine without any of the external programs. *)
Definition env_no_tools : Env :=
  {| subprocess_run := fun _ cmd _ =>
       Raise (FileNotFoundError
                ("[Errno 2] No such file or directory: " ++ hd "" cmd));
     files_after := fun files _ _ => files;
     mkstemp := tmp_name;
     py_compile := fun _ => Ok None;
     loads_ruff := fun _ => Ok [];
     loads_radon_mi := fun _ => Ok (fun _ => MiOther);
     loads_radon_cc := fun _ => Ok (fun _ => []);
     loads_bandit := fun _ => Ok {| results := None |};
     float_sum := exact_sum |}.

(** A machine with every program installed, on which the submitted code is
    clean: ruff and Bandit report nothing, radon reports a maintainability
    index of 100 and no function, and the code prints "1".  The JSON texts
    are abbreviated; the decoders give their content. *)
Definition env_clean : Env :=
  {| subprocess_run := fun _ cmd _ =>
       match cmd with
       | "python" :: _ =>
           Ok {| returncode := 0; stdout := "1" ++ nl; stderr := "" |}
       | "radon" :: _ =>
           Ok {| returncode := 0; stdout := "{..}"; stderr := "" |}
       | "bandit" :: _ =>
           Ok {| returncode := 0; stdout := "{..}"; stderr := "" |}
       | _ => Ok {| returncode := 0; stdout := "[]"; stderr := "" |}
       end;
     files_after := fun files _ _ => files;
     mkstemp := tmp_name;
     py_compile := fun _ => Ok None;
     loads_ruff := fun _ => Ok [];
     loads_radon_mi := fun _ => Ok (fun _ => MiDict (Some (Py.Float 100)));
     loads_radon_cc := fun _ => Ok (fun _ => []);
     loads_bandit := fun _ => Ok {| results := Some [] |};
     float_sum := exact_sum |}.

Definition start : State := {| fs := []; spawned := [] |}.

(** A test module that does not parse: "import pytest", then "def f(:". *)
Definition broken_test_module : string := "import pytest" ++ nl ++ "def f(:".

Definition metrics_with_avg (a : Py.num) : Metrics :=
  {| mi := Some (Py.Float 80); avg_cc := Some a; max_cc := Some a |}.

(** What the analysis of "print(1)" answers on the clean machine, and the
    state it leaves: five programs were spawned, the temporary files are
    gone. *)
Definition analysis_of_print : result Response * State :=
  (Ok (Reviewed
         {| summary :=
              "Maintainability Index: 100 | Complexity: avg 0.0 (trivial), max 0.0 | Ruff: 0 issues | Bandit: 0 findings";
            issues := [];
            scores := {| readability := 100; complexity := 95;
                         security := 95; testing := 20 |};
            output := "1";
            suggestions :=
              ["Add unit tests (pytest or unittest) for critical paths and edge cases."] |}),
   {| fs := [];
      spawned :=
        [ (["ruff"; "check"; "/tmp/tmp0.py"; "--output-format"; "json"], 20);
          (["radon"; "mi"; "-j"; "/tmp/tmp0.py"], 20);
          (["radon"; "cc"; "-s"; "-j"; "/tmp/tmp0.py"], 20);
          (["bandit"; "-q"; "-f"; "json"; "/tmp/tmp0.py"], 30);
          (["python"; "/tmp/tmp1.py"], 5) ] |}).


(* ------------------------------------------------------------------ *)
(** * The [/chat] handler *)

(** An entry of [messages]: [{"role": .., "content": ..}]. *)
Record Message : Type := mkMessage {
  m_role : option string;       (* m.get("role") *)
  m_content : entry string      (* m.get("content", "") *)
}.

(** The body of the request: [data.get("messages")]. *)
Record ChatRequest : Type := mkChatRequest {
  messages : option (list Message)
}.

(** The answer: [{"reply": .., "source": ..}]. *)
Record ChatReply : Type := mkChatReply {
  reply : string;
  source : string
}.

(** The JSON posted to Ollama. *)
Record GenerateRequest : Type := mkGenerate {
  g_model : string;
  g_prompt : string;
  g_stream : bool;
  g_temperature : Q                 (* options.temperature *)
}.

(** What [requests.post] returns, as far as the handler reads it: [r.ok],
    [r.status_code], [r.text] and [r.json().get("response")], the latter
    raising when the body is not a JSON object. *)
Record HttpResponse : Type := mkHttp {
  resp_ok : bool;
  resp_status : N;
  resp_text : string;
  resp_json : result (option string)
}.

(** One message of the conversation sent to OpenAI. *)
Record ChatMessage : Type := mkChatMessage {
  c_role : string;
  c_content : string
}.

Record ChatEnv : Type := mkChatEnv {
  (* os.getenv(name): None when the variable is not set *)
  getenv : string -> option string;
  (* requests.post(url, json=body, timeout=t), the import included *)
  requests_post : string -> GenerateRequest -> Z -> result HttpResponse;
  (* OpenAI(api_key=key).chat.completions.create(model=.., messages=..,
     temperature=..), then resp.choices[0].message.content; the import
     included *)
  openai_create : string -> string -> list ChatMessage -> Q
                  -> result (option string)
}.

(** What the handler does to the outside, in order. *)
Inductive ChatEvent : Type :=
| Posted (url : string) (body : GenerateRequest) (timeout : Z)
| Created (api_key model : string) (conv : list ChatMessage) (temperature : Q)
| Printed (line : string).

Definition is_user (m : Message) : bool :=
  match m_role m with
  | Some r => String.eqb r "user"
  | None => false
  end.

(** [next((m.get("content", "") for m in reversed(msgs)
          if m.get("role") == "user"), "").strip()]:
    a [null] content has no [strip]. *)
Definition last_user_of (msgs : list Message) : result string :=
  match find is_user (rev msgs) with
  | Some m =>
      match m_content m with
      | Missing => Ok (Py.strip "")
      | Null => Raise (Exception "'NoneType' object has no attribute 'strip'")
      | Val s => Ok (Py.strip s)
      end
  | None => Ok (Py.strip "")
  end.

Definition ollama_url : string := "http://127.0.0.1:11434/api/generate".

(** [os.getenv(name, default)] *)
Definition getenv_default (env : ChatEnv) (name default : string) : string :=
  match getenv env name with
  | Some v => v
  | None => default
  end.

(** [(m.get("content") or "")] *)
Definition content_or_empty (m : Message) : string :=
  match m_content m with
  | Val s => s
  | _ => ""
  end.

Definition system_message : ChatMessage :=
  {| c_role := "system";
     c_content := "You are a helpful coding assistant. Keep answers short." |}.

(** The loop building [conv]: messages without content are left out. *)
Definition conversation (msgs : list Message) : list ChatMessage :=
  fold_left
    (fun conv m =>
       let role := Py.or_else (m_role m) "user" in
       let content := Py.strip (content_or_empty m) in
       if Py.truthy content
       then (conv ++ [ {| c_role := role; c_content := content |} ])%list
       else conv)
    msgs [system_message].

(** Tier 1: the outcome of the Ollama attempt, a reply or nothing, and what
    was printed. *)
Definition try_ollama (env : ChatEnv) (body : GenerateRequest)
    : option string * list ChatEvent :=
  match requests_post env ollama_url body 60 with
  | Ok r =>
      if resp_ok r then
        match resp_json r with
        | Ok response =>
            let reply := Py.strip (Py.or_else response "") in
            if Py.truthy reply then (Some reply, []) else (None, [])
        | Raise e => (None, [Printed ("Ollama exception: " ++ exn_str e)])
        end
      else
        (None,
         [Printed ("Ollama HTTP error: " ++ Py.str_of_N (resp_status r) ++ " "
                   ++ Py.take 200 (resp_text r))])
  | Raise e => (None, [Printed ("Ollama exception: " ++ exn_str e)])
  end.

(** Tier 2: the outcome of the OpenAI attempt, made only with an API key. *)
Definition try_openai (env : ChatEnv) (msgs : list Message)
    : option string * list ChatEvent :=
  match getenv env "OPENAI_API_KEY" with
  | Some api_key =>
      if Py.truthy api_key then
        let conv := conversation msgs in
        let model := getenv_default env "OPENAI_MODEL" "gpt-4o-mini" in
        let created := Created api_key model conv (3 # 10) in
        match openai_create env api_key model conv (3 # 10) with
        | Ok (Some reply) =>
            if Py.truthy reply then (Some reply, [created])
            else (None, [created])
        | Ok None => (None, [created])
        | Raise e =>
            (None, [created; Printed ("OpenAI exception: " ++ exn_str e)])
        end
      else (None, [])
  | None => (None, [])
  end.

Definition chat (req : ChatRequest) (env : ChatEnv)
    : result ChatReply * list ChatEvent :=
  let msgs := match messages req with Some l => l | None => [] end in
  match last_user_of msgs with
  | Raise e => (Raise e, [])
  | Ok last_user =>
      let body :=
        {| g_model := getenv_default env "OLLAMA_MODEL" "llama3.2:3b";
           g_prompt := Py.or_else (Some last_user) "Hello";
           g_stream := false;
           g_temperature := 3 # 10 |} in
      let posted := Posted ollama_url body 60 in
      match try_ollama env body with
      | (Some reply, printed) =>
          (Ok {| reply := reply; source := "ollama" |}, posted :: printed)
      | (None, printed1) =>
          match try_openai env msgs with
          | (Some reply, events2) =>
              (Ok {| reply := reply; source := "openai" |},
               (posted :: printed1) ++ events2)%list
          | (None, events2) =>
              (Ok {| reply := "You said: " ++ last_user; source := "echo" |},
               (posted :: printed1) ++ events2)%list
          end
      end
  end.

(** [GET /] and [GET /health]: [{"ok": True, "service": "backend"}]. *)
Definition health : bool * string := (true, "backend").

(* ------------------------------------------------------------------ *)
(** * Further notions used to state properties *)

(** What the testing heuristic looks for in the characters of the source:
    [def], white space and [test_], or [import], white space and [unittest]
    or [pytest] as a whole word; in both cases [def] or [import] starts a
    word.  [pre] is what comes before, [ws] the white space, [post] what
    comes after. *)
Definition mentions_tests (code : string) : Prop :=
  exists pre ws post : list N,
    ws <> [] /\ forallb Py.is_space ws = true
    /\ Re.word_opt (char_before None pre) = false
    /\ (Py.ords code
        = (pre ++ Py.ords "def" ++ ws ++ Py.ords "test_" ++ post)%list
        \/ (Re.word_opt (Re.first_char post) = false
            /\ (Py.ords code
                = (pre ++ Py.ords "import" ++ ws ++ Py.ords "unittest"
                   ++ post)%list
                \/ Py.ords code
                   = (pre ++ Py.ords "import" ++ ws ++ Py.ords "pytest"
                      ++ post)%list))).

(** The state [st] after the invocations [calls], made one after the
    other. *)
Definition after (env : Env) (st : State) (calls : list Call) : State :=
  fold_left
    (fun s c =>
       {| fs := files_after env (fs s) (fst c) (snd c);
          spawned := (spawned s ++ [c])%list |})
    calls st.


(** The command lines of the five programs. *)
Definition ruff_call (path : string) : Call :=
  (["ruff"; "check"; path; "--output-format"; "json"], 20).
Definition radon_mi_call (path : string) : Call :=
  (["radon"; "mi"; "-j"; path], 20).
Definition radon_cc_call (path : string) : Call :=
  (["radon"; "cc"; "-s"; "-j"; path], 20).
Definition bandit_call (path : string) : Call :=
  (["bandit"; "-q"; "-f"; "json"; path], 30).
Definition python_call (path : string) : Call := (["python"; path], 5).

(** The issue [syntax_check] builds from what the parser raised. *)
Definition syntax_issue_of (e : SyntaxError) : Issue :=
  {| issue_type := Some "SYNTAX_ERROR";
     issue_detail := Some (msg e);
     issue_line := or_none (lineno e) |}.

(** The files of [files] once [path] is unlinked. *)
Definition without (path : string) (files : FileSystem) : FileSystem :=
  filter (fun f => negb (String.eqb (fst f) path)) files.

(** The dictionary [review] returns, from the values it has computed. *)
Definition review_of (metrics : Metrics) (issues : list Issue)
    (sec_findings : list SecFinding) (code out : string) : ReviewResult :=
  {| summary :=
       pretty_summary metrics (lint_count_of issues) (List.length sec_findings);
     issues := issues;
     scores := score_from metrics issues sec_findings code;
     output := out;
     suggestions := build_suggestions metrics issues sec_findings code |}.

(** The clean machine, except that ruff's output cannot be decoded. *)
Definition env_garbled : Env :=
  {| subprocess_run := fun files cmd timeout =>
       match cmd with
       | "ruff" :: _ =>
           Ok {| returncode := 0; stdout := "warning: no cache"; stderr := "" |}
       | _ => subprocess_run env_clean files cmd timeout
       end;
     files_after := fun files _ _ => files;
     mkstemp := tmp_name;
     py_compile := fun _ => Ok None;
     loads_ruff := fun _ =>
       Raise (Exception "Expecting value: line 1 column 1 (char 0)");
     loads_radon_mi := loads_radon_mi env_clean;
     loads_radon_cc := loads_radon_cc env_clean;
     loads_bandit := loads_bandit env_clean;
     float_sum := exact_sum |}.

(** The clean machine for a source that does not parse. *)
Definition env_unparsable : Env :=
  {| subprocess_run := fun files cmd timeout =>
       match cmd with
       | "python" :: _ =>
           Ok {| returncode := 1; stdout := "";
                 stderr := "SyntaxError: invalid syntax" |}
       | _ => subprocess_run env_clean files cmd timeout
       end;
     files_after := fun files _ _ => files;
     mkstemp := tmp_name;
     py_compile := fun _ =>
       Ok (Some {| msg := "invalid syntax"; lineno := Some 1 |});
     loads_ruff := loads_ruff env_clean;
     loads_radon_mi := loads_radon_mi env_clean;
     loads_radon_cc := loads_radon_cc env_clean;
     loads_bandit := loads_bandit env_clean;
     float_sum := exact_sum |}.

(** The clean machine, except that Bandit reports one finding. *)
Definition env_assert : Env :=
  {| subprocess_run := fun files cmd timeout =>
       match cmd with
       | "bandit" :: _ =>
           Ok {| returncode := 1; stdout := "{..}"; stderr := "" |}
       | _ => subprocess_run env_clean files cmd timeout
       end;
     files_after := fun files _ _ => files;
     mkstemp := tmp_name;
     py_compile := fun _ => Ok None;
     loads_ruff := loads_ruff env_clean;
     loads_radon_mi := loads_radon_mi env_clean;
     loads_radon_cc := loads_radon_cc env_clean;
     loads_bandit := fun _ => Ok {| results := Some [finding "LOW"] |};
     float_sum := exact_sum |}.

(** A request with code and no file name. *)
Definition request_of (code : string) : Request :=
  {| req_filename := None; req_code := Some code |}.

(** The issue counts towards the number the summary shows after "Ruff:". *)
Definition counted (i : Issue) : bool :=
  negb (Py.startswith (Py.or_else (issue_type i) "") "SYNTAX").

(** [data.get("messages") or []] *)
Definition messages_of (req : ChatRequest) : list Message :=
  match messages req with
  | Some l => l
  | None => []
  end.

(** [m] is the last message of [msgs] whose role is "user". *)
Definition last_user_message (msgs : list Message) (m : Message) : Prop :=
  exists before after,
    msgs = (before ++ m :: after)%list
    /\ is_user m = true
    /\ forallb (fun x => negb (is_user x)) after = true.

(** The message has a content that is not blank. *)
Definition has_content (m : Message) : bool :=
  Py.truthy (Py.strip (content_or_empty m)).

(** What a message with content becomes in the conversation. *)
Definition chat_message_of (m : Message) : ChatMessage :=
  {| c_role := Py.or_else (m_role m) "user";
     c_content := Py.strip (content_or_empty m) |}.

(** The JSON posted to Ollama for the prompt [prompt]. *)
Definition generate (env : ChatEnv) (prompt : string) : GenerateRequest :=
  {| g_model := getenv_default env "OLLAMA_MODEL" "llama3.2:3b";
     g_prompt := prompt;
     g_stream := false;
     g_temperature := 3 # 10 |}.

(** Sample chats: nothing is reachable and no key is set; Ollama answers
    (and a key is set); Ollama is down, a key is set and OpenAI answers. *)
Definition chat_env_offline : ChatEnv :=
  {| getenv := fun _ => None;
     requests_post := fun _ _ _ => Raise (Exception "Connection refused");
     openai_create := fun _ _ _ _ =>
       Raise (Exception "No module named 'openai'") |}.

Definition chat_env_ollama : ChatEnv :=
  {| getenv := fun name =>
       if String.eqb name "OPENAI_API_KEY" then Some "sk-test" else None;
     requests_post := fun _ _ _ =>
       Ok {| resp_ok := true; resp_status := 200; resp_text := "{..}";
             resp_json := Ok (Some " Hi there. ") |};
     openai_create := fun _ _ _ _ => Ok (Some "Hello from OpenAI") |}.

Definition chat_env_openai : ChatEnv :=
  {| getenv := fun name =>
       if String.eqb name "OPENAI_API_KEY" then Some "sk-test" else None;
     requests_post := fun _ _ _ => Raise (Exception "Connection refused");
     openai_create := fun _ _ _ _ => Ok (Some "Hello from OpenAI") |}.

Definition user_says (content : entry string) : ChatRequest :=
  {| messages := Some [ {| m_role := Some "user"; m_content := content |} ] |}.

(** What radon reports on the clean machine. *)
Definition clean_metrics : Metrics :=
  {| mi := Some (Py.Float 100);
     avg_cc := Some (Py.Float 0);
     max_cc := Some (Py.Float 0) |}.



(** U+00A0, the no-break space, and U+D800, a lone surrogate. *)
Definition nbsp : string := Py.chr 160.


(* ================================================================== *)
(** * Properties *)


(* ------------------------------------------------------------------ *)
(** ** Numbers *)

Section NumFacts.

Lemma Qle_bool_inject_Z (a b : Z) :
  Qle_bool (inject_Z a) (inject_Z b) = (a <=? b).
Proof.
  unfold Qle_bool; simpl. now rewrite !Z.mul_1_r.
Qed.

Lemma ltb_Int (a b : Z) : Py.ltb (Py.Int a) (Py.Int b) = (a <? b).
Proof.
  unfold Py.ltb; simpl. rewrite Qle_bool_inject_Z.
  now rewrite Z.ltb_antisym.
Qed.

Lemma min_Int (a b : Z) : Py.min (Py.Int a) (Py.Int b) = Py.Int (Z.min a b).
Proof.
  unfold Py.min. rewrite ltb_Int.
  destruct (Z.ltb_spec b a); f_equal; lia.
Qed.

Lemma max_Int (a b : Z) : Py.max (Py.Int a) (Py.Int b) = Py.Int (Z.max a b).
Proof.
  unfold Py.max. rewrite ltb_Int.
  destruct (Z.ltb_spec a b); f_equal; lia.
Qed.

Lemma clamp_Int (v lo hi : Z) :
  clamp (Py.Int v) (Py.Int lo) (Py.Int hi) = Py.Int (Z.max lo (Z.min hi v)).
Proof.
  unfold clamp. now rewrite min_Int, max_Int.
Qed.

Lemma leb_true (a b : Py.num) : Py.leb a b = true <-> (Py.toQ a <= Py.toQ b)%Q.
Proof. apply Qle_bool_iff. Qed.

Lemma leb_false (a b : Py.num) : Py.leb a b = false <-> (Py.toQ b < Py.toQ a)%Q.
Proof.
  unfold Py.leb. split; intros H.
  - apply Qnot_le_lt. intros Hle. apply Qle_bool_iff in Hle. congruence.
  - destruct (Qle_bool (Py.toQ a) (Py.toQ b)) eqn:E; [|reflexivity].
    apply Qle_bool_iff in E. lra.
Qed.


End NumFacts.

(* ------------------------------------------------------------------ *)
(** ** Score derivation *)

Section Scores.

Variables (metrics : Metrics) (issues : list Issue).
Variables (sec_findings : list SecFinding) (code : string).

Lemma has_syntax_error_intro (i : Issue) :
  In i issues -> issue_type i = Some "SYNTAX_ERROR" ->
  has_syntax_error issues = true.
Proof.
  intros Hin Hty. unfold has_syntax_error.
  apply existsb_exists. exists i. split; [assumption|].
  unfold type_is. now rewrite Hty.
Qed.

(** C1. As soon as one issue has type [SYNTAX_ERROR], the scores are
    readability 0, complexity 0, testing 0, and security 30 when Bandit
    reported at least one finding, 0 when it reported none -- whatever the
    metrics and the source text are. *)
Theorem score_from_syntax_error (i : Issue) :
  In i issues ->
  issue_type i = Some "SYNTAX_ERROR" ->
  score_from metrics issues sec_findings code =
    {| readability := 0;
       complexity := 0;
       security := match sec_findings with [] => 0 | _ :: _ => 30 end;
       testing := 0 |}.
Proof.
  intros Hin Hty. unfold score_from.
  rewrite (has_syntax_error_intro i Hin Hty).
  destruct sec_findings; reflexivity.
Qed.

Lemma total_penalty_sum_from (l : list SecFinding) (acc : Z) :
  fold_left (fun penalty f => penalty + severity_penalty f) l acc =
  acc + fold_right Z.add 0 (map severity_penalty l).
Proof.
  revert acc. induction l as [|f l IH]; intros acc; simpl.
  - lia.
  - rewrite IH. lia.
Qed.

Lemma total_penalty_sum :
  total_penalty sec_findings =
  fold_right Z.add 0 (map severity_penalty sec_findings).
Proof. unfold total_penalty. now rewrite total_penalty_sum_from. Qed.

Lemma severity_penalty_cases (f : SecFinding) :
  (severity f = "HIGH" -> severity_penalty f = 20)
  /\ (severity f = "MEDIUM" -> severity_penalty f = 10)
  /\ (severity f <> "HIGH" -> severity f <> "MEDIUM" -> severity_penalty f = 5).
Proof.
  unfold severity_penalty. repeat split.
  - intros ->. reflexivity.
  - intros ->. reflexivity.
  - intros H1 H2.
    apply String.eqb_neq in H1. apply String.eqb_neq in H2.
    now rewrite H1, H2.
Qed.

Lemma security_unfold :
  has_syntax_error issues = false ->
  security (score_from metrics issues sec_findings code) =
  Z.max 0 (Z.min 95 (95 - total_penalty sec_findings)).
Proof.
  intros Hno. unfold score_from. rewrite Hno. cbv zeta.
  cbn [security]. now rewrite clamp_Int.
Qed.

(** C2. Without a syntax error the security score is 95 minus the sum of the
    per-finding penalties, clamped to [0, 95]: 20 for a finding whose
    severity label reads HIGH, 10 for MEDIUM, 5 for any other label (the
    label is compared in upper case; a missing label counts as the others
    do).  So the score is 95 without findings and always within [0, 95]. *)
Theorem security_score_formula :
  has_syntax_error issues = false ->
  security (score_from metrics issues sec_findings code) =
    Z.max 0 (Z.min 95 (95 - fold_right Z.add 0 (map severity_penalty sec_findings)))
  /\ 0 <= security (score_from metrics issues sec_findings code) <= 95
  /\ (sec_findings = [] ->
      security (score_from metrics issues sec_findings code) = 95)
  /\ (forall f label,
        In f sec_findings -> issue_severity f = Some label ->
        (Py.upper label = "HIGH" -> severity_penalty f = 20)
        /\ (Py.upper label = "MEDIUM" -> severity_penalty f = 10)
        /\ (label <> "" -> Py.upper label <> "HIGH" ->
            Py.upper label <> "MEDIUM" -> severity_penalty f = 5)).
Proof.
  intros Hno. rewrite (security_unfold Hno), total_penalty_sum.
  split; [reflexivity|]. split; [lia|]. split.
  - intros ->. reflexivity.
  - intros f label _ Hlab.
    assert (Hsev : label <> "" -> severity f = Py.upper label).
    { intros Hne. unfold severity. rewrite Hlab. unfold Py.or_else, Py.truthy.
      apply String.eqb_neq in Hne. now rewrite Hne. }
    destruct (severity_penalty_cases f) as (H20 & H10 & H5).
    assert (Hnil : forall s, Py.upper label = s -> s <> "" -> label <> "").
    { intros s Hs Hne ->. now apply Hne. }
    repeat split.
    + intros Hu. apply H20. rewrite Hsev; [assumption|].
      apply (Hnil _ Hu). discriminate.
    + intros Hu. apply H10. rewrite Hsev; [assumption|].
      apply (Hnil _ Hu). discriminate.
    + intros Hne H1 H2. apply H5; now rewrite (Hsev Hne).
Qed.

Lemma complexity_unfold :
  has_syntax_error issues = false ->
  complexity (score_from metrics issues sec_findings code) =
  Py.round (complexity_bucket (avg_cc metrics)).
Proof.
  intros Hno. unfold score_from. now rewrite Hno.
Qed.

(** C3. Without a syntax error the complexity score is a step function of
    the average complexity a: 95 for a <= 1, 85 for 1 < a <= 3, 70 for
    3 < a <= 6, 55 for 6 < a <= 10, 35 above 10 (each bucket includes its
    upper edge), and 0 when the average is unavailable. *)
Theorem complexity_score_steps :
  has_syntax_error issues = false ->
  (avg_cc metrics = None ->
   complexity (score_from metrics issues sec_findings code) = 0)
  /\ (forall a, avg_cc metrics = Some a ->
      ((Py.toQ a <= 1)%Q ->
       complexity (score_from metrics issues sec_findings code) = 95)
      /\ ((1 < Py.toQ a)%Q -> (Py.toQ a <= 3)%Q ->
          complexity (score_from metrics issues sec_findings code) = 85)
      /\ ((3 < Py.toQ a)%Q -> (Py.toQ a <= 6)%Q ->
          complexity (score_from metrics issues sec_findings code) = 70)
      /\ ((6 < Py.toQ a)%Q -> (Py.toQ a <= 10)%Q ->
          complexity (score_from metrics issues sec_findings code) = 55)
      /\ ((10 < Py.toQ a)%Q ->
          complexity (score_from metrics issues sec_findings code) = 35)).
Proof.
  intros Hno. rewrite (complexity_unfold Hno). split.
  - intros ->. reflexivity.
  - intros a ->. unfold complexity_bucket.
    destruct (Py.leb a (Py.Int 1)) eqn:E1;
      [apply leb_true in E1 | apply leb_false in E1];
    (destruct (Py.leb a (Py.Int 3)) eqn:E3;
      [apply leb_true in E3 | apply leb_false in E3]);
    (destruct (Py.leb a (Py.Int 6)) eqn:E6;
      [apply leb_true in E6 | apply leb_false in E6]);
    (destruct (Py.leb a (Py.Int 10)) eqn:E10;
      [apply leb_true in E10 | apply leb_false in E10]);
    cbn [Py.toQ] in *; unfold inject_Z in *;
    repeat split; intros; cbn [Py.round]; try reflexivity; exfalso; lra.
Qed.

End Scores.

(* ------------------------------------------------------------------ *)
(** ** The testing heuristic *)

Section Testing.

Lemma search_from_skip (r : Re.regex) (pre s : list N) :
  forall prev,
    Re.match_here r (char_before prev pre) s = true ->
    Re.search_from r prev (pre ++ s) = true.
Proof.
  induction pre as [|c pre IH]; intros prev H; simpl in *.
  - destruct s; simpl; rewrite H; reflexivity.
  - rewrite (IH (Some c) H). apply orb_true_r.
Qed.

Lemma search_skip (r : Re.regex) (pre s : list N) :
  Re.match_here r (char_before None pre) s = true ->
  Re.search r (pre ++ s) = true.
Proof. apply search_from_skip. Qed.

Lemma import_pytest_matches (prev : option N) (post : list N) :
  Re.word_opt prev = false ->
  Re.word_opt (Re.first_char post) = false ->
  Re.match_here re_import_tests prev (Py.ords "import pytest" ++ post) = true.
Proof.
  intros Hprev Hpost.
  unfold Re.match_here, re_import_tests. cbn [Re.matches].
  change (Py.ords "import pytest")
    with [105; 109; 112; 111; 114; 116; 32; 112; 121; 116; 101; 115; 116]%N.
  change (Py.ords "import") with [105; 109; 112; 111; 114; 116]%N.
  change (Py.ords "pytest") with [112; 121; 116; 101; 115; 116]%N.
  change (Py.ords "unittest")
    with [117; 110; 105; 116; 116; 101; 115; 116]%N.
  cbn [app Re.lit Re.plus N.eqb Pos.eqb andb orb].
  unfold Re.boundary at 1. cbn [Re.first_char]. rewrite Hprev.
  change (Re.word_opt (Some 105%N)) with true. cbn [xorb andb].
  change (Py.is_space 32) with true. cbn [andb].
  change (Py.is_space 112) with false. cbn [andb orb].
  unfold Re.boundary. rewrite Hpost.
  change (Re.word_opt (Some 116%N)) with true.
  cbn [xorb andb]. reflexivity.
Qed.

Lemma has_tests_import_pytest (code : string) (pre post : list N) :
  Py.ords code = (pre ++ Py.ords "import pytest" ++ post)%list ->
  Re.word_opt (char_before None pre) = false ->
  Re.word_opt (Re.first_char post) = false ->
  has_tests code = true.
Proof.
  intros Hcode Hpre Hpost. unfold has_tests. rewrite Hcode.
  rewrite (search_skip _ pre _ (import_pytest_matches _ post Hpre Hpost)).
  reflexivity.
Qed.

Lemma testing_unfold metrics issues sec_findings code :
  has_syntax_error issues = false ->
  testing (score_from metrics issues sec_findings code) =
  if has_tests code then 80 else 20.
Proof.
  intros Hno. unfold score_from. rewrite Hno. cbv zeta. cbn [testing].
  now destruct (has_tests code).
Qed.

(** C4 (amended). When no issue is a [SYNTAX_ERROR] and the source contains
    "import pytest" as whole words -- the characters before it do not end,
    and the characters after it do not start, with a letter, a digit or an
    underscore -- the testing score is 80, whatever the rest of the source,
    the metrics, the other issues and the security findings are.  Letters
    and digits are Unicode's: "import pytesté" does not qualify. *)
Theorem testing_score_import_pytest metrics issues sec_findings code
    (pre post : list N) :
  has_syntax_error issues = false ->
  Py.ords code = (pre ++ Py.ords "import pytest" ++ post)%list ->
  Re.word_opt (char_before None pre) = false ->
  Re.word_opt (Re.first_char post) = false ->
  testing (score_from metrics issues sec_findings code) = 80.
Proof.
  intros Hno Hcode Hpre Hpost.
  rewrite (testing_unfold _ _ _ _ Hno).
  now rewrite (has_tests_import_pytest code pre post Hcode Hpre Hpost).
Qed.

End Testing.

(* ------------------------------------------------------------------ *)
(** ** Suggestions *)

Section Suggestions.

Variables (metrics : Metrics) (issues : list Issue).
Variables (sec_findings : list SecFinding) (code : string).

Lemma high_findings_nil : high_findings [] = [].
Proof. reflexivity. Qed.

(** The sequence of conditional appends is the list of the rules that fire,
    replaced by the fallback when it is empty. *)
Lemma build_suggestions_fired :
  build_suggestions metrics issues sec_findings code =
  match fired (rules metrics issues sec_findings code) with
  | [] => [sugg_fallback]
  | l => l
  end.
Proof.
  unfold build_suggestions, rules, fired, has_tests, append_if.
  cbv zeta.
  destruct (has_syntax_error issues);
  destruct (in_codes "F401" (codes_of issues));
  destruct (in_codes "E302" (codes_of issues) || in_codes "E305" (codes_of issues));
  destruct (in_codes "E501" (codes_of issues));
  destruct (existsb (fun c => Py.startswith c "B") (codes_of issues));
  destruct (match avg_cc metrics with
            | Some a => Py.ltb (Py.Int 6) a
            | None => false
            end);
  destruct (match mi metrics with
            | Some m => Py.ltb m (Py.Int 60)
            | None => false
            end);
  destruct (Re.search re_import_tests (Py.ords code)
            || Re.search re_def_test (Py.ords code));
  destruct sec_findings as [|f0 fs0];
  try rewrite high_findings_nil;
  try (destruct (high_findings (f0 :: fs0)));
  reflexivity.
Qed.

Lemma fired_length (rs : list (bool * string)) :
  (List.length (fired rs) <= List.length rs)%nat.
Proof.
  unfold fired. rewrite length_map. apply filter_length_le.
Qed.

Lemma fired_incl (rs : list (bool * string)) (s : string) :
  In s (fired rs) -> In s (map snd rs).
Proof.
  unfold fired. intros H. apply in_map_iff in H as ((b, t) & <- & Hin).
  apply filter_In in Hin as [Hin _].
  apply in_map_iff. now exists (b, t).
Qed.

Lemma fired_NoDup (rs : list (bool * string)) :
  NoDup (map snd rs) -> NoDup (fired rs).
Proof.
  unfold fired. induction rs as [|[b t] rs IH]; simpl; intros H.
  - constructor.
  - inversion H as [|? ? Hnin Hnd]; subst.
    destruct b; simpl; [|now apply IH].
    constructor; [|now apply IH].
    intros Hin. apply Hnin. now apply (fired_incl rs).
Qed.

Lemma fired_nil_iff (rs : list (bool * string)) :
  fired rs = [] <-> forallb (fun r => negb (fst r)) rs = true.
Proof.
  unfold fired. induction rs as [|[b t] rs IH]; simpl.
  - tauto.
  - destruct b; simpl; [split; discriminate | exact IH].
Qed.

Ltac distinct_texts :=
  unfold sugg_syntax, sugg_f401, sugg_spacing, sugg_e501, sugg_bandit,
    sugg_cc, sugg_mi, sugg_high, sugg_medlow, sugg_tests, sugg_fallback;
  cbn [String.append]; intuition discriminate.

Lemma rules_texts_NoDup :
  NoDup (map snd (rules metrics issues sec_findings code)).
Proof.
  unfold rules. cbv zeta. cbn [map snd].
  destruct (high_findings sec_findings) as [|h hs];
    repeat (constructor; [cbn [In]; distinct_texts|]); constructor.
Qed.

Lemma fallback_not_a_rule_text :
  In sugg_fallback (map snd (rules metrics issues sec_findings code)) -> False.
Proof.
  unfold rules. cbv zeta. cbn [map snd In].
  destruct (high_findings sec_findings) as [|h hs]; distinct_texts.
Qed.

(** C8. The suggestion builder returns a non-empty list (of at most nine
    entries) without duplicates: the suggestions of the rules that fire, one
    per rule, in rule order; and the fallback "Looks good..." suggestion is in
    the list exactly when no rule fires, in which case it is the whole list. *)
Theorem build_suggestions_shape :
  (1 <= List.length (build_suggestions metrics issues sec_findings code) <= 9)%nat
  /\ NoDup (build_suggestions metrics issues sec_findings code)
  /\ List.length (rules metrics issues sec_findings code) = 9%nat
  /\ (fired (rules metrics issues sec_findings code) <> [] ->
      build_suggestions metrics issues sec_findings code =
      fired (rules metrics issues sec_findings code))
  /\ (In sugg_fallback (build_suggestions metrics issues sec_findings code)
      <-> forallb (fun r => negb (fst r))
            (rules metrics issues sec_findings code) = true)
  /\ (forallb (fun r => negb (fst r))
        (rules metrics issues sec_findings code) = true ->
      build_suggestions metrics issues sec_findings code = [sugg_fallback]).
Proof.
  rewrite build_suggestions_fired.
  pose proof (fired_length (rules metrics issues sec_findings code)) as Hlen.
  pose proof (fired_NoDup _ rules_texts_NoDup) as Hnd.
  pose proof (fired_nil_iff (rules metrics issues sec_findings code)) as Hnil.
  pose proof (fired_incl (rules metrics issues sec_findings code) sugg_fallback)
    as Hincl.
  change (List.length (rules metrics issues sec_findings code)) with 9%nat in *.
  destruct (fired (rules metrics issues sec_findings code)) as [|s l] eqn:E.
  - repeat split; simpl; try lia.
    + repeat constructor. simpl. tauto.
    + congruence.
    + intros _. now apply Hnil.
    + intros _. now left.
  - repeat split; try (simpl in *; lia); try assumption.
    + intros Hin. exfalso. apply fallback_not_a_rule_text. now apply Hincl.
    + intros Hall. apply Hnil in Hall. discriminate.
    + intros Hall. apply Hnil in Hall. discriminate.
Qed.

End Suggestions.

(* ------------------------------------------------------------------ *)
(** ** Summary line *)

Section Summary.

Lemma round_half_even_nearest (q : Q) : nearest (Py.round_half_even q) q.
Proof.
  unfold nearest, Py.round_half_even.
  pose proof (Qfloor_le q) as Hlo.
  pose proof (Qlt_floor q) as Hhi.
  rewrite inject_Z_plus in Hhi. change (inject_Z 1) with 1%Q in Hhi.
  generalize dependent (Qfloor q). intros f Hlo Hhi.
  apply Qabs_Qle_condition.
  destruct (Qle_bool (q - inject_Z f) (1 # 2)) eqn:E1.
  - apply Qle_bool_iff in E1.
    destruct (Qle_bool (1 # 2) (q - inject_Z f)) eqn:E2.
    + apply Qle_bool_iff in E2.
      destruct (Z.even f);
        [|rewrite inject_Z_plus; change (inject_Z 1) with 1%Q]; split; lra.
    + split; lra.
  - assert (1 # 2 < q - inject_Z f)%Q as E1'.
    { apply Qnot_le_lt. intros H. apply Qle_bool_iff in H. congruence. }
    rewrite inject_Z_plus. change (inject_Z 1) with 1%Q. split; lra.
Qed.

Lemma round_half_even_ext (q q' : Q) :
  (q == q')%Q -> Py.round_half_even q = Py.round_half_even q'.
Proof.
  intros E. unfold Py.round_half_even. cbv zeta.
  rewrite (Qfloor_comp _ _ E).
  assert (q - inject_Z (Qfloor q') == q' - inject_Z (Qfloor q'))%Q as E2
    by (rewrite E; reflexivity).
  rewrite (Qleb_comp _ _ E2 _ _ (Qeq_refl _)).
  rewrite (Qleb_comp _ _ (Qeq_refl (1 # 2)) _ _ E2).
  reflexivity.
Qed.



(** The numeral printed for [n] reads back as [n]. *)
Lemma str_of_N_reads_back (n : N) : int_of_str (Py.str_of_N n) = Some n.
Proof.
  unfold int_of_str, Py.str_of_N.
  assert (N.to_uint n <> Decimal.Nil) as Hnn.
  { rewrite <- (DecimalN.Unsigned.of_to n) at 1.
    rewrite DecimalN.Unsigned.to_of. apply DecimalFacts.unorm_nonnil. }
  rewrite (NilZero.usu _ Hnn). simpl.
  now rewrite DecimalN.Unsigned.of_to.
Qed.





Lemma single_line_app (s t : string) :
  single_line (s ++ t) = single_line s && single_line t.
Proof.
  induction s as [|c s IH]; simpl; [reflexivity|].
  now rewrite IH, andb_assoc.
Qed.








End Summary.

(* ------------------------------------------------------------------ *)
(** ** Running the submitted code *)

Section RunCode.

Lemma truthy_true (s : string) : Py.truthy s = true <-> s <> "".
Proof.
  unfold Py.truthy. rewrite negb_true_iff. apply String.eqb_neq.
Qed.

Lemma truthy_false (s : string) : Py.truthy s = false <-> s = "".
Proof.
  unfold Py.truthy. rewrite negb_false_iff. apply String.eqb_eq.
Qed.

(** C9. Running the submitted code returns a text and never raises, for
    every code that can be written to the temporary file.  When the
    interpreter could be run, the text is the trimmed standard output, then
    the trimmed standard error prefixed by "ERR: ", each present only when
    it is not blank, joined by a line break; "(no output)" when both are
    blank.  When spawning fails or times out, the text is "Runtime error: "
    followed by the exception's message, a single line when the message is
    one.  Code that cannot be written (it holds a lone surrogate) is never
    passed on by the handler: its own write of the same text, which comes
    first, raises, and the analysis ends there with no program run. *)
Theorem run_code_output_spec (code : string) (env : Env) (st : State) :
  (Py.encodable code = true ->
  exists out st',
    run_code_output code env st = (Ok out, st')
    /\ match
         subprocess_run env ((mkstemp env (fs st), code) :: fs st)
           ["python"; mkstemp env (fs st)] 5
       with
       | Raise e =>
           out = "Runtime error: " ++ exn_str e
           /\ (single_line (exn_str e) = true -> single_line out = true)
       | Ok p =>
           (Py.strip (stdout p) <> "" -> Py.strip (stderr p) <> "" ->
            out = Py.strip (stdout p) ++ nl ++ "ERR: " ++ Py.strip (stderr p))
           /\ (Py.strip (stdout p) <> "" -> Py.strip (stderr p) = "" ->
               out = Py.strip (stdout p))
           /\ (Py.strip (stdout p) = "" -> Py.strip (stderr p) <> "" ->
               out = "ERR: " ++ Py.strip (stderr p))
           /\ (Py.strip (stdout p) = "" -> Py.strip (stderr p) = "" ->
               out = "(no output)")
       end)
  /\ (Py.encodable code = false ->
      forall st0,
        analyse code env st0
        = (Raise (Exception (Py.encode_error code)),
           {| fs := (mkstemp env (fs st0), "") :: fs st0;
              spawned := spawned st0 |})).
Proof.
  split;
    [|intros Henc st0; unfold analyse, bind, named_temporary_file;
      now rewrite Henc].
  intros Henc.
  unfold run_code_output, bind, finally, attempt, subprocess,
    named_temporary_file, unlink, ret.
  rewrite Henc. cbn [fs spawned].
  destruct (subprocess_run env ((mkstemp env (fs st), code) :: fs st)
              ["python"; mkstemp env (fs st)] 5) as [p|e].
  - destruct (Py.truthy (Py.strip (stdout p))) eqn:Eo;
      destruct (Py.truthy (Py.strip (stderr p))) eqn:Ee;
      [apply truthy_true in Eo | apply truthy_true in Eo
       | apply truthy_false in Eo | apply truthy_false in Eo];
      [apply truthy_true in Ee | apply truthy_false in Ee
       | apply truthy_true in Ee | apply truthy_false in Ee];
      eexists; eexists; (split; [reflexivity|]);
      repeat split; intros; try reflexivity; congruence.
  - eexists; eexists; split; [reflexivity|]. split; [reflexivity|].
    intros Hline. rewrite single_line_app, Hline. reflexivity.
Qed.

End RunCode.

(* ------------------------------------------------------------------ *)
(** ** Tool adapters *)

Section Adapters.

Variables (env : Env) (st : State) (path : string).

Lemma run_ruff_absent :
  binary_absent env "ruff" ->
  fst (run_ruff path env st) =
  Ok [ {| issue_type := Some "RUFF_MISSING";
          issue_detail := Some "ruff not installed in venv";
          issue_line := None |} ].
Proof.
  intros Habs.
  destruct (Habs (fs st) ["check"; path; "--output-format"; "json"] 20)
    as [m Hm].
  unfold run_ruff, bind, attempt, run, subprocess. cbn [fs spawned].
  rewrite Hm. reflexivity.
Qed.

Lemma run_bandit_absent :
  binary_absent env "bandit" -> fst (run_bandit path env st) = Ok [].
Proof.
  intros Habs.
  destruct (Habs (fs st) ["-q"; "-f"; "json"; path] 30) as [m Hm].
  unfold run_bandit, bind, attempt, run, subprocess. cbn [fs spawned].
  rewrite Hm. reflexivity.
Qed.

Lemma run_radon_metrics_absent :
  binary_absent env "radon" ->
  fst (run_radon_metrics path env st) = Ok no_metrics.
Proof.
  intros Habs.
  destruct (Habs (fs st) ["mi"; "-j"; path] 20) as [m1 Hm1].
  destruct (Habs (files_after env (fs st) ["radon"; "mi"; "-j"; path] 20)
              ["cc"; "-s"; "-j"; path] 20) as [m2 Hm2].
  unfold run_radon_metrics, radon_mi, radon_cc, bind, attempt, run, subprocess.
  cbn [fs spawned]. rewrite Hm1. simpl. rewrite Hm2. reflexivity.
Qed.

End Adapters.

(* ------------------------------------------------------------------ *)
(** ** Invocations are only ever added *)

Section Monotone.

Lemma extends_refl (st : State) : extends st st.
Proof. exists []. now rewrite app_nil_r. Qed.

Lemma extends_trans (a b c : State) : extends a b -> extends b c -> extends a c.
Proof.
  intros [l1 H1] [l2 H2]. exists (l1 ++ l2)%list.
  now rewrite H2, H1, app_assoc.
Qed.

Lemma monotone_ret {A : Type} (a : A) : monotone (ret a).
Proof. intros env st. apply extends_refl. Qed.

Lemma monotone_lift {A : Type} (r : result A) : monotone (lift r).
Proof. intros env st. apply extends_refl. Qed.

Lemma monotone_ask : monotone ask.
Proof. intros env st. apply extends_refl. Qed.

Lemma monotone_unlink (p : string) : monotone (unlink p).
Proof. intros env st. exists []. simpl. now rewrite app_nil_r. Qed.

Lemma monotone_named_temporary_file (content : string) :
  monotone (named_temporary_file content).
Proof.
  intros env st. exists []. unfold named_temporary_file.
  destruct (Py.encodable content); simpl; now rewrite app_nil_r.
Qed.

Lemma monotone_subprocess (cmd : list string) (t : Z) :
  monotone (subprocess cmd t).
Proof. intros env st. now exists [(cmd, t)]. Qed.

Lemma monotone_bind {A B : Type} (m : M A) (k : A -> M B) :
  monotone m -> (forall a, monotone (k a)) -> monotone (bind m k).
Proof.
  intros Hm Hk env st. unfold bind.
  specialize (Hm env st).
  destruct (m env st) as [[a|e] st1]; simpl in *.
  - eapply extends_trans; [exact Hm | apply Hk].
  - exact Hm.
Qed.

Lemma monotone_attempt {A : Type} (m : M A) : monotone m -> monotone (attempt m).
Proof.
  intros Hm env st. unfold attempt. specialize (Hm env st).
  now destruct (m env st).
Qed.

Lemma monotone_finally {A : Type} (m : M A) (c : M unit) :
  monotone m -> monotone c -> monotone (finally m c).
Proof.
  intros Hm Hc env st. unfold finally.
  specialize (Hm env st). destruct (m env st) as [r st1]. simpl in Hm.
  specialize (Hc env st1). destruct (c env st1) as [[u|e] st2]; simpl in *;
    eapply extends_trans; eassumption.
Qed.

Lemma monotone_float_of (x : Py.num) : monotone (float_of x).
Proof.
  unfold float_of. destruct (Py.to_float x);
    [apply monotone_ret | apply monotone_lift].
Qed.

Lemma monotone_truediv (a : Py.num) (b : nat) : monotone (truediv a b).
Proof.
  unfold truediv. destruct (Py.to_double _);
    [apply monotone_ret | apply monotone_lift].
Qed.

Lemma monotone_sum (nums : list Py.num) : monotone (sum nums).
Proof.
  unfold sum. apply monotone_bind; [apply monotone_ask|].
  intros env. destruct (forallb Py.is_int nums); apply monotone_ret.
Qed.

End Monotone.

Create HintDb monotone.

#[local] Hint Resolve monotone_ret monotone_lift monotone_ask monotone_unlink
  monotone_named_temporary_file monotone_subprocess monotone_attempt
  monotone_finally monotone_float_of monotone_truediv monotone_sum : monotone.

Ltac monotone_steps :=
  repeat first
    [ apply monotone_bind; [|intros]
    | apply monotone_attempt
    | apply monotone_finally
    | match goal with
      | |- monotone (match ?x with _ => _ end) => destruct x
      | |- monotone (if ?b then _ else _) => destruct b
      | |- monotone (let _ := _ in _) => cbv zeta
      end
    | solve [auto with monotone] ].

Section Pipeline.

Lemma monotone_run (cmd : list string) (t : Z) : monotone (run cmd t).
Proof. apply monotone_subprocess. Qed.

Lemma monotone_run_radon_metrics (path : string) :
  monotone (run_radon_metrics path).
Proof.
  pose proof monotone_run.
  unfold run_radon_metrics, radon_mi, radon_cc, mean. monotone_steps.
Qed.

Lemma monotone_run_bandit (path : string) : monotone (run_bandit path).
Proof.
  pose proof monotone_run.
  unfold run_bandit.
  apply monotone_bind; [auto with monotone|].
  intros [out|[m|m]]; [|auto with monotone..].
  destruct (not_in_0_1 (returncode out)); [auto with monotone|].
  intros env st. unfold bind, ask.
  destruct (loads_bandit env _); apply extends_refl.
Qed.

Lemma monotone_run_code_output (code : string) : monotone (run_code_output code).
Proof. unfold run_code_output. monotone_steps. Qed.

(** The lint adapter spawns exactly one program: ruff. *)
Lemma run_ruff_spawned (path : string) (env : Env) (st : State) :
  spawned (snd (run_ruff path env st)) =
  (spawned st ++ [(["ruff"; "check"; path; "--output-format"; "json"], 20)])%list.
Proof.
  unfold run_ruff, bind, attempt, run, subprocess, ask, lift, ret.
  cbn [fs spawned].
  destruct (subprocess_run env (fs st) _ 20) as [out|[m|m]]; try reflexivity.
  destruct (not_in_0_1 (returncode out)); [reflexivity|].
  destruct (Py.truthy (Py.strip (stdout out))); [|reflexivity].
  destruct (loads_ruff env (stdout out)); reflexivity.
Qed.

Lemma spawned_finally_unlink {A : Type} (m : M A) (p : string)
    (env : Env) (st : State) :
  spawned (snd (finally m (unlink p) env st)) = spawned (snd (m env st)).
Proof. unfold finally, unlink. destruct (m env st); reflexivity. Qed.

Lemma syntax_check_pure (code : string) (env : Env) (st : State) :
  (forall e, py_compile env code <> Raise e) ->
  exists r, syntax_check code env st = (Ok r, st).
Proof.
  intros Hc. unfold syntax_check, bind, ask, ret, lift.
  destruct (py_compile env code) as [[e|]|e]; eauto.
  now destruct (Hc e).
Qed.

Lemma bind_extends_after {A B : Type} (m : M A) (k : A -> M B)
    (env : Env) (st : State) (calls0 : list Call) :
  spawned (snd (m env st)) = (spawned st ++ calls0)%list ->
  (forall a, monotone (k a)) ->
  exists calls,
    spawned (snd (bind m k env st)) = (spawned st ++ calls0 ++ calls)%list.
Proof.
  intros Hm Hk. unfold bind.
  destruct (m env st) as [[a|e] st1]; simpl in Hm.
  - destruct (Hk a env st1) as [calls Hcalls]. exists calls.
    now rewrite Hcalls, Hm, app_assoc.
  - exists []. now rewrite app_nil_r.
Qed.

(** The analysis starts by running ruff on the temporary file. *)
Lemma analyse_invokes_ruff (code : string) (env : Env) (st : State) :
  Py.encodable code = true ->
  (forall e, py_compile env code <> Raise e) ->
  exists calls,
    spawned (snd (analyse code env st)) =
    (spawned st
     ++ (["ruff"; "check"; mkstemp env (fs st); "--output-format"; "json"], 20)
     :: calls)%list.
Proof.
  intros Henc Hc.
  unfold analyse. unfold bind at 1. unfold named_temporary_file at 1.
  rewrite Henc. rewrite spawned_finally_unlink.
  set (path := mkstemp env (fs st)).
  set (st1 := {| fs := (path, code) :: fs st; spawned := spawned st |}).
  destruct (syntax_check_pure code env st1 Hc) as [syn Hsyn].
  unfold bind at 1. rewrite Hsyn.
  change (spawned st) with (spawned st1).
  apply (bind_extends_after (run_ruff path) _ env st1
           [(["ruff"; "check"; path; "--output-format"; "json"], 20)]).
  - apply run_ruff_spawned.
  - intros ruff.
    pose proof monotone_run_radon_metrics. pose proof monotone_run_bandit.
    pose proof monotone_run_code_output.
    monotone_steps.
Qed.

Lemma bind_Ok_inv {A B : Type} (m : M A) (k : A -> M B) env st b :
  fst (bind m k env st) = Ok b ->
  exists a st1, m env st = (Ok a, st1) /\ fst (k a env st1) = Ok b.
Proof.
  unfold bind. destruct (m env st) as [[a|e] st1]; simpl; intros H.
  - eauto.
  - discriminate.
Qed.

Lemma finally_Ok_inv {A : Type} (m : M A) (c : M unit) env st a :
  fst (finally m c env st) = Ok a -> fst (m env st) = Ok a.
Proof.
  unfold finally. destruct (m env st) as [r st1].
  destruct (c env st1) as [[u|e] st2]; simpl; intros H; congruence.
Qed.

Lemma analyse_summary code env st r :
  fst (analyse code env st) = Ok (Reviewed r) ->
  exists metrics lint_count sec_count,
    summary r = pretty_summary metrics lint_count sec_count.
Proof.
  unfold analyse. intros H.
  apply bind_Ok_inv in H as (path & st1 & _ & H).
  apply finally_Ok_inv in H.
  apply bind_Ok_inv in H as (syn & st2 & _ & H).
  apply bind_Ok_inv in H as (ruff & st3 & _ & H).
  apply bind_Ok_inv in H as (metrics & st4 & _ & H).
  apply bind_Ok_inv in H as (sec & st5 & _ & H).
  apply bind_Ok_inv in H as (out & st6 & _ & H).
  simpl in H. injection H as <-. simpl. eauto.
Qed.

End Pipeline.

(* ------------------------------------------------------------------ *)
(** ** The [/review] handler *)

Section Review.

Lemma fst_Ok {A : Type} (p : result A * State) (a : A) :
  fst p = Ok a -> exists st', p = (Ok a, st').
Proof. destruct p as [r st']. simpl. intros ->. eauto. Qed.

Lemma bind_Ok {A B : Type} (m : M A) (k : A -> M B) env st a st1 :
  m env st = (Ok a, st1) -> bind m k env st = k a env st1.
Proof. unfold bind. now intros ->. Qed.

Lemma run_code_output_total (code : string) (env : Env) (st : State) :
  Py.encodable code = true ->
  exists out st', run_code_output code env st = (Ok out, st').
Proof.
  intros Henc.
  unfold run_code_output, bind, finally, attempt, subprocess,
    named_temporary_file, unlink, ret.
  rewrite Henc. cbn [fs spawned].
  destruct (subprocess_run env _ _ 5); eauto.
Qed.

Lemma analyse_without_tools (code : string) (env : Env) (st : State) :
  binary_absent env "ruff" ->
  binary_absent env "radon" ->
  binary_absent env "bandit" ->
  Py.encodable code = true ->
  (forall e, py_compile env code <> Raise e) ->
  exists r st',
    analyse code env st = (Ok (Reviewed r), st')
    /\ issues r =
       (match py_compile env code with
        | Ok (Some e) => [ {| issue_type := Some "SYNTAX_ERROR";
                              issue_detail := Some (msg e);
                              issue_line := or_none (lineno e) |} ]
        | _ => []
        end
        ++ [ {| issue_type := Some "RUFF_MISSING";
                issue_detail := Some "ruff not installed in venv";
                issue_line := None |} ])%list.
Proof.
  intros Hruff Hradon Hbandit Henc Hc.
  unfold analyse. unfold bind at 1. unfold named_temporary_file at 1.
  rewrite Henc.
  set (path := mkstemp env (fs st)).
  set (st1 := {| fs := (path, code) :: fs st; spawned := spawned st |}).
  unfold finally.
  assert (exists syn, syntax_check code env st1 = (Ok syn, st1)
            /\ match syn with Some e => [e] | None => [] end
               = match py_compile env code with
                 | Ok (Some e) => [ {| issue_type := Some "SYNTAX_ERROR";
                                       issue_detail := Some (msg e);
                                       issue_line := or_none (lineno e) |} ]
                 | _ => []
                 end) as (syn & Hsyn & Hsyn_eq).
  { unfold syntax_check, bind, ask, ret, lift.
    destruct (py_compile env code) as [[e|]|e];
      [eexists; split; reflexivity.. | now destruct (Hc e)]. }
  rewrite (bind_Ok _ _ _ _ _ _ Hsyn).
  destruct (fst_Ok _ _ (run_ruff_absent env st1 path Hruff)) as [st2 H2].
  rewrite (bind_Ok _ _ _ _ _ _ H2).
  destruct (fst_Ok _ _ (run_radon_metrics_absent env st2 path Hradon)) as [st3 H3].
  rewrite (bind_Ok _ _ _ _ _ _ H3).
  destruct (fst_Ok _ _ (run_bandit_absent env st3 path Hbandit)) as [st4 H4].
  rewrite (bind_Ok _ _ _ _ _ _ H4).
  destruct (run_code_output_total code env st4 Henc) as (out & st5 & H5).
  rewrite (bind_Ok _ _ _ _ _ _ H5).
  unfold ret, unlink. eexists. eexists. split; [reflexivity|].
  cbn [issues map]. rewrite app_nil_r. now rewrite Hsyn_eq.
Qed.

(** C5 (amended). When its program is not installed, no adapter raises: the
    lint adapter returns the single issue [RUFF_MISSING]; the security
    adapter returns no finding, hence contributes no issue; the metrics
    adapter returns the three metrics as unavailable.  With none of the three
    installed the analysis still answers -- for every code that could be
    written to the temporary file and on which [compile] raised nothing but
    a [SyntaxError] -- its issues being the syntax error, if any, followed
    by [RUFF_MISSING] alone. *)
Theorem adapters_binary_absent (env : Env) (st : State) (path : string) :
  (binary_absent env "ruff" ->
   fst (run_ruff path env st) =
   Ok [ {| issue_type := Some "RUFF_MISSING";
           issue_detail := Some "ruff not installed in venv";
           issue_line := None |} ])
  /\ (binary_absent env "bandit" -> fst (run_bandit path env st) = Ok [])
  /\ (binary_absent env "radon" ->
      fst (run_radon_metrics path env st) =
      Ok {| mi := None; avg_cc := None; max_cc := None |})
  /\ (binary_absent env "ruff" -> binary_absent env "radon" ->
      binary_absent env "bandit" ->
      forall code,
        Py.encodable code = true ->
        (forall e, py_compile env code <> Raise e) ->
        exists r st',
          analyse code env st = (Ok (Reviewed r), st')
          /\ issues r =
             (match py_compile env code with
              | Ok (Some e) => [ {| issue_type := Some "SYNTAX_ERROR";
                                    issue_detail := Some (msg e);
                                    issue_line := or_none (lineno e) |} ]
              | _ => []
              end
              ++ [ {| issue_type := Some "RUFF_MISSING";
                      issue_detail := Some "ruff not installed in venv";
                      issue_line := None |} ])%list).
Proof.
  split; [apply run_ruff_absent|].
  split; [apply run_bandit_absent|].
  split; [apply run_radon_metrics_absent|].
  intros Hruff Hradon Hbandit code Henc Hc.
  now apply analyse_without_tools.
Qed.

Lemma pretty_summary_not_non_python (metrics : Metrics) (l s : nat) :
  pretty_summary metrics l s = summary non_python_result -> False.
Proof. unfold pretty_summary. cbn. discriminate. Qed.

(** C7 (amended). When the code is not blank and the file name -- with
    "snippet.py" standing for a missing or empty name, surrounding white
    space removed and letters in lower case -- does not end in ".py", the
    answer is the fixed non-Python result: the explanatory summary, no issue,
    four scores of 0, the output marker and one suggestion.  No program is
    spawned and no file is written, so the answer is the same in every
    environment and for every repetition of the request. *)
Theorem review_non_python (req : Request) (env : Env) (st : State) :
  Py.strip (Py.or_else (req_code req) "") <> "" ->
  Py.endswith
    (Py.lower (Py.strip (Py.or_else (req_filename req) "snippet.py")))
    ".py" = false ->
  review req env st =
    (Ok (Reviewed
           {| summary :=
                "Non-Python file — analysis is only enabled for .py in this MVP.";
              issues := [];
              scores := {| readability := 0; complexity := 0;
                           security := 0; testing := 0 |};
              output := "(not run — non-Python file)";
              suggestions := ["Paste a .py file to get full analysis."] |}),
     st)
  /\ (forall env' st', fst (review req env' st') = fst (review req env st)).
Proof.
  intros Hcode Hname.
  assert (forall e s, review req e s = (Ok (Reviewed non_python_result), s)) as H.
  { intros e s. unfold review.
    apply truthy_true in Hcode. rewrite Hcode, Hname. reflexivity. }
  split.
  - apply H.
  - intros env' st'. now rewrite !H.
Qed.

(** C10. A request without file name, or with an empty one, is handled as if
    the name were "snippet.py": provided the code is not blank, it goes
    through the analysis and its answer is not the non-Python result.  Ruff
    is run on the temporary file as soon as the code could be written to it
    and [compile] raised nothing but a [SyntaxError]. *)
Theorem review_default_filename (fn code : option string)
    (env : Env) (st : State) :
  fn = None \/ fn = Some "" ->
  Py.strip (Py.or_else code "") <> "" ->
  review {| req_filename := fn; req_code := code |} env st
  = review {| req_filename := Some "snippet.py"; req_code := code |} env st
  /\ review {| req_filename := fn; req_code := code |} env st
     = analyse (Py.strip (Py.or_else code "")) env st
  /\ (Py.encodable (Py.strip (Py.or_else code "")) = true ->
      (forall e, py_compile env (Py.strip (Py.or_else code "")) <> Raise e) ->
      exists calls,
        spawned (snd (review {| req_filename := fn; req_code := code |} env st))
        = (spawned st
           ++ (["ruff"; "check"; mkstemp env (fs st); "--output-format"; "json"],
               20) :: calls)%list)
  /\ fst (review {| req_filename := fn; req_code := code |} env st)
     <> Ok (Reviewed non_python_result).
Proof.
  intros Hfn Hcode.
  assert (review {| req_filename := fn; req_code := code |} env st
          = analyse (Py.strip (Py.or_else code "")) env st) as Hrev.
  { unfold review. cbn [req_code req_filename].
    apply truthy_true in Hcode. rewrite Hcode.
    destruct Hfn as [-> | ->]; reflexivity. }
  repeat split.
  - rewrite Hrev. unfold review. cbn [req_code req_filename].
    apply truthy_true in Hcode. now rewrite Hcode.
  - exact Hrev.
  - intros Henc Hc. rewrite Hrev. now apply analyse_invokes_ruff.
  - rewrite Hrev. intros H.
    apply analyse_summary in H as (m & l & s & H).
    symmetry in H. now apply pretty_summary_not_non_python in H.
Qed.

End Review.

(* ------------------------------------------------------------------ *)
(** ** The properties at concrete inputs *)

Lemma score_from_syntax_error_witness :
  score_from (metrics_with_avg (Py.Int 2)) [syntax_issue] [finding "LOW"]
    "def f(:" =
  {| readability := 0; complexity := 0; security := 30; testing := 0 |}.
Proof.
  apply (score_from_syntax_error (metrics_with_avg (Py.Int 2)) [syntax_issue]
           [finding "LOW"] "def f(:" syntax_issue).
  - simpl. left. reflexivity.
  - reflexivity.
Defined.

Lemma security_score_formula_witness :
  security
    (score_from no_metrics []
       [finding "HIGH"; finding "medium"; finding "LOW"; finding "HIGH"]
       "print(1)") = 40.
Proof.
  exact (proj1 (security_score_formula no_metrics []
                  [finding "HIGH"; finding "medium"; finding "LOW"; finding "HIGH"]
                  "print(1)" eq_refl)).
Defined.

Lemma complexity_score_steps_witness :
  complexity (score_from (metrics_with_avg (Py.Int 3)) [] [] "print(1)") = 85
  /\ complexity
       (score_from (metrics_with_avg (Py.Float (301 # 100))) [] [] "print(1)")
     = 70.
Proof.
  split.
  - apply (proj2 (complexity_score_steps (metrics_with_avg (Py.Int 3)) [] []
                    "print(1)" eq_refl) (Py.Int 3) eq_refl).
    + reflexivity.
    + vm_compute. discriminate.
  - apply (proj2 (complexity_score_steps
                    (metrics_with_avg (Py.Float (301 # 100))) [] []
                    "print(1)" eq_refl) (Py.Float (301 # 100)) eq_refl).
    + reflexivity.
    + vm_compute. discriminate.
Defined.

Lemma testing_score_import_pytest_witness :
  testing
    (score_from no_metrics [] []
       (("import os" ++ nl) ++ "import pytest" ++ (nl ++ "print(1)"))) = 80.
Proof.
  apply (testing_score_import_pytest no_metrics [] []
           (("import os" ++ nl) ++ "import pytest" ++ (nl ++ "print(1)"))
           (Py.ords ("import os" ++ nl)) (Py.ords (nl ++ "print(1)")));
    reflexivity.
Defined.

(** The claim without the amendments fails: "import pytester" and
    "import pytesté" contain "import pytest" and score 20; a module that
    imports pytest and does not parse scores 0. *)
Lemma testing_score_import_pytest_counterexample :
  (exists pre post, "import pytester" = pre ++ "import pytest" ++ post)
  /\ has_syntax_error [] = false
  /\ testing (score_from no_metrics [] [] "import pytester") = 20
  /\ (exists pre post, "import pytesté" = pre ++ "import pytest" ++ post)
  /\ testing (score_from no_metrics [] [] "import pytesté") = 20
  /\ (exists pre post, broken_test_module = pre ++ "import pytest" ++ post)
  /\ testing (score_from no_metrics [syntax_issue] [] broken_test_module) = 0.
Proof.
  split; [exists "", "er"; reflexivity|].
  split; [reflexivity|].
  split; [vm_compute; reflexivity|].
  split; [exists "", "é"; reflexivity|].
  split; [vm_compute; reflexivity|].
  split; [exists "", (nl ++ "def f(:"); reflexivity|].
  reflexivity.
Qed.

Lemma env_no_tools_absent (tool : string) : binary_absent env_no_tools tool.
Proof. intros files args timeout. eexists. reflexivity. Defined.

Lemma adapters_binary_absent_witness :
  fst (run_ruff "/tmp/tmp0.py" env_no_tools start) =
    Ok [ {| issue_type := Some "RUFF_MISSING";
            issue_detail := Some "ruff not installed in venv";
            issue_line := None |} ]
  /\ fst (run_bandit "/tmp/tmp0.py" env_no_tools start) = Ok []
  /\ fst (run_radon_metrics "/tmp/tmp0.py" env_no_tools start) =
       Ok {| mi := None; avg_cc := None; max_cc := None |}
  /\ (exists r st',
        analyse "print(1)" env_no_tools start = (Ok (Reviewed r), st')
        /\ issues r =
           [ {| issue_type := Some "RUFF_MISSING";
                issue_detail := Some "ruff not installed in venv";
                issue_line := None |} ]).
Proof.
  destruct (adapters_binary_absent env_no_tools start "/tmp/tmp0.py")
    as (Hruff & Hbandit & Hradon & Hall).
  split; [|split; [|split]].
  - apply Hruff, env_no_tools_absent.
  - apply Hbandit, env_no_tools_absent.
  - apply Hradon, env_no_tools_absent.
  - apply (Hall (env_no_tools_absent "ruff") (env_no_tools_absent "radon")
             (env_no_tools_absent "bandit") "print(1)" eq_refl).
    discriminate.
Defined.

(** The claim as stated fails for the security and the metrics adapters: on
    a machine without Bandit and radon the former returns no finding and the
    latter no metric, and the review of "print(1)" carries one issue only,
    ruff's. *)
Lemma adapters_binary_absent_counterexample :
  binary_absent env_no_tools "bandit"
  /\ fst (run_bandit "/tmp/tmp0.py" env_no_tools start) = Ok []
  /\ binary_absent env_no_tools "radon"
  /\ fst (run_radon_metrics "/tmp/tmp0.py" env_no_tools start) = Ok no_metrics
  /\ (exists r st',
        review {| req_filename := Some "snippet.py"; req_code := Some "print(1)" |}
          env_no_tools start = (Ok (Reviewed r), st')
        /\ map issue_type (issues r) = [Some "RUFF_MISSING"]).
Proof.
  split; [apply env_no_tools_absent|].
  split; [reflexivity|].
  split; [apply env_no_tools_absent|].
  split; [reflexivity|].
  eexists. eexists. split; [vm_compute; reflexivity | reflexivity].
Qed.

Lemma review_non_python_witness :
  review {| req_filename := Some "notes.txt"; req_code := Some "print(1)" |}
    env_clean start =
  (Ok (Reviewed non_python_result), start).
Proof.
  apply (review_non_python
           {| req_filename := Some "notes.txt"; req_code := Some "print(1)" |}
           env_clean start).
  - vm_compute. discriminate.
  - reflexivity.
Defined.

(** The claim as stated fails for a name in upper case, for a name with
    trailing white space (a space, a no-break space) and for an empty name:
    none of "MAIN.PY", "main.py ", "a.py" followed by U+00A0, and "" ends
    in ".py", and each request goes through the whole analysis, five
    programs being spawned. *)
Lemma review_non_python_counterexample :
  (Py.endswith "MAIN.PY" ".py" = false
   /\ review {| req_filename := Some "MAIN.PY"; req_code := Some "print(1)" |}
        env_clean start = analysis_of_print)
  /\ (Py.endswith "main.py " ".py" = false
      /\ review {| req_filename := Some "main.py "; req_code := Some "print(1)" |}
           env_clean start = analysis_of_print)
  /\ (Py.endswith ("a.py" ++ nbsp) ".py" = false
      /\ review {| req_filename := Some ("a.py" ++ nbsp);
                   req_code := Some "print(1)" |}
           env_clean start = analysis_of_print)
  /\ (Py.endswith "" ".py" = false
      /\ review {| req_filename := Some ""; req_code := Some "print(1)" |}
           env_clean start = analysis_of_print).
Proof.
  repeat split; vm_compute; reflexivity.
Qed.

Lemma review_default_filename_witness :
  review {| req_filename := None; req_code := Some "print(1)" |}
    env_clean start
  = review {| req_filename := Some "snippet.py"; req_code := Some "print(1)" |}
      env_clean start.
Proof.
  apply (review_default_filename None (Some "print(1)") env_clean start).
  - left. reflexivity.
  - vm_compute. discriminate.
Defined.

Lemma run_code_output_spec_witness :
  exists out st',
    run_code_output "print(1)" env_clean start = (Ok out, st') /\ out = "1".
Proof.
  destruct (proj1 (run_code_output_spec "print(1)" env_clean start) eq_refl)
    as (out & st' & Hrun & _ & H & _).
  exists out, st'. split; [exact Hrun|].
  apply H; [vm_compute; discriminate | reflexivity].
Defined.

(* ================================================================== *)
(** * Further properties of the scores *)

Section ScoreRange.

Lemma ltb_true (a b : Py.num) : Py.ltb a b = true <-> (Py.toQ a < Py.toQ b)%Q.
Proof.
  unfold Py.ltb. rewrite negb_true_iff. apply (leb_false b a).
Qed.

Lemma ltb_false (a b : Py.num) : Py.ltb a b = false <-> (Py.toQ b <= Py.toQ a)%Q.
Proof.
  unfold Py.ltb. rewrite negb_false_iff. apply (leb_true b a).
Qed.

Lemma min_cases (a b : Py.num) :
  ((Py.toQ b < Py.toQ a)%Q /\ Py.min a b = b)
  \/ ((Py.toQ a <= Py.toQ b)%Q /\ Py.min a b = a).
Proof.
  unfold Py.min. destruct (Py.ltb b a) eqn:E.
  - left. split; [now apply ltb_true | reflexivity].
  - right. split; [now apply ltb_false | reflexivity].
Qed.

Lemma max_cases (a b : Py.num) :
  ((Py.toQ a < Py.toQ b)%Q /\ Py.max a b = b)
  \/ ((Py.toQ b <= Py.toQ a)%Q /\ Py.max a b = a).
Proof.
  unfold Py.max. destruct (Py.ltb a b) eqn:E.
  - left. split; [now apply ltb_true | reflexivity].
  - right. split; [now apply ltb_false | reflexivity].
Qed.

Lemma clamp_cases (v lo hi : Py.num) :
  (Py.toQ lo <= Py.toQ hi)%Q ->
  (Py.toQ lo <= Py.toQ (clamp v lo hi) <= Py.toQ hi)%Q
  /\ ((Py.toQ lo < Py.toQ v)%Q -> (Py.toQ v < Py.toQ hi)%Q ->
      clamp v lo hi = v)
  /\ ((Py.toQ v <= Py.toQ lo)%Q -> clamp v lo hi = lo)
  /\ ((Py.toQ hi <= Py.toQ v)%Q -> (Py.toQ lo < Py.toQ hi)%Q ->
      clamp v lo hi = hi).
Proof.
  intros Hb. unfold clamp.
  destruct (min_cases hi v) as [[H1 ->] | [H1 ->]];
    [destruct (max_cases lo v) as [[H2 ->] | [H2 ->]]
    |destruct (max_cases lo hi) as [[H2 ->] | [H2 ->]]];
    repeat split; intros; try reflexivity; try lra; exfalso; lra.
Qed.

Lemma nearest_between (n a b : Z) (q : Q) :
  nearest n q -> (inject_Z a <= q)%Q -> (q <= inject_Z b)%Q -> a <= n <= b.
Proof.
  unfold nearest. intros Hn Ha Hb.
  apply Qabs_Qle_condition in Hn. destruct Hn as [Hn1 Hn2].
  split.
  - destruct (Z_le_gt_dec a n) as [H|H]; [exact H|exfalso].
    assert (n + 1 <= a) as H' by lia.
    rewrite Zle_Qle, inject_Z_plus in H'. change (inject_Z 1) with 1%Q in H'.
    lra.
  - destruct (Z_le_gt_dec n b) as [H|H]; [exact H|exfalso].
    assert (b + 1 <= n) as H' by lia.
    rewrite Zle_Qle, inject_Z_plus in H'. change (inject_Z 1) with 1%Q in H'.
    lra.
Qed.

Lemma round_between (x : Py.num) (a b : Z) :
  (inject_Z a <= Py.toQ x)%Q -> (Py.toQ x <= inject_Z b)%Q ->
  a <= Py.round x <= b.
Proof.
  destruct x as [z|q]; simpl; intros Ha Hb.
  - rewrite <- !Zle_Qle in *. lia.
  - eapply nearest_between; eauto using round_half_even_nearest.
Qed.

Lemma complexity_bucket_values (avg : option Py.num) :
  In (complexity_bucket avg)
     [Py.Int 0; Py.Int 95; Py.Int 85; Py.Int 70; Py.Int 55; Py.Int 35].
Proof.
  unfold complexity_bucket. destruct avg as [a|]; [|simpl; auto].
  repeat match goal with
         | |- context [if ?b then _ else _] => destruct b
         end; simpl; auto 10.
Qed.

Lemma total_penalty_app (l1 l2 : list SecFinding) :
  total_penalty (l1 ++ l2) = total_penalty l1 + total_penalty l2.
Proof.
  rewrite !total_penalty_sum, map_app, fold_right_app.
  induction (map severity_penalty l1) as [|x xs IH]; simpl; lia.
Qed.

Lemma severity_penalty_at_least_5 (f : SecFinding) : 5 <= severity_penalty f <= 20.
Proof.
  unfold severity_penalty.
  destruct (String.eqb _ "HIGH"); [lia|].
  destruct (String.eqb _ "MEDIUM"); lia.
Qed.

Lemma total_penalty_lower (l : list SecFinding) :
  5 * Z.of_nat (List.length l) <= total_penalty l.
Proof.
  rewrite total_penalty_sum.
  induction l as [|f l IH]; simpl List.length; simpl map; simpl fold_right.
  - lia.
  - pose proof (severity_penalty_at_least_5 f). lia.
Qed.

(** X1. Whatever the inputs, the four scores are integers from 0 to 100, the
    security score never above 95. *)
Theorem score_from_in_range (metrics : Metrics) (issues : list Issue)
    (sec_findings : list SecFinding) (code : string) :
  0 <= readability (score_from metrics issues sec_findings code) <= 100
  /\ 0 <= complexity (score_from metrics issues sec_findings code) <= 100
  /\ 0 <= security (score_from metrics issues sec_findings code) <= 95
  /\ 0 <= testing (score_from metrics issues sec_findings code) <= 100.
Proof.
  unfold score_from. destruct (has_syntax_error issues).
  - cbn. destruct sec_findings; lia.
  - cbv zeta. cbn [readability complexity security testing].
    split; [|split; [|split]].
    + apply round_between;
        apply (clamp_cases _ (Py.Int 0) (Py.Int 100));
        cbn [Py.toQ]; rewrite <- Zle_Qle; lia.
    + pose proof (complexity_bucket_values (avg_cc metrics)) as H.
      cbn [In] in H.
      destruct H as [<-|[<-|[<-|[<-|[<-|[<-|[]]]]]]]; cbn; lia.
    + rewrite clamp_Int. cbn. lia.
    + destruct (has_tests code); cbn; lia.
Qed.

(** X2. [clamp(v, lo, hi)] with [lo <= hi] lies within the bounds, is [v] itself
    when [v] is strictly inside, [lo] when [v] is at or below [lo], and [hi]
    when [v] is at or above [hi]; with the bounds the wrong way round it is
    [lo]. *)
Theorem clamp_within (v lo hi : Py.num) :
  ((Py.toQ lo <= Py.toQ hi)%Q ->
   (Py.toQ lo <= Py.toQ (clamp v lo hi) <= Py.toQ hi)%Q
   /\ ((Py.toQ lo < Py.toQ v)%Q -> (Py.toQ v < Py.toQ hi)%Q ->
       clamp v lo hi = v)
   /\ ((Py.toQ v <= Py.toQ lo)%Q -> clamp v lo hi = lo)
   /\ ((Py.toQ hi <= Py.toQ v)%Q -> (Py.toQ lo < Py.toQ hi)%Q ->
       clamp v lo hi = hi))
  /\ ((Py.toQ hi < Py.toQ lo)%Q -> clamp v lo hi = lo).
Proof.
  split; [apply clamp_cases|].
  intros Hb. unfold clamp.
  destruct (min_cases hi v) as [[H1 ->] | [H1 ->]];
    [destruct (max_cases lo v) as [[H2 ->] | [H2 ->]]
    |destruct (max_cases lo hi) as [[H2 ->] | [H2 ->]]];
    try reflexivity; exfalso; lra.
Qed.

Lemma readability_unfold (metrics : Metrics) (issues : list Issue)
    (sec_findings : list SecFinding) (code : string) :
  has_syntax_error issues = false ->
  readability (score_from metrics issues sec_findings code) =
  Py.round (clamp (match mi metrics with Some v => v | None => Py.Int 0 end)
              (Py.Int 0) (Py.Int 100)).
Proof. intros Hno. unfold score_from. now rewrite Hno. Qed.

Lemma round_zero (x : Py.num) : (Py.toQ x == 0)%Q -> Py.round x = 0.
Proof.
  destruct x as [z|q]; simpl; intros E.
  - unfold Qeq, inject_Z in E. simpl in E. lia.
  - now rewrite (round_half_even_ext q 0 E).
Qed.

Lemma round_hundred (x : Py.num) : (Py.toQ x == 100)%Q -> Py.round x = 100.
Proof.
  destruct x as [z|q]; simpl; intros E.
  - unfold Qeq, inject_Z in E. simpl in E. lia.
  - now rewrite (round_half_even_ext q 100 E).
Qed.

(** X3. Without a syntax error the readability score is the maintainability
    index rounded to the nearest integer (ties to even) when the index lies
    between 0 and 100, 0 when it is negative or unavailable, 100 when it
    exceeds 100. *)
Theorem readability_from_mi (metrics : Metrics) (issues : list Issue)
    (sec_findings : list SecFinding) (code : string) :
  has_syntax_error issues = false ->
  (mi metrics = None ->
   readability (score_from metrics issues sec_findings code) = 0)
  /\ (forall v, mi metrics = Some v ->
      ((Py.toQ v <= 0)%Q ->
       readability (score_from metrics issues sec_findings code) = 0)
      /\ ((100 <= Py.toQ v)%Q ->
          readability (score_from metrics issues sec_findings code) = 100)
      /\ ((0 <= Py.toQ v)%Q -> (Py.toQ v <= 100)%Q ->
          readability (score_from metrics issues sec_findings code) = Py.round v
          /\ nearest (readability (score_from metrics issues sec_findings code))
               (Py.toQ v))).
Proof.
  intros Hno. rewrite (readability_unfold _ _ _ _ Hno). split.
  - intros ->. reflexivity.
  - intros v ->.
    assert (Py.toQ (Py.Int 0) <= Py.toQ (Py.Int 100))%Q as Hb
      by (cbn [Py.toQ]; rewrite <- Zle_Qle; lia).
    destruct (clamp_cases v _ _ Hb) as (H1 & H2 & H3 & H4).
    cbn [Py.toQ] in *. change (inject_Z 0) with 0%Q in *.
    change (inject_Z 100) with 100%Q in *.
    assert (forall x, nearest (Py.round x) (Py.toQ x)) as Hnear.
    { intros [z|q]; simpl; [|apply round_half_even_nearest].
      unfold nearest. apply Qabs_Qle_condition.
      assert (inject_Z z - inject_Z z == 0)%Q as -> by ring. split; lra. }
    split; [|split].
    + intros Hv. now rewrite (H3 Hv).
    + intros Hv. rewrite (H4 Hv); [reflexivity | lra].
    + intros Hlo Hhi.
      assert (Py.round (clamp v (Py.Int 0) (Py.Int 100)) = Py.round v) as ->.
      { destruct (Qlt_le_dec 0 (Py.toQ v)) as [Hpos|Hnpos].
        - destruct (Qlt_le_dec (Py.toQ v) 100) as [Hlt|Hge].
          + now rewrite (H2 Hpos Hlt).
          + assert (Py.toQ v == 100)%Q as E by lra.
            rewrite (H4 Hge) by lra. now rewrite (round_hundred v E).
        - assert (Py.toQ v == 0)%Q as E by lra.
          now rewrite (H3 Hnpos), (round_zero v E). }
      split; [reflexivity | apply Hnear].
Qed.

End ScoreRange.

Section ScoreOrder.

Lemma complexity_bucket_spec (a : Py.num) :
  ((Py.toQ a <= 1)%Q /\ complexity_bucket (Some a) = Py.Int 95)
  \/ ((1 < Py.toQ a)%Q /\ (Py.toQ a <= 3)%Q
      /\ complexity_bucket (Some a) = Py.Int 85)
  \/ ((3 < Py.toQ a)%Q /\ (Py.toQ a <= 6)%Q
      /\ complexity_bucket (Some a) = Py.Int 70)
  \/ ((6 < Py.toQ a)%Q /\ (Py.toQ a <= 10)%Q
      /\ complexity_bucket (Some a) = Py.Int 55)
  \/ ((10 < Py.toQ a)%Q /\ complexity_bucket (Some a) = Py.Int 35).
Proof.
  unfold complexity_bucket.
  destruct (Py.leb a (Py.Int 1)) eqn:E1;
    [apply leb_true in E1; cbn in E1; auto|apply leb_false in E1].
  destruct (Py.leb a (Py.Int 3)) eqn:E3;
    [apply leb_true in E3; cbn in E3; auto 6|apply leb_false in E3].
  destruct (Py.leb a (Py.Int 6)) eqn:E6;
    [apply leb_true in E6; cbn in E6; auto 8|apply leb_false in E6].
  destruct (Py.leb a (Py.Int 10)) eqn:E10;
    [apply leb_true in E10; cbn in E10; auto 10|apply leb_false in E10].
  cbn in *. auto 10.
Qed.

(** X4. The complexity score never goes up when the average complexity does:
    of two reviews without syntax error, the one with the larger average
    complexity has the smaller or equal complexity score. *)
Theorem complexity_score_monotone (m1 m2 : Metrics) (i1 i2 : list Issue)
    (s1 s2 : list SecFinding) (c1 c2 : string) (a b : Py.num) :
  has_syntax_error i1 = false ->
  has_syntax_error i2 = false ->
  avg_cc m1 = Some a ->
  avg_cc m2 = Some b ->
  (Py.toQ a <= Py.toQ b)%Q ->
  complexity (score_from m2 i2 s2 c2) <= complexity (score_from m1 i1 s1 c1).
Proof.
  intros H1 H2 Ha Hb Hle.
  rewrite (complexity_unfold m1 i1 s1 c1 H1), (complexity_unfold m2 i2 s2 c2 H2).
  rewrite Ha, Hb.
  destruct (complexity_bucket_spec a) as [[? ->]|[(?&?&->)|[(?&?&->)|[(?&?&->)|[? ->]]]]];
  destruct (complexity_bucket_spec b) as [[? ->]|[(?&?&->)|[(?&?&->)|[(?&?&->)|[? ->]]]]];
  cbn [Py.round]; try lia; exfalso; lra.
Qed.

(** X5. More findings never raise the security score, and it reaches 0 as soon
    as there are nineteen findings, whatever their severities. *)
Theorem security_score_monotone (metrics : Metrics) (issues : list Issue)
    (sec_findings more : list SecFinding) (code : string) :
  has_syntax_error issues = false ->
  security (score_from metrics issues (sec_findings ++ more) code)
  <= security (score_from metrics issues sec_findings code)
  /\ ((19 <= List.length sec_findings)%nat ->
      security (score_from metrics issues sec_findings code) = 0).
Proof.
  intros Hno. rewrite !(security_unfold _ _ _ _ Hno), total_penalty_app.
  pose proof (total_penalty_lower more).
  pose proof (total_penalty_lower sec_findings).
  split; [lia|]. intros Hlen. lia.
Qed.

End ScoreOrder.

(* ================================================================== *)
(** * The testing heuristic, in full *)

Section Matcher.

Lemma char_before_nonempty (ws : list N) (x y : option N) :
  ws <> [] -> char_before x ws = char_before y ws.
Proof.
  destruct ws as [|c ws]; [congruence|]. reflexivity.
Qed.

Lemma lit_spec (l : list N) :
  forall prev s k,
    Re.lit l prev s k = true <->
    exists rest, s = (l ++ rest)%list /\ k (char_before prev l) rest = true.
Proof.
  induction l as [|a l IH]; intros prev s k; simpl.
  - split.
    + intros H. now exists s.
    + intros (rest & -> & H). exact H.
  - destruct s as [|c s].
    + split; [discriminate | intros (rest & H & _); discriminate].
    + rewrite andb_true_iff, IH. split.
      * intros (Hac & rest & -> & Hk). apply N.eqb_eq in Hac. subst c.
        now exists rest.
      * intros (rest & Heq & Hk). injection Heq as -> ->.
        split; [apply N.eqb_refl | now exists rest].
Qed.

Lemma plus_spec (p : N -> bool) (k : option N -> list N -> bool) :
  forall s,
    Re.plus p s k = true <->
    exists ws rest,
      ws <> [] /\ forallb p ws = true /\ s = (ws ++ rest)%list
      /\ k (char_before None ws) rest = true.
Proof.
  intros s. split.
  - induction s as [|c s IH]; simpl; [discriminate|].
    rewrite andb_true_iff, orb_true_iff. intros (Hp & [H | H]).
    + destruct (IH H) as (ws & rest & Hne & Hall & -> & Hk).
      exists (c :: ws), rest. simpl. rewrite Hp, Hall.
      repeat split; try discriminate.
      now rewrite (char_before_nonempty ws (Some c) None Hne).
    + exists [c], s. simpl. rewrite Hp.
      repeat split; [discriminate | exact H].
  - intros (ws & rest & Hne & Hall & -> & Hk).
    induction ws as [|c ws IH]; [congruence|].
    simpl in *. apply andb_true_iff in Hall as [Hp Hall]. rewrite Hp. simpl.
    destruct ws as [|c' ws].
    + simpl in *. rewrite Hk. apply orb_true_r.
    + rewrite IH; try discriminate; try assumption; reflexivity.
Qed.

Lemma search_from_spec (r : Re.regex) :
  forall s prev,
    Re.search_from r prev s = true <->
    exists pre rest,
      s = (pre ++ rest)%list
      /\ Re.match_here r (char_before prev pre) rest = true.
Proof.
  intros s prev. split.
  - revert prev. induction s as [|c s IH]; intros prev; simpl;
      rewrite orb_true_iff; intros [H | H]; try discriminate.
    + now exists [], [].
    + now exists [], (c :: s).
    + destruct (IH _ H) as (pre & rest & -> & Hm).
      now exists (c :: pre), rest.
  - intros (pre & rest & -> & Hm). now apply search_from_skip.
Qed.

Lemma starts_word (prev : option N) (c : N) (s : list N) :
  Re.is_word c = true ->
  (Re.boundary prev (c :: s) = true <-> Re.word_opt prev = false).
Proof.
  intros Hc. unfold Re.boundary. simpl. rewrite Hc.
  destruct (Re.word_opt prev); simpl; split; congruence.
Qed.

Lemma ends_word (c : N) (s : list N) :
  Re.is_word c = true ->
  (Re.boundary (Some c) s = true <-> Re.word_opt (Re.first_char s) = false).
Proof.
  intros Hc. unfold Re.boundary. simpl. rewrite Hc.
  destruct (Re.word_opt (Re.first_char s)); simpl; split; congruence.
Qed.

Lemma ords_def : Py.ords "def" = [100; 101; 102]%N.
Proof. reflexivity. Qed.

Lemma ords_test_ : Py.ords "test_" = [116; 101; 115; 116; 95]%N.
Proof. reflexivity. Qed.

Lemma ords_import : Py.ords "import" = [105; 109; 112; 111; 114; 116]%N.
Proof. reflexivity. Qed.

Lemma ords_unittest :
  Py.ords "unittest" = [117; 110; 105; 116; 116; 101; 115; 116]%N.
Proof. reflexivity. Qed.

Lemma ords_pytest : Py.ords "pytest" = [112; 121; 116; 101; 115; 116]%N.
Proof. reflexivity. Qed.

Lemma def_test_here (prev : option N) (s : list N) :
  Re.match_here re_def_test prev s = true <->
  exists ws post,
    ws <> [] /\ forallb Py.is_space ws = true
    /\ Re.word_opt prev = false
    /\ s = (Py.ords "def" ++ ws ++ Py.ords "test_" ++ post)%list.
Proof.
  unfold Re.match_here, re_def_test. cbn [Re.matches].
  rewrite andb_true_iff, lit_spec, ords_def, ords_test_. split.
  - intros (Hb & r1 & -> & H).
    apply plus_spec in H as (ws & r2 & Hne & Hall & -> & H).
    apply lit_spec in H as (post & -> & _).
    exists ws, post. repeat split; try assumption.
    now apply (starts_word prev 100%N _ eq_refl) in Hb.
  - intros (ws & post & Hne & Hall & Hprev & ->). split.
    + now apply (starts_word prev 100%N _ eq_refl).
    + exists (ws ++ [116; 101; 115; 116; 95]%N ++ post)%list.
      split; [reflexivity|].
      apply plus_spec. exists ws, ([116; 101; 115; 116; 95]%N ++ post)%list.
      split; [assumption|]. split; [assumption|]. split; [reflexivity|].
      apply lit_spec. now exists post.
Qed.

Lemma import_tests_here (prev : option N) (s : list N) :
  Re.match_here re_import_tests prev s = true <->
  exists ws post,
    ws <> [] /\ forallb Py.is_space ws = true
    /\ Re.word_opt prev = false
    /\ Re.word_opt (Re.first_char post) = false
    /\ (s = (Py.ords "import" ++ ws ++ Py.ords "unittest" ++ post)%list
        \/ s = (Py.ords "import" ++ ws ++ Py.ords "pytest" ++ post)%list).
Proof.
  unfold Re.match_here, re_import_tests. cbn [Re.matches].
  rewrite andb_true_iff, lit_spec, ords_import, ords_unittest, ords_pytest.
  split.
  - intros (Hb & r1 & -> & H).
    apply plus_spec in H as (ws & r2 & Hne & Hall & -> & H).
    apply (starts_word prev 105%N _ eq_refl) in Hb.
    apply orb_true_iff in H as [H | H];
      apply lit_spec in H as (post & -> & H);
      apply andb_true_iff in H as [H _];
      apply (ends_word 116%N _ eq_refl) in H;
      exists ws, post; repeat split; auto.
  - intros (ws & post & Hne & Hall & Hprev & Hpost & Hs). split.
    + destruct Hs as [-> | ->];
        now apply (starts_word prev 105%N _ eq_refl).
    + apply (ends_word 116%N _ eq_refl) in Hpost.
      destruct Hs as [-> | ->].
      * exists (ws ++ [117; 110; 105; 116; 116; 101; 115; 116]%N ++ post)%list.
        split; [reflexivity|].
        apply plus_spec.
        exists ws, ([117; 110; 105; 116; 116; 101; 115; 116]%N ++ post)%list.
        split; [assumption|]. split; [assumption|]. split; [reflexivity|].
        apply orb_true_iff. left. apply lit_spec. exists post.
        split; [reflexivity|]. cbn [char_before]. now rewrite Hpost.
      * exists (ws ++ [112; 121; 116; 101; 115; 116]%N ++ post)%list.
        split; [reflexivity|].
        apply plus_spec.
        exists ws, ([112; 121; 116; 101; 115; 116]%N ++ post)%list.
        split; [assumption|]. split; [assumption|]. split; [reflexivity|].
        apply orb_true_iff. right. apply lit_spec. exists post.
        split; [reflexivity|]. cbn [char_before]. now rewrite Hpost.
Qed.

Lemma has_tests_iff (code : string) :
  has_tests code = true <-> mentions_tests code.
Proof.
  unfold has_tests, mentions_tests, Re.search.
  rewrite orb_true_iff, !search_from_spec. split.
  - intros [(pre & rest & Hc & H) | (pre & rest & Hc & H)].
    + apply import_tests_here in H as (ws & post & Hne & Hall & Hp & Hq & Hs).
      exists pre, ws, post. repeat split; auto.
      right. split; [assumption|]. rewrite Hc.
      destruct Hs as [-> | ->]; auto.
    + apply def_test_here in H as (ws & post & Hne & Hall & Hp & ->).
      exists pre, ws, post. repeat split; auto.
  - intros (pre & ws & post & Hne & Hall & Hp & [Hc | (Hq & Hs)]).
    + right. exists pre, (Py.ords "def" ++ ws ++ Py.ords "test_" ++ post)%list.
      split; [exact Hc|]. apply def_test_here. now exists ws, post.
    + left. destruct Hs as [Hc | Hc].
      * exists pre,
          (Py.ords "import" ++ ws ++ Py.ords "unittest" ++ post)%list.
        split; [exact Hc|]. apply import_tests_here.
        exists ws, post. repeat split; auto.
      * exists pre, (Py.ords "import" ++ ws ++ Py.ords "pytest" ++ post)%list.
        split; [exact Hc|]. apply import_tests_here.
        exists ws, post. repeat split; auto.
Qed.

(** X6. Without a syntax error the testing score is 80 exactly for a source
    that mentions tests -- [def] then white space then [test_], or [import]
    then white space then the whole word [unittest] or [pytest], the
    keyword starting a word -- and 20 for every other source.  White space
    and words are Unicode's: a no-break space separates, an accented letter
    continues a word. *)
Theorem testing_score_characterised (metrics : Metrics) (issues : list Issue)
    (sec_findings : list SecFinding) (code : string) :
  has_syntax_error issues = false ->
  (mentions_tests code ->
   testing (score_from metrics issues sec_findings code) = 80)
  /\ (~ mentions_tests code ->
      testing (score_from metrics issues sec_findings code) = 20).
Proof.
  intros Hno. rewrite (testing_unfold _ _ _ _ Hno).
  destruct (has_tests code) eqn:E.
  - split; [reflexivity|]. intros H. exfalso. apply H. now apply has_tests_iff.
  - split; [|reflexivity]. intros H. apply has_tests_iff in H. congruence.
Qed.

End Matcher.

(* ================================================================== *)
(** * Which suggestions appear *)

Section Membership.

Lemma In_fired (rs : list (bool * string)) (s : string) :
  In s (fired rs) <-> In (true, s) rs.
Proof.
  unfold fired. rewrite in_map_iff. split.
  - intros ([b t] & <- & H). apply filter_In in H as [H Hb].
    simpl in *. now subst b.
  - intros H. exists (true, s). split; [reflexivity|].
    apply filter_In. now split.
Qed.

Lemma In_build_suggestions (metrics : Metrics) (issues : list Issue)
    (sec_findings : list SecFinding) (code : string) (s : string) :
  s <> sugg_fallback ->
  (In s (build_suggestions metrics issues sec_findings code)
   <-> In (true, s) (rules metrics issues sec_findings code)).
Proof.
  intros Hs. rewrite build_suggestions_fired, <- In_fired.
  destruct (fired _) as [|x l]; [|reflexivity].
  simpl. split; [intros [H|[]]; congruence | tauto].
Qed.

Lemma string_append_length (s t : string) :
  String.length (s ++ t) = (String.length s + String.length t)%nat.
Proof. induction s; simpl; congruence. Qed.

Lemma string_append_cancel_r (t : string) :
  forall s1 s2, s1 ++ t = s2 ++ t -> s1 = s2.
Proof.
  induction s1 as [|c s1 IH]; intros [|c' s2] H; simpl in H.
  - reflexivity.
  - apply (f_equal String.length) in H. simpl in H.
    rewrite string_append_length in H. lia.
  - apply (f_equal String.length) in H. simpl in H.
    rewrite string_append_length in H. lia.
  - injection H as -> H. f_equal. now apply IH.
Qed.

Lemma str_of_nat_inj (n n' : nat) : Py.str_of_nat n = Py.str_of_nat n' -> n = n'.
Proof.
  unfold Py.str_of_nat. intros H.
  apply (f_equal int_of_str) in H. rewrite !str_of_N_reads_back in H.
  injection H as H. now apply Nnat.Nat2N.inj.
Qed.

Lemma sugg_high_inj (n n' : nat) : sugg_high n = sugg_high n' -> n = n'.
Proof.
  unfold sugg_high. cbn [String.append]. intros H.
  injection H as H. apply string_append_cancel_r in H.
  now apply str_of_nat_inj.
Qed.

End Membership.

Ltac unfold_texts :=
  unfold sugg_syntax, sugg_f401, sugg_spacing, sugg_e501, sugg_bandit,
    sugg_cc, sugg_mi, sugg_high, sugg_medlow, sugg_tests, sugg_fallback in *;
  cbn [String.append] in *.

(** Decides which entry of [rules] a fired text can be. *)
Ltac which_rule :=
  repeat match goal with
         | H : _ \/ _ |- _ => destruct H
         | H : False |- _ => destruct H
         | H : (_, _) = (_, _) |- _ =>
             apply pair_equal_spec in H; destruct H
         end;
  unfold_texts; try discriminate; subst; auto.

Section SuggestionRules.

Variables (metrics : Metrics) (issues : list Issue).
Variables (sec_findings : list SecFinding) (code : string).

Lemma in_codes_iff (c : string) :
  c <> "" ->
  (in_codes c (codes_of issues) = true
   <-> exists i, In i issues /\ issue_type i = Some c).
Proof.
  intros Hc. unfold in_codes, codes_of.
  rewrite existsb_exists. split.
  - intros (t & Hin & Heq). apply String.eqb_eq in Heq. subst t.
    apply in_flat_map in Hin as (i & Hi & Hin).
    exists i. split; [assumption|].
    destruct (issue_type i) as [t|]; [|destruct Hin].
    destruct (Py.truthy t); [|destruct Hin].
    destruct Hin as [<-|[]]. reflexivity.
  - intros (i & Hi & Hty). exists c. split; [|apply String.eqb_refl].
    apply in_flat_map. exists i. split; [assumption|].
    rewrite Hty. apply truthy_true in Hc. rewrite Hc. now left.
Qed.

Lemma bandit_code_iff :
  existsb (fun c => Py.startswith c "B") (codes_of issues) = true
  <-> exists i t, In i issues /\ issue_type i = Some t
                  /\ Py.startswith t "B" = true.
Proof.
  unfold codes_of. rewrite existsb_exists. split.
  - intros (t & Hin & Hb).
    apply in_flat_map in Hin as (i & Hi & Hin).
    exists i, t. split; [assumption|]. split; [|assumption].
    destruct (issue_type i) as [t'|]; [|destruct Hin].
    destruct (Py.truthy t'); [|destruct Hin].
    destruct Hin as [<-|[]]. reflexivity.
  - intros (i & t & Hi & Hty & Hb). exists t. split; [|assumption].
    apply in_flat_map. exists i. split; [assumption|].
    rewrite Hty.
    assert (Py.truthy t = true) as ->
      by (destruct t; [discriminate Hb | reflexivity]).
    now left.
Qed.

(** X7. A lint suggestion appears exactly when an issue carries its code: the
    unused-import one for F401, the spacing one for E302 or E305, the
    long-line one for E501, and the Bandit one for any issue whose type
    starts with B, whoever reported it. *)
Theorem lint_suggestions_iff :
  (In sugg_f401 (build_suggestions metrics issues sec_findings code)
   <-> exists i, In i issues /\ issue_type i = Some "F401")
  /\ (In sugg_spacing (build_suggestions metrics issues sec_findings code)
      <-> exists i, In i issues
                    /\ (issue_type i = Some "E302" \/ issue_type i = Some "E305"))
  /\ (In sugg_e501 (build_suggestions metrics issues sec_findings code)
      <-> exists i, In i issues /\ issue_type i = Some "E501")
  /\ (In sugg_bandit (build_suggestions metrics issues sec_findings code)
      <-> exists i t, In i issues /\ issue_type i = Some t
                      /\ Py.startswith t "B" = true).
Proof.
  rewrite !In_build_suggestions by (unfold_texts; discriminate).
  rewrite <- (in_codes_iff "F401"), <- (in_codes_iff "E501"), <- bandit_code_iff
    by discriminate.
  assert ((exists i, In i issues
                     /\ (issue_type i = Some "E302" \/ issue_type i = Some "E305"))
          <-> in_codes "E302" (codes_of issues) || in_codes "E305" (codes_of issues)
              = true) as ->.
  { rewrite orb_true_iff, (in_codes_iff "E302"), (in_codes_iff "E305")
      by discriminate.
    split.
    - intros (i & Hi & [H|H]); [left|right]; eauto.
    - intros [(i & Hi & H)|(i & Hi & H)]; eauto. }
  unfold rules. cbv zeta. cbn [In].
  repeat split; intros H;
    try (rewrite H; auto 20);
    destruct (high_findings sec_findings); which_rule.
Qed.

End SuggestionRules.

Section SuggestionsAndScores.

Variables (metrics : Metrics) (issues : list Issue).
Variables (sec_findings : list SecFinding) (code : string).

Lemma In_sugg_tests :
  In sugg_tests (build_suggestions metrics issues sec_findings code)
  <-> has_tests code = false.
Proof.
  rewrite In_build_suggestions by (unfold_texts; discriminate).
  unfold rules. cbv zeta. cbn [In]. rewrite <- negb_true_iff.
  split; intros H; try (rewrite H; auto 20);
    destruct (high_findings sec_findings); which_rule.
Qed.

(** X8. The suggestion to add unit tests appears exactly when the source does
    not mention tests, that is, without a syntax error, exactly when the
    testing score is 20. *)
Theorem tests_suggestion_iff :
  (In sugg_tests (build_suggestions metrics issues sec_findings code)
   <-> ~ mentions_tests code)
  /\ (has_syntax_error issues = false ->
      (In sugg_tests (build_suggestions metrics issues sec_findings code)
       <-> testing (score_from metrics issues sec_findings code) = 20)).
Proof.
  rewrite In_sugg_tests, <- has_tests_iff. split.
  - destruct (has_tests code); split; congruence.
  - intros Hno. rewrite (testing_unfold _ _ _ _ Hno).
    destruct (has_tests code); split; intros H; try reflexivity; discriminate.
Qed.

Lemma In_sugg_cc :
  In sugg_cc (build_suggestions metrics issues sec_findings code)
  <-> exists a, avg_cc metrics = Some a /\ (6 < Py.toQ a)%Q.
Proof.
  rewrite In_build_suggestions by (unfold_texts; discriminate).
  assert ((exists a, avg_cc metrics = Some a /\ (6 < Py.toQ a)%Q)
          <-> match avg_cc metrics with
              | Some a => Py.ltb (Py.Int 6) a
              | None => false
              end = true) as ->.
  { destruct (avg_cc metrics) as [a|].
    - rewrite ltb_true. cbn [Py.toQ]. change (inject_Z 6) with 6%Q. split.
      + now intros (a' & [= <-] & H).
      + intros H. now exists a.
    - split; [intros (a & H & _); discriminate | discriminate]. }
  unfold rules. cbv zeta. cbn [In].
  split; intros H; try (rewrite H; auto 20);
    destruct (high_findings sec_findings); which_rule.
Qed.

Lemma In_sugg_mi :
  In sugg_mi (build_suggestions metrics issues sec_findings code)
  <-> exists m, mi metrics = Some m /\ (Py.toQ m < 60)%Q.
Proof.
  rewrite In_build_suggestions by (unfold_texts; discriminate).
  assert ((exists m, mi metrics = Some m /\ (Py.toQ m < 60)%Q)
          <-> match mi metrics with
              | Some m => Py.ltb m (Py.Int 60)
              | None => false
              end = true) as ->.
  { destruct (mi metrics) as [m|].
    - rewrite ltb_true. cbn [Py.toQ]. change (inject_Z 60) with 60%Q. split.
      + now intros (m' & [= <-] & H).
      + intros H. now exists m.
    - split; [intros (m & H & _); discriminate | discriminate]. }
  unfold rules. cbv zeta. cbn [In].
  split; intros H; try (rewrite H; auto 20);
    destruct (high_findings sec_findings); which_rule.
Qed.

(** X9. The refactoring suggestion appears exactly when the average complexity
    is available and above 6 -- without a syntax error, exactly when the
    complexity score is 55 or 35 -- and the maintainability suggestion
    exactly when the index is available and below 60: an unavailable metric
    scores 0 and brings no suggestion. *)
Theorem metric_suggestions_iff :
  (In sugg_cc (build_suggestions metrics issues sec_findings code)
   <-> exists a, avg_cc metrics = Some a /\ (6 < Py.toQ a)%Q)
  /\ (has_syntax_error issues = false ->
      (In sugg_cc (build_suggestions metrics issues sec_findings code)
       <-> complexity (score_from metrics issues sec_findings code) = 55
           \/ complexity (score_from metrics issues sec_findings code) = 35))
  /\ (In sugg_mi (build_suggestions metrics issues sec_findings code)
      <-> exists m, mi metrics = Some m /\ (Py.toQ m < 60)%Q).
Proof.
  split; [apply In_sugg_cc|]. split; [|apply In_sugg_mi].
  intros Hno. rewrite In_sugg_cc, (complexity_unfold _ _ _ _ Hno).
  destruct (avg_cc metrics) as [a|].
  - assert ((exists a', Some a = Some a' /\ (6 < Py.toQ a')%Q)
            <-> (6 < Py.toQ a)%Q) as ->.
    { split; [now intros (a' & [= <-] & H) | intros H; now exists a]. }
    destruct (complexity_bucket_spec a)
      as [[Ha ->]|[(Ha&Hb&->)|[(Ha&Hb&->)|[(Ha&Hb&->)|[Ha ->]]]]];
      cbn [Py.round]; split; intros H;
      first [ exfalso; lra
            | exfalso; destruct H as [H|H]; discriminate
            | lra
            | left; reflexivity
            | right; reflexivity ].
  - cbn. split; [intros (a & H & _); discriminate | intros [H|H]; discriminate].
Qed.

(** X10. The security suggestions: with at least one HIGH finding the list asks
    to address them and gives their number; with findings none of which is
    HIGH it asks to resolve the MED/LOW ones; never both, and neither
    without findings. *)
Theorem security_suggestions_iff :
  (forall n,
     In (sugg_high n) (build_suggestions metrics issues sec_findings code)
     <-> n = List.length (high_findings sec_findings) /\ (0 < n)%nat)
  /\ (In sugg_medlow (build_suggestions metrics issues sec_findings code)
      <-> sec_findings <> [] /\ high_findings sec_findings = []).
Proof.
  split.
  - intros n. rewrite In_build_suggestions by (unfold_texts; discriminate).
    unfold rules. cbv zeta. cbn [In].
    destruct sec_findings as [|f fs] eqn:Esf.
    + rewrite high_findings_nil. simpl List.length.
      split; [intros H; which_rule | intros [-> H]; simpl in H; lia].
    + rewrite <- Esf.
      destruct (high_findings sec_findings) as [|h hs] eqn:Ehi.
      * simpl List.length.
        split; [intros H; which_rule | intros [-> H]; simpl in H; lia].
      * split.
        -- intros H.
           repeat match goal with
                  | H : _ \/ _ |- _ => destruct H
                  | H : False |- _ => destruct H
                  | H : (_, _) = (_, _) |- _ =>
                      apply pair_equal_spec in H; destruct H
                  end;
             try (unfold_texts; discriminate).
           match goal with
           | H : sugg_high _ = sugg_high _ |- _ => apply sugg_high_inj in H
           end.
           subst n. simpl. split; [reflexivity | lia].
        -- intros [-> _]. auto 20.
  - rewrite In_build_suggestions by (unfold_texts; discriminate).
    unfold rules. cbv zeta. cbn [In].
    destruct sec_findings as [|f fs] eqn:Esf.
    + rewrite high_findings_nil.
      split; [intros H; which_rule | intros [H _]; congruence].
    + rewrite <- Esf.
      destruct (high_findings sec_findings) as [|h hs] eqn:Ehi.
      * split; [intros _; split; [congruence | reflexivity]|].
        intros _. auto 20.
      * split; [intros H; which_rule | intros [_ H]; discriminate].
Qed.

End SuggestionsAndScores.

(* ================================================================== *)
(** * What each adapter does to the state, and what it returns *)

Section AdapterRuns.

Variables (env : Env) (st : State) (path : string).

Lemma after_after (s : State) (c1 c2 : list Call) :
  after env (after env s c1) c2 = after env s (c1 ++ c2).
Proof. unfold after. now rewrite fold_left_app. Qed.

Lemma after_spawned (calls : list Call) :
  forall s, spawned (after env s calls) = (spawned s ++ calls)%list.
Proof.
  unfold after. induction calls as [|c calls IH]; intros s; simpl.
  - now rewrite app_nil_r.
  - rewrite IH. simpl. now rewrite <- app_assoc.
Qed.

Lemma run_ruff_state :
  snd (run_ruff path env st) = after env st [ruff_call path].
Proof.
  unfold run_ruff, bind, attempt, run, subprocess, ask, lift, ret, after,
    ruff_call.
  cbn [fs spawned fold_left fst snd].
  destruct (subprocess_run env (fs st) _ 20) as [out|[m|m]]; try reflexivity.
  destruct (not_in_0_1 (returncode out)); [reflexivity|].
  destruct (Py.truthy (Py.strip (stdout out))); [|reflexivity].
  destruct (loads_ruff env (stdout out)); reflexivity.
Qed.

Lemma run_ruff_completed (out : CompletedProcess) :
  subprocess_run env (fs st) (fst (ruff_call path)) 20 = Ok out ->
  fst (run_ruff path env st) =
  if not_in_0_1 (returncode out) then
    Ok [ {| issue_type := Some "RUFF_ERROR";
            issue_detail :=
              Some (Py.strip (Py.or_else (Some (stderr out)) "ruff failed"));
            issue_line := None |} ]
  else if Py.truthy (Py.strip (stdout out)) then
    match loads_ruff env (stdout out) with
    | Ok findings => Ok (map issue_of_ruff findings)
    | Raise e => Raise e
    end
  else Ok [].
Proof.
  intros H.
  unfold run_ruff, bind, attempt, run, subprocess, ask, lift, ret.
  cbn [fs spawned]. unfold ruff_call in H. cbn [fst] in H. rewrite H.
  destruct (not_in_0_1 (returncode out)); [reflexivity|].
  destruct (Py.truthy (Py.strip (stdout out))); [|reflexivity].
  destruct (loads_ruff env (stdout out)); reflexivity.
Qed.

Lemma run_ruff_raised (e : exn) :
  subprocess_run env (fs st) (fst (ruff_call path)) 20 = Raise e ->
  fst (run_ruff path env st) =
  Ok [ {| issue_type :=
            Some (match e with
                  | FileNotFoundError _ => "RUFF_MISSING"
                  | Exception _ => "RUFF_ERROR"
                  end);
          issue_detail :=
            Some (match e with
                  | FileNotFoundError _ => "ruff not installed in venv"
                  | Exception m => m
                  end);
          issue_line := None |} ].
Proof.
  intros H.
  unfold run_ruff, bind, attempt, run, subprocess, ask, lift, ret.
  cbn [fs spawned]. unfold ruff_call in H. cbn [fst] in H. rewrite H.
  destruct e; reflexivity.
Qed.

Lemma run_ruff_Raise_inv (e : exn) :
  fst (run_ruff path env st) = Raise e ->
  exists out,
    subprocess_run env (fs st) (fst (ruff_call path)) 20 = Ok out
    /\ (returncode out = 0 \/ returncode out = 1)
    /\ Py.strip (stdout out) <> ""
    /\ loads_ruff env (stdout out) = Raise e.
Proof.
  intros He.
  destruct (subprocess_run env (fs st) (fst (ruff_call path)) 20)
    as [out|e0] eqn:Erun.
  - rewrite (run_ruff_completed out Erun) in He.
    destruct (not_in_0_1 (returncode out)) eqn:Erc; [discriminate|].
    destruct (Py.truthy (Py.strip (stdout out))) eqn:Eout; [|discriminate].
    destruct (loads_ruff env (stdout out)) eqn:Eload; [discriminate|].
    exists out. repeat split.
    + unfold not_in_0_1 in Erc. apply negb_false_iff, orb_true_iff in Erc.
      destruct Erc as [H|H]; apply Z.eqb_eq in H; auto.
    + now apply truthy_true.
    + congruence.
  - rewrite (run_ruff_raised e0 Erun) in He. discriminate.
Qed.

(** X11. An exception leaves the lint adapter only when ruff ran to an exit code
    of 0 or 1 and printed something that cannot be decoded; a blank output
    is never decoded and means no issue. *)
Theorem run_ruff_raises_only_on_decoding :
  (forall e,
     fst (run_ruff path env st) = Raise e ->
     exists out,
       subprocess_run env (fs st) (fst (ruff_call path)) 20 = Ok out
       /\ (returncode out = 0 \/ returncode out = 1)
       /\ Py.strip (stdout out) <> ""
       /\ loads_ruff env (stdout out) = Raise e)
  /\ (forall out,
        subprocess_run env (fs st) (fst (ruff_call path)) 20 = Ok out ->
        returncode out = 0 \/ returncode out = 1 ->
        Py.strip (stdout out) = "" ->
        fst (run_ruff path env st) = Ok []).
Proof.
  split; [exact run_ruff_Raise_inv|].
  intros out Erun Hrc Hblank.
  rewrite (run_ruff_completed out Erun).
    assert (not_in_0_1 (returncode out) = false) as ->.
    { unfold not_in_0_1. destruct Hrc as [-> | ->]; reflexivity. }
    apply truthy_false in Hblank. now rewrite Hblank.
Qed.

(** X12. When ruff cannot be run, times out or exits with a code other than 0
    and 1, the lint adapter returns exactly one issue, without line, of type
    [RUFF_MISSING] or [RUFF_ERROR]; the detail of the latter is the
    exception's message or ruff's trimmed error output, "ruff failed" when
    that output is empty. *)
Theorem run_ruff_failure_issue :
  (forall e,
     subprocess_run env (fs st) (fst (ruff_call path)) 20 = Raise e ->
     exists ty detail,
       fst (run_ruff path env st) =
       Ok [ {| issue_type := Some ty; issue_detail := Some detail;
               issue_line := None |} ]
       /\ ((exists m, e = FileNotFoundError m) ->
           ty = "RUFF_MISSING" /\ detail = "ruff not installed in venv")
       /\ (forall m, e = Exception m -> ty = "RUFF_ERROR" /\ detail = m))
  /\ (forall out,
        subprocess_run env (fs st) (fst (ruff_call path)) 20 = Ok out ->
        returncode out <> 0 -> returncode out <> 1 ->
        fst (run_ruff path env st) =
        Ok [ {| issue_type := Some "RUFF_ERROR";
                issue_detail :=
                  Some (if String.eqb (stderr out) "" then "ruff failed"
                        else Py.strip (stderr out));
                issue_line := None |} ]).
Proof.
  split.
  - intros e Erun. rewrite (run_ruff_raised e Erun).
    destruct e as [m|m]; eexists; eexists; (split; [reflexivity|]); split.
    + auto.
    + intros m' H. discriminate.
    + intros (m' & H). discriminate.
    + intros m' [= <-]. auto.
  - intros out Erun H0 H1. rewrite (run_ruff_completed out Erun).
    assert (not_in_0_1 (returncode out) = true) as ->.
    { unfold not_in_0_1. apply negb_true_iff, orb_false_iff.
      split; now apply Z.eqb_neq. }
    unfold Py.or_else, Py.truthy.
    destruct (String.eqb (stderr out) ""); reflexivity.
Qed.

End AdapterRuns.

Section Radon.

Variables (env : Env) (st : State) (path : string).

Lemma radon_mi_run :
  exists v,
    radon_mi path env st = (Ok v, after env st [radon_mi_call path])
    /\ (v = None \/ exists q, v = Some (Py.Float q)).
Proof.
  unfold radon_mi, bind, attempt, run, subprocess, ask, lift, ret, after,
    radon_mi_call.
  cbn [fs spawned fold_left fst snd].
  destruct (subprocess_run env (fs st) _ 20) as [out|e];
    [|eexists; split; [reflexivity | now left]].
  destruct ((returncode out =? 0) && Py.truthy (Py.strip (stdout out)));
    [|eexists; split; [reflexivity | now left]].
  destruct (loads_radon_mi env (stdout out)) as [mi_data|e];
    [|eexists; split; [reflexivity | now left]].
  destruct (mi_data path) as [[v|]|[|[v|] l]|]; unfold float_of;
    try destruct (Py.to_float v);
    eexists; (split; [reflexivity|]); eauto.
Qed.

(** What the second block of [run_radon_metrics] can return: nothing, or an
    average and a maximum. *)
Lemma radon_cc_run :
  exists a b,
    radon_cc path env st = (Ok (a, b), after env st [radon_cc_call path])
    /\ match subprocess_run env (fs st) (fst (radon_cc_call path)) 20 with
       | Raise _ => a = None /\ b = None
       | Ok out =>
           if (returncode out =? 0) && Py.truthy (Py.strip (stdout out)) then
             match loads_radon_cc env (stdout out) with
             | Raise _ => a = None /\ b = None
             | Ok cc_data =>
                 match numbers (cc_data path) with
                 | [] => a = Some (Py.Float 0) /\ b = Some (Py.Float 0)
                 | n :: rest =>
                     (a = None /\ b = None)
                     \/ exists q,
                          a = Some (Py.Float q) /\ b = Some (maximum n rest)
                 end
             end
           else a = Some (Py.Float 0) /\ b = Some (Py.Float 0)
       end.
Proof.
  unfold radon_cc, mean, sum, truediv, bind, attempt, run, subprocess, ask,
    lift, ret, after, radon_cc_call.
  cbn [fs spawned fold_left fst snd].
  destruct (subprocess_run env (fs st) _ 20) as [out|e];
    [|eexists; eexists; split; [reflexivity | now split]].
  destruct ((returncode out =? 0) && Py.truthy (Py.strip (stdout out)));
    [|eexists; eexists; split; [reflexivity | now split]].
  destruct (loads_radon_cc env (stdout out)) as [cc_data|e];
    [|eexists; eexists; split; [reflexivity | now split]].
  destruct (numbers (cc_data path)) as [|n rest];
    [eexists; eexists; split; [reflexivity | now split]|].
  destruct (forallb Py.is_int (n :: rest));
    destruct (Py.to_double _) as [q|];
    eexists; eexists; (split; [reflexivity|]); eauto.
Qed.

End Radon.

Section RadonOutcomes.

Variables (env : Env) (st : State) (path : string).

Lemma run_radon_metrics_run :
  exists v a b,
    run_radon_metrics path env st =
      (Ok {| mi := v; avg_cc := a; max_cc := b |},
       after env st [radon_mi_call path; radon_cc_call path])
    /\ radon_mi path env st = (Ok v, after env st [radon_mi_call path])
    /\ radon_cc path env (after env st [radon_mi_call path]) =
         (Ok (a, b),
          after env (after env st [radon_mi_call path]) [radon_cc_call path]).
Proof.
  destruct (radon_mi_run env st path) as (v & Hmi & _).
  destruct (radon_cc_run env (after env st [radon_mi_call path]) path)
    as (a & b & Hcc & _).
  exists v, a, b. unfold run_radon_metrics, bind.
  rewrite Hmi, Hcc. unfold ret. cbn [fst snd].
  rewrite after_after. repeat split; assumption.
Qed.


(** X14. When [radon cc] runs but exits with another code than 0, or prints
    nothing, the complexities are reported as 0.0, not as unavailable: the
    review then shows the label "trivial" and, without a syntax error, a
    complexity score of 95.  When [radon cc] cannot be run or times out they
    are unavailable: label "n/a" and score 0.  ([radon cc] runs on the files
    that [radon mi] has left.) *)
Theorem radon_cc_failure_modes :
  exists m st',
    run_radon_metrics path env st = (Ok m, st')
    /\ (forall out,
          subprocess_run env (fs (after env st [radon_mi_call path]))
            (fst (radon_cc_call path)) 20 = Ok out ->
          returncode out <> 0 \/ Py.strip (stdout out) = "" ->
          avg_cc m = Some (Py.Float 0) /\ max_cc m = Some (Py.Float 0)
          /\ cx_label_of (avg_cc m) = "trivial"
          /\ (forall issues sec_findings code,
                has_syntax_error issues = false ->
                complexity (score_from m issues sec_findings code) = 95))
    /\ (forall e,
          subprocess_run env (fs (after env st [radon_mi_call path]))
            (fst (radon_cc_call path)) 20 = Raise e ->
          avg_cc m = None /\ max_cc m = None
          /\ cx_label_of (avg_cc m) = "n/a"
          /\ (forall issues sec_findings code,
                has_syntax_error issues = false ->
                complexity (score_from m issues sec_findings code) = 0)).
Proof.
  destruct run_radon_metrics_run as (v & a & b & Hrun & Hmi & Hcc).
  exists {| mi := v; avg_cc := a; max_cc := b |},
    (after env st [radon_mi_call path; radon_cc_call path]).
  split; [exact Hrun|]. cbn [mi avg_cc max_cc].
  destruct (radon_cc_run env (after env st [radon_mi_call path]) path)
    as (a' & b' & Hcc' & Hshape).
  assert (a' = a /\ b' = b) as [-> ->] by (split; congruence).
  split.
  - intros out Hout Hfail. rewrite Hout in Hshape.
    assert ((returncode out =? 0) && Py.truthy (Py.strip (stdout out)) = false)
      as E.
    { apply andb_false_iff. destruct Hfail as [H|H].
      - left. now apply Z.eqb_neq.
      - right. now apply truthy_false. }
    rewrite E in Hshape. destruct Hshape as [-> ->].
    repeat split. intros issues sf code Hno.
    now rewrite (complexity_unfold _ _ _ _ Hno).
  - intros e He. rewrite He in Hshape. destruct Hshape as [-> ->].
    repeat split. intros issues sf code Hno.
    now rewrite (complexity_unfold _ _ _ _ Hno).
Qed.

End RadonOutcomes.

Section Bandit.

Variables (env : Env) (st : State) (path : string).

Lemma run_bandit_run :
  exists findings,
    run_bandit path env st = (Ok findings, after env st [bandit_call path])
    /\ (findings = []
        \/ exists out data,
             subprocess_run env (fs st) (fst (bandit_call path)) 30 = Ok out
             /\ (returncode out = 0 \/ returncode out = 1)
             /\ loads_bandit env (Py.or_else (Some (stdout out)) "{}") = Ok data
             /\ results data = Some findings).
Proof.
  unfold run_bandit, bind, attempt, run, subprocess, ask, lift, ret, after,
    bandit_call.
  cbn [fs spawned fold_left fst snd].
  destruct (subprocess_run env (fs st) _ 30) as [out|[m|m]] eqn:Erun;
    [|eexists; split; [reflexivity | now left]..].
  destruct (not_in_0_1 (returncode out)) eqn:Erc;
    [eexists; split; [reflexivity | now left]|].
  destruct (loads_bandit env _) as [data|e] eqn:Eload;
    [|eexists; split; [reflexivity | now left]].
  destruct (results data) as [l|] eqn:Eres;
    [|eexists; split; [reflexivity | now left]].
  exists l. split; [reflexivity|]. right. exists out, data.
  repeat split; try assumption.
  unfold not_in_0_1 in Erc. apply negb_false_iff, orb_true_iff in Erc.
  destruct Erc as [H|H]; apply Z.eqb_eq in H; auto.
Qed.

(** X15. The security adapter never raises and runs Bandit exactly once, with a
    timeout of 30 seconds.  It returns findings only when Bandit exited with
    code 0 or 1 and its report could be decoded: they are the report's
    [results]; every failure gives the empty list. *)
Theorem run_bandit_shape :
  exists findings,
    run_bandit path env st = (Ok findings, after env st [bandit_call path])
    /\ (findings <> [] ->
        exists out data,
          subprocess_run env (fs st) (fst (bandit_call path)) 30 = Ok out
          /\ (returncode out = 0 \/ returncode out = 1)
          /\ loads_bandit env (Py.or_else (Some (stdout out)) "{}") = Ok data
          /\ results data = Some findings).
Proof.
  destruct run_bandit_run as (l & Hrun & [Hnil | H]).
  - exists l. split; [exact Hrun|]. intros Hne. contradiction.
  - exists l. split; [exact Hrun|]. intros _. exact H.
Qed.

End Bandit.

(* ================================================================== *)
(** * Running the code and the review, step by step *)

Section Steps.



Lemma bind_Raise {A B : Type} (m : M A) (k : A -> M B) env st e st1 :
  m env st = (Raise e, st1) -> bind m k env st = (Raise e, st1).
Proof. unfold bind. now intros ->. Qed.

Lemma run_code_output_run (code : string) (env : Env) (st : State) :
  Py.encodable code = true ->
  exists out,
    run_code_output code env st =
      (Ok out,
       {| fs := without (mkstemp env (fs st))
                  (files_after env ((mkstemp env (fs st), code) :: fs st)
                     ["python"; mkstemp env (fs st)] 5);
          spawned := (spawned st ++ [python_call (mkstemp env (fs st))])%list |})
    /\ exists c rest, out = String c rest.
Proof.
  intros Henc.
  unfold run_code_output, bind, finally, attempt, subprocess,
    named_temporary_file, unlink, ret, without, python_call.
  rewrite Henc. cbn [fs spawned].
  destruct (subprocess_run env _ _ 5) as [p|e].
  - destruct (Py.truthy (Py.strip (stdout p))) eqn:Eo;
      destruct (Py.truthy (Py.strip (stderr p))) eqn:Ee;
      eexists; (split; [reflexivity|]); cbn [app Py.join];
      try (apply truthy_true in Eo;
           destruct (Py.strip (stdout p)) as [|c r]; [congruence|]);
      cbn [String.append]; eauto.
  - eexists. split; [reflexivity|]. cbn [String.append]. eauto.
Qed.


Variables (code : string) (env : Env) (st : State).

Let p1 : string := mkstemp env (fs st).
Let st1 : State := {| fs := (p1, code) :: fs st; spawned := spawned st |}.
Let st2 : State := after env st1 [ruff_call p1].
Let st3 : State := after env st2 [radon_mi_call p1; radon_cc_call p1].
Let st4 : State := after env st3 [bandit_call p1].
Let p2 : string := mkstemp env (fs st4).
Let syn : list Issue :=
  match py_compile env code with
  | Ok (Some e) => [syntax_issue_of e]
  | _ => []
  end.

Lemma syntax_check_run :
  syntax_check code env st1
  = (match py_compile env code with
     | Ok (Some e) => Ok (Some (syntax_issue_of e))
     | Ok None => Ok None
     | Raise e => Raise e
     end, st1).
Proof.
  unfold syntax_check, bind, ask, ret, lift, syntax_issue_of.
  destruct (py_compile env code) as [[e|]|e]; reflexivity.
Qed.

Lemma analyse_unencodable :
  Py.encodable code = false ->
  analyse code env st =
  (Raise (Exception (Py.encode_error code)),
   {| fs := (p1, "") :: fs st; spawned := spawned st |}).
Proof.
  intros Henc. unfold analyse, bind, named_temporary_file. now rewrite Henc.
Qed.

Lemma analyse_compile_raise (e : exn) :
  Py.encodable code = true ->
  py_compile env code = Raise e ->
  analyse code env st =
  (Raise e, {| fs := without p1 (fs st1); spawned := spawned st |}).
Proof.
  intros Henc He.
  unfold analyse. unfold bind at 1. unfold named_temporary_file at 1.
  rewrite Henc. fold p1. fold st1. unfold finally.
  assert (syntax_check code env st1 = (Raise e, st1)) as Hsyn
    by (rewrite syntax_check_run, He; reflexivity).
  rewrite (bind_Raise _ _ _ _ _ _ Hsyn).
  unfold unlink, without. reflexivity.
Qed.

Lemma analyse_ruff_raise (e : exn) :
  Py.encodable code = true ->
  (forall e', py_compile env code <> Raise e') ->
  fst (run_ruff p1 env st1) = Raise e ->
  analyse code env st =
  (Raise e,
   {| fs := without p1 (fs st2);
      spawned := (spawned st ++ [ruff_call p1])%list |}).
Proof.
  intros Henc Hc He.
  pose proof (run_ruff_state env st1 p1) as Hst2.
  destruct (run_ruff p1 env st1) as [r s2] eqn:Hruff.
  cbn [fst snd] in *. subst r s2.
  unfold analyse. unfold bind at 1. unfold named_temporary_file at 1.
  rewrite Henc. fold p1. fold st1. unfold finally.
  destruct (syntax_check_pure code env st1 Hc) as [r Hsyn].
  rewrite (bind_Ok _ _ _ _ _ _ Hsyn). cbv beta zeta.
  rewrite (bind_Raise _ _ _ _ _ _ Hruff).
  unfold unlink, without. fold st2. reflexivity.
Qed.

Lemma analyse_ruff_ok (ruff : list Issue) :
  Py.encodable code = true ->
  (forall e', py_compile env code <> Raise e') ->
  fst (run_ruff p1 env st1) = Ok ruff ->
  exists metrics sec out,
    run_radon_metrics p1 env st2 = (Ok metrics, st3)
    /\ run_bandit p1 env st3 = (Ok sec, st4)
    /\ (exists c rest, out = String c rest)
    /\ analyse code env st =
       (Ok (Reviewed
              (review_of metrics (syn ++ ruff ++ map issue_of_finding sec)
                 sec code out)),
        {| fs := without p1
                   (without p2
                      (files_after env ((p2, code) :: fs st4)
                         ["python"; p2] 5));
           spawned :=
             (spawned st
              ++ [ruff_call p1; radon_mi_call p1; radon_cc_call p1;
                  bandit_call p1; python_call p2])%list |}).
Proof.
  intros Henc Hc He.
  pose proof (run_ruff_state env st1 p1) as Hst2.
  destruct (run_ruff p1 env st1) as [r s2] eqn:Hruff.
  cbn [fst snd] in *. subst r s2. fold st2 in Hruff.
  destruct (run_radon_metrics_run env st2 p1) as (v & a & b & Hradon & _ & _).
  fold st3 in Hradon.
  destruct (run_bandit_run env st3 p1) as (sec & Hbandit & _).
  fold st4 in Hbandit.
  destruct (run_code_output_run code env st4 Henc) as (out & Hout & Hne).
  fold p2 in Hout.
  exists {| mi := v; avg_cc := a; max_cc := b |}, sec, out.
  split; [exact Hradon|]. split; [exact Hbandit|]. split; [exact Hne|].
  unfold analyse. unfold bind at 1. unfold named_temporary_file at 1.
  rewrite Henc. fold p1. fold st1. unfold finally.
  assert (syntax_check code env st1
          = (Ok (match py_compile env code with
                 | Ok (Some e) => Some (syntax_issue_of e)
                 | _ => None
                 end), st1)) as Hsyn.
  { rewrite syntax_check_run.
    destruct (py_compile env code) as [[e|]|e]; try reflexivity.
    now destruct (Hc e). }
  rewrite (bind_Ok _ _ _ _ _ _ Hsyn). cbv beta zeta.
  rewrite (bind_Ok _ _ _ _ _ _ Hruff). cbv beta zeta.
  rewrite (bind_Ok _ _ _ _ _ _ Hradon). cbv beta zeta.
  rewrite (bind_Ok _ _ _ _ _ _ Hbandit). cbv beta zeta.
  rewrite (bind_Ok _ _ _ _ _ _ Hout). cbv beta zeta.
  assert (match match py_compile env code with
                | Ok (Some e) => Some (syntax_issue_of e)
                | _ => None
                end with
          | Some e => [e]
          | None => []
          end = syn) as ->
    by (unfold syn; destruct (py_compile env code) as [[e|]|e]; reflexivity).
  unfold ret, unlink, without, review_of. cbn [fs spawned].
  rewrite <- !app_assoc.
  assert (spawned st4
          = (spawned st
             ++ [ruff_call p1; radon_mi_call p1; radon_cc_call p1;
                 bandit_call p1])%list) as ->.
  { unfold st4, st3, st2. rewrite !after_spawned, <- !app_assoc.
    reflexivity. }
  rewrite <- app_assoc. reflexivity.
Qed.

End Steps.

(* ================================================================== *)
(** * The review as a whole *)

Section WholeReview.

Variables (req : Request) (env : Env) (st : State).

Let code : string := Py.strip (Py.or_else (req_code req) "").
Let filename : string := Py.strip (Py.or_else (req_filename req) "snippet.py").
Let p1 : string := mkstemp env (fs st).
Let st1 : State := {| fs := (p1, code) :: fs st; spawned := spawned st |}.
Let st2 : State := after env st1 [ruff_call p1].
Let st3 : State := after env st2 [radon_mi_call p1; radon_cc_call p1].
Let st4 : State := after env st3 [bandit_call p1].
Let p2 : string := mkstemp env (fs st4).
Let syn : list Issue :=
  match py_compile env code with
  | Ok (Some e) => [syntax_issue_of e]
  | _ => []
  end.

Lemma review_cases :
  (code = "" /\ review req env st = (Ok (BadRequest "No code provided."), st))
  \/ (code <> "" /\ Py.endswith (Py.lower filename) ".py" = false
      /\ review req env st = (Ok (Reviewed non_python_result), st))
  \/ (code <> "" /\ Py.endswith (Py.lower filename) ".py" = true
      /\ review req env st = analyse code env st).
Proof.
  unfold review. fold code. fold filename.
  destruct (Py.truthy code) eqn:Ec; cbn [negb].
  - apply truthy_true in Ec.
    destruct (Py.endswith (Py.lower filename) ".py"); cbn [negb]; auto.
  - apply truthy_false in Ec. now left.
Qed.

(** The four ways an analysis can go. *)
Lemma analyse_cases :
  (Py.encodable code = false
   /\ analyse code env st =
      (Raise (Exception (Py.encode_error code)),
       {| fs := (p1, "") :: fs st; spawned := spawned st |}))
  \/ (Py.encodable code = true
      /\ exists e,
           py_compile env code = Raise e
           /\ analyse code env st =
              (Raise e,
               {| fs := without p1 (fs st1); spawned := spawned st |}))
  \/ (Py.encodable code = true
      /\ (forall e', py_compile env code <> Raise e')
      /\ exists e,
           fst (run_ruff p1 env st1) = Raise e
           /\ analyse code env st =
              (Raise e,
               {| fs := without p1 (fs st2);
                  spawned := (spawned st ++ [ruff_call p1])%list |}))
  \/ (Py.encodable code = true
      /\ (forall e', py_compile env code <> Raise e')
      /\ exists ruff metrics sec out c rest,
           fst (run_ruff p1 env st1) = Ok ruff
           /\ fst (run_radon_metrics p1 env st2) = Ok metrics
           /\ fst (run_bandit p1 env st3) = Ok sec
           /\ out = String c rest
           /\ analyse code env st =
              (Ok (Reviewed
                     (review_of metrics
                        (syn ++ ruff ++ map issue_of_finding sec) sec code out)),
               {| fs := without p1
                          (without p2
                             (files_after env ((p2, code) :: fs st4)
                                ["python"; p2] 5));
                  spawned :=
                    (spawned st
                     ++ [ruff_call p1; radon_mi_call p1; radon_cc_call p1;
                         bandit_call p1; python_call p2])%list |})).
Proof.
  destruct (Py.encodable code) eqn:Henc;
    [|left; split; [reflexivity|]; now apply analyse_unencodable].
  right.
  assert ((exists e, py_compile env code = Raise e)
          \/ (forall e', py_compile env code <> Raise e')) as [[e He]|Hok]
    by (destruct (py_compile env code) as [r|e];
        [right; discriminate | left; eauto]).
  { left. split; [reflexivity|]. exists e. split; [exact He|].
    now apply analyse_compile_raise. }
  right.
  destruct (fst (run_ruff p1 env st1)) as [ruff|e] eqn:Eruff.
  - right. split; [reflexivity|]. split; [exact Hok|].
    destruct (analyse_ruff_ok code env st ruff Henc Hok Eruff)
      as (metrics & sec & out & Hradon & Hbandit & (c & rest & Hout) & Hrun).
    exists ruff, metrics, sec, out, c, rest.
    split; [reflexivity|].
    split; [exact (f_equal fst Hradon)|].
    split; [exact (f_equal fst Hbandit)|]. split; [exact Hout|].
    exact Hrun.
  - left. split; [reflexivity|]. split; [exact Hok|].
    exists e. split; [reflexivity|].
    exact (analyse_ruff_raise code env st e Henc Hok Eruff).
Qed.

(** X17. The request is refused, with "No code provided.", exactly when the
    code is missing, null or blank; the check comes before the one on the
    file name, and a refused request writes no file and runs no program. *)
Theorem review_bad_request_iff (m : string) :
  (fst (review req env st) = Ok (BadRequest m)
   <-> code = "" /\ m = "No code provided.")
  /\ (code = "" -> snd (review req env st) = st).
Proof.
  destruct review_cases as [[Hc Hr]|[(Hc & Hf & Hr)|(Hc & Hf & Hr)]].
  - rewrite Hr. cbn [fst snd]. split; [|reflexivity]. split.
    + intros H. injection H as <-. now split.
    + intros [_ ->]. reflexivity.
  - rewrite Hr. cbn [fst snd]. split; [|intros H; contradiction]. split.
    + intros H. discriminate.
    + intros [H _]. contradiction.
  - rewrite Hr. split; [|intros H; contradiction]. split.
    + intros H.
      destruct analyse_cases
        as [(_ & Ha)
           |[(_ & e & _ & Ha)
            |[(_ & _ & e & _ & Ha)
             |(_ & _ & ruff & metrics & sec & out & c & rest
               & _ & _ & _ & _ & Ha)]]];
        rewrite Ha in H; discriminate.
    + intros [H _]. contradiction.
Qed.




Lemma lint_count_of_app (l1 l2 : list Issue) :
  lint_count_of (l1 ++ l2) = (lint_count_of l1 + lint_count_of l2)%nat.
Proof. unfold lint_count_of. now rewrite filter_app, length_app. Qed.

Lemma lint_count_of_all (l : list Issue) :
  forallb counted l = true -> lint_count_of l = List.length l.
Proof.
  unfold lint_count_of. induction l as [|i l IH]; [reflexivity|].
  cbn [forallb filter]. intros H. apply andb_true_iff in H as [Hi Hl].
  unfold counted in Hi. rewrite Hi. cbn [List.length]. now rewrite (IH Hl).
Qed.

Lemma lint_count_of_syn : lint_count_of syn = 0%nat.
Proof.
  unfold syn. destruct (py_compile env code) as [[e|]|e]; reflexivity.
Qed.

Lemma review_Reviewed_inv (r : ReviewResult) :
  Py.endswith (Py.lower filename) ".py" = true ->
  fst (review req env st) = Ok (Reviewed r) ->
  exists ruff metrics sec out c rest,
    fst (run_ruff p1 env st1) = Ok ruff
    /\ fst (run_radon_metrics p1 env st2) = Ok metrics
    /\ fst (run_bandit p1 env st3) = Ok sec
    /\ out = String c rest
    /\ r = review_of metrics (syn ++ ruff ++ map issue_of_finding sec)
             sec code out
    /\ spawned (snd (review req env st)) =
       (spawned st
        ++ [ruff_call p1; radon_mi_call p1; radon_cc_call p1;
            bandit_call p1; python_call p2])%list.
Proof.
  intros Hf H.
  destruct review_cases as [[_ Hr]|[(_ & Hf' & _)|(_ & _ & Hr)]];
    [rewrite Hr in H; discriminate | congruence |].
  rewrite Hr in *.
  destruct analyse_cases
    as [(_ & Ha)
       |[(_ & e & _ & Ha)
        |[(_ & _ & e & _ & Ha)
         |(_ & _ & ruff & metrics & sec & out & c & rest
           & H1 & H2 & H3 & H4 & Ha)]]];
    rewrite Ha in *; try discriminate.
  cbn [fst snd spawned] in *. injection H as <-.
  exists ruff, metrics, sec, out, c, rest. auto 10.
Qed.

(** X21. The result of an analysis is put together from the three tools, each
    run after the previous one: the issues are the syntax error, if any,
    then ruff's issues, then one issue per Bandit finding, in this order;
    the scores, the suggestions and the summary are computed from this full
    list, from radon's metrics and from Bandit's findings; and the output is
    never empty. *)
Theorem review_result_composition (r : ReviewResult) :
  Py.endswith (Py.lower filename) ".py" = true ->
  fst (review req env st) = Ok (Reviewed r) ->
  exists ruff metrics sec,
    fst (run_ruff p1 env st1) = Ok ruff
    /\ fst (run_radon_metrics p1 env st2) = Ok metrics
    /\ fst (run_bandit p1 env st3) = Ok sec
    /\ issues r = (syn ++ ruff ++ map issue_of_finding sec)%list
    /\ scores r = score_from metrics (issues r) sec code
    /\ suggestions r = build_suggestions metrics (issues r) sec code
    /\ summary r =
       pretty_summary metrics (lint_count_of (issues r)) (List.length sec)
    /\ output r <> "".
Proof.
  intros Hf H.
  destruct (review_Reviewed_inv r Hf H)
    as (ruff & metrics & sec & out & c & rest & H1 & H2 & H3 & -> & -> & _).
  exists ruff, metrics, sec. unfold review_of. cbn [issues scores suggestions
    summary output]. repeat split; try assumption. discriminate.
Qed.

(** X22. The number the summary shows after "Ruff:" is not the number of
    ruff's issues: it counts every issue whose type does not start with
    "SYNTAX", those made from Bandit's findings included.  When no code of
    ruff and no test id of Bandit starts with "SYNTAX", it is the number of
    ruff's issues plus the number of Bandit's findings, and the syntax error
    is not counted. *)
Theorem review_lint_count_includes_bandit (r : ReviewResult) :
  Py.endswith (Py.lower filename) ".py" = true ->
  fst (review req env st) = Ok (Reviewed r) ->
  exists ruff metrics sec,
    fst (run_ruff p1 env st1) = Ok ruff
    /\ fst (run_radon_metrics p1 env st2) = Ok metrics
    /\ fst (run_bandit p1 env st3) = Ok sec
    /\ summary r =
       pretty_summary metrics
         (lint_count_of ruff + lint_count_of (map issue_of_finding sec))
         (List.length sec)
    /\ (forallb counted ruff = true ->
        forallb counted (map issue_of_finding sec) = true ->
        summary r =
          pretty_summary metrics (List.length ruff + List.length sec)
            (List.length sec)).
Proof.
  intros Hf H.
  destruct (review_Reviewed_inv r Hf H)
    as (ruff & metrics & sec & out & c & rest & H1 & H2 & H3 & _ & -> & _).
  exists ruff, metrics, sec. unfold review_of. cbn [summary].
  rewrite !lint_count_of_app, lint_count_of_syn. cbn [Nat.add].
  repeat split; try assumption.
  intros Hr Hs.
  now rewrite (lint_count_of_all _ Hr), (lint_count_of_all _ Hs), length_map.
Qed.

(** X23. Code that does not parse is analysed and run all the same: the
    result has the syntax error as its first issue, readability, complexity
    and testing scores of 0, a security score of 0 or 30, the advice to fix
    the syntax error as its first suggestion, and python was started on the
    code. *)
Theorem review_of_unparsable_code (e : SyntaxError) (r : ReviewResult) :
  Py.endswith (Py.lower filename) ".py" = true ->
  py_compile env code = Ok (Some e) ->
  fst (review req env st) = Ok (Reviewed r) ->
  (exists rest,
     issues r =
       {| issue_type := Some "SYNTAX_ERROR";
          issue_detail := Some (msg e);
          issue_line := or_none (lineno e) |} :: rest)
  /\ readability (scores r) = 0
  /\ complexity (scores r) = 0
  /\ testing (scores r) = 0
  /\ (security (scores r) = 0 \/ security (scores r) = 30)
  /\ (exists rest,
        suggestions r =
          "Fix the syntax error first so static analysis can run cleanly."
          :: rest)
  /\ In (["python"; p2], 5) (spawned (snd (review req env st))).
Proof.
  intros Hf He H.
  destruct (review_Reviewed_inv r Hf H)
    as (ruff & metrics & sec & out & c & rest & _ & _ & _ & _ & -> & Hsp).
  assert (syn = [syntax_issue_of e]) as -> by (unfold syn; now rewrite He).
  unfold review_of. cbn [issues scores suggestions app].
  split; [eexists; reflexivity|].
  assert (has_syntax_error
            (syntax_issue_of e :: ruff ++ map issue_of_finding sec) = true)
    as Hse by reflexivity.
  unfold score_from. rewrite Hse. cbn [readability complexity testing security].
  split; [reflexivity|]. split; [reflexivity|]. split; [reflexivity|].
  split; [destruct sec; auto|].
  split.
  - rewrite build_suggestions_fired. unfold rules. rewrite Hse.
    unfold fired. cbn [filter fst map snd]. eexists; reflexivity.
  - rewrite Hsp. apply in_or_app. right. unfold python_call.
    cbn [In]. auto 10.
Qed.

End WholeReview.

(* ================================================================== *)
(** * The chat handler *)

Section LastUser.

Variable A : Type.
Variable p : A -> bool.

Lemma find_app_none (l1 l2 : list A) :
  forallb (fun x => negb (p x)) l1 = true ->
  find p (l1 ++ l2) = find p l2.
Proof.
  induction l1 as [|x l1 IH]; [reflexivity|].
  cbn [forallb app find]. intros H. apply andb_true_iff in H as [Hx Hl].
  apply negb_true_iff in Hx. rewrite Hx. exact (IH Hl).
Qed.

Lemma forallb_rev (q : A -> bool) (l : list A) :
  forallb q (rev l) = forallb q l.
Proof.
  induction l as [|x l IH]; [reflexivity|].
  cbn [rev forallb]. rewrite forallb_app, IH. cbn [forallb].
  rewrite andb_true_r. apply andb_comm.
Qed.

Lemma find_rev_Some (l : list A) (m : A) :
  find p (rev l) = Some m
  <-> exists before after,
        l = (before ++ m :: after)%list
        /\ p m = true
        /\ forallb (fun x => negb (p x)) after = true.
Proof.
  split.
  - induction l as [|x l IH] using rev_ind; [discriminate|].
    rewrite rev_app_distr. cbn [rev app find].
    destruct (p x) eqn:Ex.
    + intros H. injection H as <-. exists l, []. now repeat split.
    + intros H. destruct (IH H) as (before & after & -> & Hm & Hafter).
      exists before, (after ++ [x])%list. split; [|split].
      * now rewrite <- app_assoc.
      * exact Hm.
      * rewrite forallb_app, Hafter. cbn [forallb]. now rewrite Ex.
  - intros (before & after & -> & Hm & Hafter).
    rewrite rev_app_distr. cbn [rev]. rewrite <- app_assoc.
    rewrite find_app_none by now rewrite forallb_rev.
    cbn [app find]. now rewrite Hm.
Qed.

Lemma find_rev_None (l : list A) :
  find p (rev l) = None <-> forallb (fun x => negb (p x)) l = true.
Proof.
  rewrite <- (forallb_rev _ l). generalize (rev l). clear l.
  intros l. induction l as [|x l IH]; [easy|].
  cbn [find forallb]. destruct (p x); cbn [negb andb]; [easy|exact IH].
Qed.

End LastUser.

Section Chat.

Variables (req : ChatRequest) (env : ChatEnv).

Let msgs : list Message := messages_of req.

Lemma last_user_of_cases :
  (forallb (fun x => negb (is_user x)) msgs = true
   /\ last_user_of msgs = Ok "")
  \/ exists m,
       last_user_message msgs m
       /\ last_user_of msgs =
          match m_content m with
          | Missing => Ok ""
          | Null =>
              Raise (Exception "'NoneType' object has no attribute 'strip'")
          | Val s => Ok (Py.strip s)
          end.
Proof.
  unfold last_user_of.
  destruct (find is_user (rev msgs)) as [m|] eqn:E.
  - right. exists m. split; [now apply find_rev_Some|].
    destruct (m_content m); reflexivity.
  - left. split; [now apply find_rev_None|reflexivity].
Qed.

Lemma last_user_message_unique (m m' : Message) :
  last_user_message msgs m -> last_user_message msgs m' -> m = m'.
Proof.
  intros H H'. apply find_rev_Some in H, H'. congruence.
Qed.


Lemma chat_unfold :
  chat req env =
  match last_user_of msgs with
  | Raise e => (Raise e, [])
  | Ok u =>
      let body := generate env (Py.or_else (Some u) "Hello") in
      match try_ollama env body with
      | (Some reply, printed) =>
          (Ok {| reply := reply; source := "ollama" |},
           Posted ollama_url body 60 :: printed)
      | (None, printed1) =>
          match try_openai env msgs with
          | (Some reply, events2) =>
              (Ok {| reply := reply; source := "openai" |},
               (Posted ollama_url body 60 :: printed1) ++ events2)%list
          | (None, events2) =>
              (Ok {| reply := "You said: " ++ u; source := "echo" |},
               (Posted ollama_url body 60 :: printed1) ++ events2)%list
          end
      end
  end.
Proof. reflexivity. Qed.

Lemma or_else_empty (s : string) : Py.or_else (Some s) "" = s.
Proof.
  unfold Py.or_else. destruct (Py.truthy s) eqn:E; [reflexivity|].
  now apply truthy_false in E.
Qed.

Lemma try_ollama_Some (body : GenerateRequest) (answer : string)
    (printed : list ChatEvent) :
  try_ollama env body = (Some answer, printed) ->
  printed = [] /\ answer <> ""
  /\ exists resp s,
       requests_post env ollama_url body 60 = Ok resp
       /\ resp_ok resp = true
       /\ resp_json resp = Ok (Some s)
       /\ answer = Py.strip s.
Proof.
  unfold try_ollama.
  destruct (requests_post env ollama_url body 60) as [resp|e]; [|discriminate].
  destruct (resp_ok resp) eqn:Eok; [|discriminate].
  destruct (resp_json resp) as [[s|]|e] eqn:Ej; try discriminate.
  - rewrite or_else_empty.
    destruct (Py.truthy (Py.strip s)) eqn:Et; [|discriminate].
    intros H. injection H as <- <-. apply truthy_true in Et.
    split; [reflexivity|]. split; [exact Et|].
    exists resp, s. auto.
Qed.

Lemma try_ollama_None (body : GenerateRequest) (printed : list ChatEvent) :
  try_ollama env body = (None, printed) ->
  (forall ev, In ev printed -> exists line, ev = Printed line)
  /\ forall resp s,
       requests_post env ollama_url body 60 = Ok resp ->
       resp_ok resp = true ->
       resp_json resp = Ok (Some s) ->
       Py.strip s = "".
Proof.
  unfold try_ollama.
  destruct (requests_post env ollama_url body 60) as [resp|e].
  - destruct (resp_ok resp) eqn:Eok.
    + destruct (resp_json resp) as [[s|]|e] eqn:Ej.
      * rewrite or_else_empty.
        destruct (Py.truthy (Py.strip s)) eqn:Et; [discriminate|].
        intros H. injection H as <-. split; [intros ev []|].
        intros resp' s' H1 _ H2. injection H1 as <-.
        rewrite Ej in H2. injection H2 as <-. now apply truthy_false.
      * intros H. injection H as <-. split; [intros ev []|].
        intros resp' s' H1 _ H2. injection H1 as <-. congruence.
      * intros H. injection H as <-. split.
        -- intros ev [<-|[]]. eauto.
        -- intros resp' s' H1 _ H2. injection H1 as <-. congruence.
    + intros H. injection H as <-. split.
      * intros ev [<-|[]]. eauto.
      * intros resp' s' H1 H2 _. injection H1 as <-. congruence.
  - intros H. injection H as <-. split.
    + intros ev [<-|[]]. eauto.
    + intros resp' s' H1. discriminate.
Qed.

Lemma try_openai_events (answer : option string) (events : list ChatEvent) :
  try_openai env msgs = (answer, events) ->
  (events = [] /\ answer = None
   /\ (getenv env "OPENAI_API_KEY" = None
       \/ getenv env "OPENAI_API_KEY" = Some ""))
  \/ exists key printed,
       getenv env "OPENAI_API_KEY" = Some key
       /\ key <> ""
       /\ events =
          Created key (getenv_default env "OPENAI_MODEL" "gpt-4o-mini")
            (conversation msgs) (3 # 10) :: printed
       /\ (forall ev, In ev printed -> exists line, ev = Printed line)
       /\ forall a,
            answer = Some a ->
            a <> ""
            /\ openai_create env key
                 (getenv_default env "OPENAI_MODEL" "gpt-4o-mini")
                 (conversation msgs) (3 # 10) = Ok (Some a).
Proof.
  unfold try_openai.
  destruct (getenv env "OPENAI_API_KEY") as [key|] eqn:Ek.
  - destruct (Py.truthy key) eqn:Et.
    + apply truthy_true in Et. intros H. right. exists key.
      destruct (openai_create env key _ (conversation msgs) (3 # 10))
        as [[a|]|e] eqn:Ec.
      * destruct (Py.truthy a) eqn:Ea; injection H as <- <-; exists [];
          (split; [reflexivity|]); (split; [exact Et|]);
          (split; [reflexivity|]); (split; [intros ev []|]);
          intros a' Ha; [|discriminate].
        injection Ha as <-. apply truthy_true in Ea. now split.
      * injection H as <- <-. exists [].
        split; [reflexivity|]. split; [exact Et|]. split; [reflexivity|].
        split; [intros ev []|]. intros a' Ha. discriminate.
      * injection H as <- <-. eexists.
        split; [reflexivity|]. split; [exact Et|]. split; [reflexivity|].
        split; [intros ev [<-|[]]; eauto|]. intros a' Ha. discriminate.
    + apply truthy_false in Et. subst key. intros H. injection H as <- <-.
      left. auto.
  - intros H. injection H as <- <-. left. auto.
Qed.

(** X24. The handler fails in one case only: the last message whose role is
    "user" has a null content.  Nothing has been sent anywhere by then.
    Whatever Ollama and OpenAI do (refuse the connection, answer with an
    error status, with something that is not JSON, or with nothing), the
    handler answers. *)
Theorem chat_raises_iff (e : exn) :
  (fst (chat req env) = Raise e
   <-> exists m,
         last_user_message msgs m
         /\ m_content m = Null
         /\ e = Exception "'NoneType' object has no attribute 'strip'")
  /\ (fst (chat req env) = Raise e -> snd (chat req env) = []).
Proof.
  rewrite chat_unfold.
  assert (forall u,
            exists r ev,
              (let body := generate env (Py.or_else (Some u) "Hello") in
               match try_ollama env body with
               | (Some reply, printed) =>
                   (Ok {| reply := reply; source := "ollama" |},
                    Posted ollama_url body 60 :: printed)
               | (None, printed1) =>
                   match try_openai env msgs with
                   | (Some reply, events2) =>
                       (Ok {| reply := reply; source := "openai" |},
                        (Posted ollama_url body 60 :: printed1) ++ events2)%list
                   | (None, events2) =>
                       (Ok {| reply := "You said: " ++ u; source := "echo" |},
                        (Posted ollama_url body 60 :: printed1) ++ events2)%list
                   end
               end) = (Ok r, ev)) as Hok.
  { intros u. cbv zeta.
    destruct (try_ollama env _) as [[a|] printed]; [eauto|].
    destruct (try_openai env msgs) as [[a|] events2]; eauto. }
  destruct last_user_of_cases as [[Hnone Hl]|(m & Hm & Hl)].
  - rewrite Hl. destruct (Hok "") as (r & ev & ->). cbn [fst snd].
    split; [|discriminate]. split; [discriminate|].
    intros (m & (before & after & Heq & Hu & _) & _).
    rewrite Heq, forallb_app in Hnone. cbn [forallb] in Hnone.
    rewrite Hu in Hnone. cbn [negb andb] in Hnone.
    now rewrite andb_false_r in Hnone.
  - rewrite Hl. destruct (m_content m) as [| |s] eqn:Ec.
    + destruct (Hok "") as (r & ev & ->). cbn [fst snd].
      split; [|discriminate]. split; [discriminate|].
      intros (m' & Hm' & Hc' & _).
      rewrite (last_user_message_unique m' m Hm' Hm) in Hc'. congruence.
    + cbn [fst snd]. split; [|reflexivity]. split.
      * intros H. injection H as <-. exists m. auto.
      * intros (m' & _ & _ & ->). reflexivity.
    + destruct (Hok (Py.strip s)) as (r & ev & ->). cbn [fst snd].
      split; [|discriminate]. split; [discriminate|].
      intros (m' & Hm' & Hc' & _).
      rewrite (last_user_message_unique m' m Hm' Hm) in Hc'. congruence.
Qed.

(** X25. The three kinds of answer.  The reply is never empty.  An answer from
    Ollama is the trimmed "response" of a successful reply to the one
    request posted, and then nothing else is contacted or printed; an answer
    from OpenAI is what the completion gave, untrimmed, and needs a
    non-empty API key and no usable reply from Ollama; the echo is
    "You said: " followed by the trimmed content of the last user message. *)
Theorem chat_answer_kinds (r : ChatReply) :
  fst (chat req env) = Ok r ->
  exists u,
    last_user_of msgs = Ok u
    /\ reply r <> ""
    /\ ((source r = "ollama"
         /\ snd (chat req env)
            = [Posted ollama_url
                 (generate env (Py.or_else (Some u) "Hello")) 60]
         /\ exists resp s,
              requests_post env ollama_url
                (generate env (Py.or_else (Some u) "Hello")) 60 = Ok resp
              /\ resp_ok resp = true
              /\ resp_json resp = Ok (Some s)
              /\ reply r = Py.strip s)
        \/ (source r = "openai"
            /\ (forall resp s,
                  requests_post env ollama_url
                    (generate env (Py.or_else (Some u) "Hello")) 60 = Ok resp ->
                  resp_ok resp = true ->
                  resp_json resp = Ok (Some s) ->
                  Py.strip s = "")
            /\ exists key,
                 getenv env "OPENAI_API_KEY" = Some key
                 /\ key <> ""
                 /\ openai_create env key
                      (getenv_default env "OPENAI_MODEL" "gpt-4o-mini")
                      (conversation msgs) (3 # 10) = Ok (Some (reply r)))
        \/ (source r = "echo" /\ reply r = "You said: " ++ u)).
Proof.
  rewrite chat_unfold.
  destruct (last_user_of msgs) as [u|e]; [|discriminate].
  cbv zeta.
  destruct (try_ollama env _) as [[a|] printed] eqn:Eo.
  - apply try_ollama_Some in Eo as (-> & Hne & resp & s & H1 & H2 & H3 & ->).
    cbn [fst snd]. intros H. injection H as <-. exists u.
    split; [reflexivity|]. cbn [reply source]. split; [exact Hne|].
    left. split; [reflexivity|]. split; [reflexivity|]. exists resp, s. auto.
  - apply try_ollama_None in Eo as [_ Hno].
    destruct (try_openai env msgs) as [[a|] events2] eqn:Ea.
    + apply try_openai_events in Ea
        as [(_ & Hnone & _)|(key & printed' & Hk & Hkne & _ & _ & Ha)];
        [discriminate|].
      destruct (Ha a eq_refl) as [Hane Hcreate].
      cbn [fst snd]. intros H. injection H as <-. exists u.
      split; [reflexivity|]. cbn [reply source]. split; [exact Hane|].
      right. left. split; [reflexivity|]. split; [exact Hno|].
      exists key. auto.
    + cbn [fst snd]. intros H. injection H as <-. exists u.
      split; [reflexivity|]. cbn [reply source]. split; [discriminate|].
      right. right. auto.
Qed.

(** X26. Ollama comes first: when it answers with a response that is not blank,
    the reply is that response, trimmed, and OpenAI is not contacted, API
    key or not. *)
Theorem chat_ollama_first (u : string) (resp : HttpResponse) (s : string) :
  last_user_of msgs = Ok u ->
  requests_post env ollama_url (generate env (Py.or_else (Some u) "Hello")) 60
    = Ok resp ->
  resp_ok resp = true ->
  resp_json resp = Ok (Some s) ->
  Py.strip s <> "" ->
  chat req env =
    (Ok {| reply := Py.strip s; source := "ollama" |},
     [Posted ollama_url (generate env (Py.or_else (Some u) "Hello")) 60]).
Proof.
  intros Hu Hpost Hok Hjson Hs. rewrite chat_unfold, Hu. cbv zeta.
  unfold try_ollama. rewrite Hpost, Hok, Hjson, or_else_empty.
  apply truthy_true in Hs. now rewrite Hs.
Qed.

(** X27. OpenAI is tried only with a non-empty API key and only after Ollama
    failed to give a usable reply; it is given the model of OPENAI_MODEL
    (gpt-4o-mini by default), the conversation built from the messages and
    a temperature of 0.3, and it is tried at most once. *)
Theorem chat_openai_guard (key model : string) (conv : list ChatMessage)
    (t : Q) :
  In (Created key model conv t) (snd (chat req env)) ->
  getenv env "OPENAI_API_KEY" = Some key
  /\ key <> ""
  /\ model = getenv_default env "OPENAI_MODEL" "gpt-4o-mini"
  /\ conv = conversation msgs
  /\ t = 3 # 10
  /\ exists u,
       last_user_of msgs = Ok u
       /\ (forall resp s,
             requests_post env ollama_url
               (generate env (Py.or_else (Some u) "Hello")) 60 = Ok resp ->
             resp_ok resp = true ->
             resp_json resp = Ok (Some s) ->
             Py.strip s = "")
       /\ exists before after,
            snd (chat req env) =
              (before ++ Created key model conv t :: after)%list
            /\ (forall ev, In ev (before ++ after) ->
                  (exists url body timeout, ev = Posted url body timeout)
                  \/ exists line, ev = Printed line).
Proof.
  rewrite chat_unfold.
  destruct (last_user_of msgs) as [u|e]; [|intros []].
  cbv zeta.
  destruct (try_ollama env _) as [[a|] printed] eqn:Eo.
  - apply try_ollama_Some in Eo as (-> & _). cbn [snd].
    intros [H|[]]. discriminate.
  - apply try_ollama_None in Eo as [Hprinted Hno].
    assert (forall answer events,
              try_openai env msgs = (answer, events) ->
              In (Created key model conv t)
                ((Posted ollama_url
                    (generate env (Py.or_else (Some u) "Hello")) 60
                  :: printed) ++ events) ->
              getenv env "OPENAI_API_KEY" = Some key
              /\ key <> ""
              /\ model = getenv_default env "OPENAI_MODEL" "gpt-4o-mini"
              /\ conv = conversation msgs
              /\ t = 3 # 10
              /\ exists before after,
                   ((Posted ollama_url
                       (generate env (Py.or_else (Some u) "Hello")) 60
                     :: printed) ++ events)%list
                   = (before ++ Created key model conv t :: after)%list
                   /\ (forall ev, In ev (before ++ after) ->
                         (exists url body timeout,
                            ev = Posted url body timeout)
                         \/ exists line, ev = Printed line)) as Hopenai.
    { intros answer events Ea Hin.
      assert (In (Created key model conv t) events) as Hin'.
      { apply in_app_or in Hin as [[H|H]|H]; [discriminate| |exact H].
        destruct (Hprinted _ H) as [line Hl]. discriminate. }
      apply try_openai_events in Ea
        as [(-> & _)|(k & printed' & Hk & Hkne & -> & Hp' & _)];
        [destruct Hin'|].
      destruct Hin' as [H|H];
        [|destruct (Hp' _ H) as [line Hl]; discriminate].
      injection H as <- <- <- <-.
      repeat (split; [assumption || reflexivity|]).
      exists (Posted ollama_url
                (generate env (Py.or_else (Some u) "Hello")) 60 :: printed),
        printed'.
      split; [reflexivity|].
      intros ev Hev. apply in_app_or in Hev as [[<-|Hev]|Hev]; eauto. }
    destruct (try_openai env msgs) as [[a|] events2] eqn:Ea; cbn [snd];
      intros Hin;
      destruct (Hopenai _ _ eq_refl Hin)
        as (H1 & H2 & H3 & H4 & H5 & before & after & H6 & H7);
      repeat (split; [assumption|]);
      (exists u; split; [reflexivity|]; split; [exact Hno|]);
      exists before, after; auto.
Qed.


(** X28. Without a usable API key, a failure of Ollama ends in the echo: when
    the request raises (connection refused, timeout, [requests] missing) or
    is answered with an error status, the failure is printed and the reply
    is "You said: " followed by the trimmed content of the last user
    message. *)
Theorem chat_echo_when_ollama_fails (u : string) :
  last_user_of msgs = Ok u ->
  getenv env "OPENAI_API_KEY" = None \/ getenv env "OPENAI_API_KEY" = Some "" ->
  (forall e,
     requests_post env ollama_url
       (generate env (Py.or_else (Some u) "Hello")) 60 = Raise e ->
     chat req env =
       (Ok {| reply := "You said: " ++ u; source := "echo" |},
        [Posted ollama_url (generate env (Py.or_else (Some u) "Hello")) 60;
         Printed ("Ollama exception: " ++ exn_str e)]))
  /\ (forall resp,
        requests_post env ollama_url
          (generate env (Py.or_else (Some u) "Hello")) 60 = Ok resp ->
        resp_ok resp = false ->
        chat req env =
          (Ok {| reply := "You said: " ++ u; source := "echo" |},
           [Posted ollama_url (generate env (Py.or_else (Some u) "Hello")) 60;
            Printed ("Ollama HTTP error: " ++ Py.str_of_N (resp_status resp)
                     ++ " " ++ Py.take 200 (resp_text resp))])).
Proof.
  intros Hu Hkey.
  assert (try_openai env msgs = (None, [])) as Hopenai
    by (unfold try_openai; destruct Hkey as [-> | ->]; reflexivity).
  split.
  - intros e Hpost. rewrite chat_unfold, Hu. cbv zeta.
    unfold try_ollama. now rewrite Hpost, Hopenai.
  - intros resp Hpost Hok. rewrite chat_unfold, Hu. cbv zeta.
    unfold try_ollama. now rewrite Hpost, Hok, Hopenai.
Qed.

(** X29. Whenever the handler answers, it has first posted exactly one request
    to Ollama, at the local address and with a timeout of 60 seconds,
    streaming off and a temperature of 0.3.  Its prompt is never empty: it
    is the trimmed content of the last user message, and "Hello" when there
    is no user message or when that content is missing or blank. *)
Theorem chat_prompt (r : ChatReply) :
  fst (chat req env) = Ok r ->
  exists prompt rest,
    snd (chat req env) =
      Posted "http://127.0.0.1:11434/api/generate"
        {| g_model := getenv_default env "OLLAMA_MODEL" "llama3.2:3b";
           g_prompt := prompt;
           g_stream := false;
           g_temperature := 3 # 10 |} 60 :: rest
    /\ (forall url body timeout, In (Posted url body timeout) rest -> False)
    /\ prompt <> ""
    /\ (forall m s,
          last_user_message msgs m -> m_content m = Val s ->
          Py.strip s <> "" -> prompt = Py.strip s)
    /\ (forall m s,
          last_user_message msgs m -> m_content m = Val s ->
          Py.strip s = "" -> prompt = "Hello")
    /\ (forall m,
          last_user_message msgs m -> m_content m = Missing ->
          prompt = "Hello")
    /\ (forallb (fun x => negb (is_user x)) msgs = true -> prompt = "Hello").
Proof.
  intros Hok.
  assert (exists u rest,
            last_user_of msgs = Ok u
            /\ snd (chat req env) =
               Posted ollama_url (generate env (Py.or_else (Some u) "Hello")) 60
               :: rest
            /\ forall url body timeout,
                 In (Posted url body timeout) rest -> False)
    as (u & rest & Hu & Hev & Hrest).
  { revert Hok. rewrite chat_unfold.
    destruct (last_user_of msgs) as [u|e]; [|discriminate].
    cbv zeta. intros _.
    destruct (try_ollama env _) as [[a|] printed] eqn:Eo.
    - apply try_ollama_Some in Eo as (-> & _).
      exists u, []. split; [reflexivity|]. split; [reflexivity|]. intros ? ? ? [].
    - apply try_ollama_None in Eo as [Hprinted _].
      assert (forall answer events,
                try_openai env msgs = (answer, events) ->
                forall url body timeout,
                  In (Posted url body timeout) (printed ++ events) -> False)
        as Hno.
      { intros answer events Ea url body timeout Hin.
        apply in_app_or in Hin as [H|H].
        - destruct (Hprinted _ H) as [line Hl]. discriminate.
        - apply try_openai_events in Ea
            as [(-> & _)|(k & printed' & _ & _ & -> & Hp' & _)];
            [destruct H|].
          destruct H as [H|H]; [discriminate|].
          destruct (Hp' _ H) as [line Hl]. discriminate. }
      destruct (try_openai env msgs) as [[a|] events2] eqn:Ea; cbn [snd app];
        exists u, (printed ++ events2)%list;
        (split; [reflexivity|]); (split; [reflexivity|]);
        exact (Hno _ _ eq_refl). }
  exists (Py.or_else (Some u) "Hello"), rest.
  split; [exact Hev|]. split; [exact Hrest|].
  assert (Py.or_else (Some u) "Hello" = if Py.truthy u then u else "Hello")
    as -> by reflexivity.
  split.
  { destruct (Py.truthy u) eqn:E; [now apply truthy_true|discriminate]. }
  destruct last_user_of_cases as [[Hnone Hl]|(m & Hm & Hl)].
  - assert (u = "") as -> by congruence. cbn.
    repeat split; try reflexivity.
    intros m s (before & after & Heq & Him & _) _ _. exfalso.
    rewrite Heq, forallb_app in Hnone. cbn [forallb] in Hnone.
    rewrite Him in Hnone. cbn [negb andb] in Hnone.
    now rewrite andb_false_r in Hnone.
  - repeat split.
    + intros m' s Hm' Hc Hs.
      rewrite (last_user_message_unique m' m Hm' Hm) in Hc.
      rewrite Hc in Hl. assert (u = Py.strip s) as -> by congruence.
      apply truthy_true in Hs. now rewrite Hs.
    + intros m' s Hm' Hc Hs.
      rewrite (last_user_message_unique m' m Hm' Hm) in Hc.
      rewrite Hc in Hl. assert (u = Py.strip s) as -> by congruence.
      now rewrite Hs.
    + intros m' Hm' Hc.
      rewrite (last_user_message_unique m' m Hm' Hm) in Hc.
      rewrite Hc in Hl. assert (u = "") as -> by congruence. reflexivity.
    + intros Hnone. destruct Hm as (before & after & Heq & Him & _).
      rewrite Heq, forallb_app in Hnone. cbn [forallb] in Hnone.
      rewrite Him in Hnone. cbn [negb andb] in Hnone.
      now rewrite andb_false_r in Hnone.
Qed.

End Chat.

Section Conversation.

Lemma conversation_from (msgs : list Message) (acc : list ChatMessage) :
  fold_left
    (fun conv m =>
       let role := Py.or_else (m_role m) "user" in
       let content := Py.strip (content_or_empty m) in
       if Py.truthy content
       then (conv ++ [ {| c_role := role; c_content := content |} ])%list
       else conv)
    msgs acc
  = (acc ++ map chat_message_of (filter has_content msgs))%list.
Proof.
  revert acc. induction msgs as [|m msgs IH]; intros acc.
  - cbn. now rewrite app_nil_r.
  - cbn [fold_left filter]. rewrite IH. unfold has_content at 2.
    destruct (Py.truthy (Py.strip (content_or_empty m))).
    + cbn [map]. now rewrite <- app_assoc.
    + reflexivity.
Qed.

(** X30. The conversation given to OpenAI is the system message followed by the
    messages that have a content that is not blank, in their order; each
    keeps its role, "user" standing in for a missing or empty one, and its
    content is trimmed.  So no message of the conversation has an empty
    content or an empty role, and the conversation is never empty. *)
Theorem conversation_spec (msgs : list Message) :
  conversation msgs
  = system_message :: map chat_message_of (filter has_content msgs)
  /\ (forall c, In c (conversation msgs) ->
        c_content c <> "" /\ c_role c <> "")
  /\ (List.length (conversation msgs) <= 1 + List.length msgs)%nat.
Proof.
  assert (conversation msgs
          = system_message :: map chat_message_of (filter has_content msgs))
    as E by (unfold conversation; now rewrite conversation_from).
  split; [exact E|]. rewrite E. split.
  - intros c [<-|Hin]; [split; discriminate|].
    apply in_map_iff in Hin as (m & <- & Hm).
    apply filter_In in Hm as [_ Hm]. unfold has_content in Hm.
    apply truthy_true in Hm. split; [exact Hm|].
    unfold chat_message_of, Py.or_else. cbn [c_role].
    destruct (m_role m) as [role|]; [|discriminate].
    destruct (Py.truthy role) eqn:Er; [now apply truthy_true|discriminate].
  - cbn [List.length]. rewrite length_map.
    pose proof (filter_length_le has_content msgs). lia.
Qed.

End Conversation.

(* ================================================================== *)
(** * Instances *)

Lemma readability_from_mi_witness :
  readability
    (score_from
       {| mi := Some (Py.Float (145 # 2)); avg_cc := None; max_cc := None |}
       [] [] "x = 1")
  = 72.
Proof.
  refine (proj1
            (proj2 (proj2
               (proj2
                  (readability_from_mi
                     {| mi := Some (Py.Float (145 # 2));
                        avg_cc := None; max_cc := None |}
                     [] [] "x = 1" eq_refl)
                  (Py.Float (145 # 2)) eq_refl)) _ _));
    unfold Qle; simpl; lia.
Defined.

Lemma complexity_score_monotone_witness :
  complexity
    (score_from (metrics_with_avg (Py.Float (13 # 2))) [] [] "x = 1")
  <= complexity (score_from (metrics_with_avg (Py.Int 2)) [] [] "x = 1").
Proof.
  apply (complexity_score_monotone
           (metrics_with_avg (Py.Int 2)) (metrics_with_avg (Py.Float (13 # 2)))
           [] [] [] [] "x = 1" "x = 1" (Py.Int 2) (Py.Float (13 # 2)));
    try reflexivity.
  unfold Qle; simpl; lia.
Defined.

Lemma security_score_monotone_witness :
  security
    (score_from no_metrics [] ([finding "LOW"] ++ [finding "HIGH"]) "x = 1")
  <= security (score_from no_metrics [] [finding "LOW"] "x = 1").
Proof.
  apply (security_score_monotone no_metrics [] [finding "LOW"]
           [finding "HIGH"] "x = 1").
  reflexivity.
Defined.

Lemma testing_score_characterised_witness :
  testing (score_from no_metrics [] [] ("def" ++ nbsp ++ "test_f(): pass"))
  = 80.
Proof.
  apply (testing_score_characterised no_metrics [] []
           ("def" ++ nbsp ++ "test_f(): pass")).
  - reflexivity.
  - exists [], [160%N], (Py.ords "f(): pass").
    split; [discriminate|]. split; [reflexivity|]. split; [reflexivity|].
    left. reflexivity.
Defined.




Lemma review_result_composition_witness :
  exists ruff metrics sec,
    fst (run_ruff "/tmp/tmp0.py" env_clean
           {| fs := [("/tmp/tmp0.py", "print(1)")]; spawned := [] |}) = Ok ruff
    /\ fst (run_radon_metrics "/tmp/tmp0.py" env_clean
              {| fs := [("/tmp/tmp0.py", "print(1)")];
                 spawned := [ruff_call "/tmp/tmp0.py"] |}) = Ok metrics
    /\ fst (run_bandit "/tmp/tmp0.py" env_clean
              {| fs := [("/tmp/tmp0.py", "print(1)")];
                 spawned := [ruff_call "/tmp/tmp0.py";
                             radon_mi_call "/tmp/tmp0.py";
                             radon_cc_call "/tmp/tmp0.py"] |}) = Ok sec
    /\ issues (review_of clean_metrics [] [] "print(1)" "1")
       = ([] ++ ruff ++ map issue_of_finding sec)%list
    /\ scores (review_of clean_metrics [] [] "print(1)" "1")
       = score_from metrics [] sec "print(1)"
    /\ suggestions (review_of clean_metrics [] [] "print(1)" "1")
       = build_suggestions metrics [] sec "print(1)"
    /\ summary (review_of clean_metrics [] [] "print(1)" "1")
       = pretty_summary metrics (lint_count_of []) (List.length sec)
    /\ output (review_of clean_metrics [] [] "print(1)" "1") <> "".
Proof.
  apply (review_result_composition (request_of "print(1)") env_clean start
           (review_of clean_metrics [] [] "print(1)" "1"));
    reflexivity.
Defined.

Lemma review_lint_count_includes_bandit_witness :
  summary
    (review_of clean_metrics [issue_of_finding (finding "LOW")]
       [finding "LOW"] "assert x" "1")
  = "Maintainability Index: 100 | Complexity: avg 0.0 (trivial), max 0.0 | Ruff: 1 issues | Bandit: 1 findings".
Proof.
  destruct (review_lint_count_includes_bandit
              (request_of "assert x") env_assert start
              (review_of clean_metrics [issue_of_finding (finding "LOW")]
                 [finding "LOW"] "assert x" "1")
              eq_refl eq_refl)
    as (ruff & metrics & sec & H1 & H2 & H3 & H4 & _).
  vm_compute in H1, H2, H3.
  injection H1 as <-. injection H2 as <-. injection H3 as <-.
  exact H4.
Defined.

Lemma review_of_unparsable_code_witness :
  (exists rest,
     issues
       (review_of clean_metrics
          [syntax_issue_of {| msg := "invalid syntax"; lineno := Some 1 |}]
          [] "def f(:" "ERR: SyntaxError: invalid syntax")
     = {| issue_type := Some "SYNTAX_ERROR";
          issue_detail := Some "invalid syntax";
          issue_line := Some 1 |} :: rest)
  /\ scores
       (review_of clean_metrics
          [syntax_issue_of {| msg := "invalid syntax"; lineno := Some 1 |}]
          [] "def f(:" "ERR: SyntaxError: invalid syntax")
     = {| readability := 0; complexity := 0; security := 0; testing := 0 |}
  /\ In (["python"; "/tmp/tmp1.py"], 5)
       (spawned (snd (review (request_of "def f(:") env_unparsable start))).
Proof.
  destruct (review_of_unparsable_code
              (request_of "def f(:") env_unparsable start
              {| msg := "invalid syntax"; lineno := Some 1 |}
              (review_of clean_metrics
                 [syntax_issue_of
                    {| msg := "invalid syntax"; lineno := Some 1 |}]
                 [] "def f(:" "ERR: SyntaxError: invalid syntax")
              eq_refl eq_refl eq_refl)
    as (H1 & _ & _ & _ & _ & _ & H7).
  split; [exact H1|]. split; [reflexivity|exact H7].
Defined.

Lemma chat_answer_kinds_witness :
  exists u,
    last_user_of [ {| m_role := Some "user"; m_content := Val " hi " |} ]
    = Ok u
    /\ "You said: hi" <> ""
    /\ "You said: hi" = "You said: " ++ u.
Proof.
  destruct (chat_answer_kinds (user_says (Val " hi ")) chat_env_offline
              {| reply := "You said: hi"; source := "echo" |} eq_refl)
    as (u & Hu & Hne & [(H & _)|[(H & _)|(_ & H)]]); try discriminate H.
  exists u. auto.
Defined.

Lemma chat_ollama_first_witness :
  chat (user_says (Val " hi ")) chat_env_ollama
  = (Ok {| reply := "Hi there."; source := "ollama" |},
     [Posted "http://127.0.0.1:11434/api/generate"
        {| g_model := "llama3.2:3b"; g_prompt := "hi"; g_stream := false;
           g_temperature := 3 # 10 |} 60]).
Proof.
  apply (chat_ollama_first (user_says (Val " hi ")) chat_env_ollama "hi"
           {| resp_ok := true; resp_status := 200; resp_text := "{..}";
              resp_json := Ok (Some " Hi there. ") |} " Hi there. ");
    try reflexivity.
  discriminate.
Defined.

Lemma chat_openai_guard_witness :
  getenv chat_env_openai "OPENAI_API_KEY" = Some "sk-test"
  /\ "sk-test" <> ""
  /\ fst (chat (user_says (Val " hi ")) chat_env_openai)
     = Ok {| reply := "Hello from OpenAI"; source := "openai" |}.
Proof.
  destruct (chat_openai_guard (user_says (Val " hi ")) chat_env_openai
              "sk-test" "gpt-4o-mini"
              [system_message; {| c_role := "user"; c_content := "hi" |}]
              (3 # 10))
    as (H1 & H2 & _).
  - right. right. left. reflexivity.
  - split; [exact H1|]. split; [exact H2|reflexivity].
Defined.

Lemma chat_echo_when_ollama_fails_witness :
  chat (user_says (Val " hi ")) chat_env_offline
  = (Ok {| reply := "You said: hi"; source := "echo" |},
     [Posted "http://127.0.0.1:11434/api/generate"
        {| g_model := "llama3.2:3b"; g_prompt := "hi"; g_stream := false;
           g_temperature := 3 # 10 |} 60;
      Printed "Ollama exception: Connection refused"]).
Proof.
  apply (proj1 (chat_echo_when_ollama_fails (user_says (Val " hi "))
                  chat_env_offline "hi" eq_refl (or_introl eq_refl))
           (Exception "Connection refused")).
  reflexivity.
Defined.

Lemma chat_prompt_witness :
  exists prompt rest,
    snd (chat (user_says (Val nbsp)) chat_env_offline)
    = Posted "http://127.0.0.1:11434/api/generate"
        {| g_model := "llama3.2:3b"; g_prompt := prompt; g_stream := false;
           g_temperature := 3 # 10 |} 60 :: rest
    /\ prompt = "Hello".
Proof.
  destruct (chat_prompt (user_says (Val nbsp)) chat_env_offline
              {| reply := "You said: "; source := "echo" |} eq_refl)
    as (prompt & rest & H1 & _ & _ & _ & H5 & _).
  exists prompt, rest. split; [exact H1|].
  apply (H5 {| m_role := Some "user"; m_content := Val nbsp |} nbsp);
    [|reflexivity|reflexivity].
  exists [], []. repeat split.
Defined.

Lemma review_bad_request_iff_witness :
  fst (review (request_of (nbsp ++ " ")) env_clean start)
  = Ok (BadRequest "No code provided.").
Proof.
  apply (proj1 (review_bad_request_iff (request_of (nbsp ++ " ")) env_clean
                  start "No code provided.")).
  split; reflexivity.
Defined.


Lemma conversation_spec_witness :
  conversation
    [ {| m_role := None; m_content := Val ("hi" ++ nbsp) |};
      {| m_role := Some "assistant"; m_content := Val nbsp |};
      {| m_role := Some "user"; m_content := Null |} ]
  = [ system_message; {| c_role := "user"; c_content := "hi" |} ].
Proof.
  rewrite (proj1 (conversation_spec _)). reflexivity.
Defined.

